(** * FastForm: schema validation and chat orchestration

    A shallow embedding of [app/fastform.py] (the form schema),
    [app/ai.py] (the per-turn orchestration of the language model), the
    two [chat] services of [app/services.py], the chat and history
    endpoints of [app/api.py] and [init_models] of [app/main.py],
    followed by the properties established about them.

    Conventions of the embedding.
    - Input to validation is a JSON document ([JValue]); a Python [dict]
      is an association list read with [get].  Floats are kept as their
      literal: the schema never computes with them.
    - A pydantic model becomes a record and a function [X_validate] from
      documents to [Result X]; [X_dump] is [model_dump(mode="json")].
      All models inherit [extra="forbid"] and declare every attribute
      with [Field(...)] or without default, so every attribute is
      required and no other key is admitted.
    - Scalars are validated exactly (a JSON string for [str], a JSON
      integer for [int], a JSON boolean for [bool]); the conversions of
      pydantic's lax mode are left out.  In that fragment every
      accepting member of a union is an exact match that sets the same
      number of attributes, so smart-mode unions pick the first
      accepting member in declaration order.
    - Errors carry pydantic's error kind and location; the only
      messages are those the source raises itself.
    - A validator of mode "after" on a model receives the validated
      instance; a validator of mode "after" on an attribute receives
      the validated value and, in [info.data], the attributes
      validated before it. *)

From Stdlib Require Import String Ascii List ZArith Bool Arith Lia.
From Stdlib Require Import DecimalString.
Import ListNotations.
Open Scope string_scope.
Open Scope list_scope.

(** ** JSON documents *)

Unset Elimination Schemes.
Inductive JValue : Type :=
| JNull
| JBool (b : bool)
| JInt (n : Z)
| JFloat (lit : string)
| JStr (s : string)
| JList (items : list JValue)
| JObj (members : list (string * JValue)).
Set Elimination Schemes.

Definition Obj := list (string * JValue).

Fixpoint get (k : string) (o : Obj) : option JValue :=
  match o with
  | [] => None
  | (k', v) :: rest => if String.eqb k k' then Some v else get k rest
  end.

Definition keys (o : Obj) : list string := map fst o.

Definition mem (k : string) (l : list string) : bool :=
  existsb (String.eqb k) l.

(** ** Validation results *)

Inductive LocItem :=
| Key (k : string)
| Index (i : nat).

Inductive ErrorType :=
| missing
| extra_forbidden
| model_type
| string_type
| int_type
| float_type
| bool_type
| list_type
| too_short
| too_long
| enum_error
| literal_error
| value_error (msg : string).

Record ErrorDetails := mkError {
  err_type : ErrorType;
  err_loc : list LocItem
}.

(** The exceptions that the embedded code raises or lets through. *)
Inductive Exception :=
| HTTPException (status_code : nat) (detail : string)
| ValidationError (errors : list ErrorDetails)
| ModelError (reason : string)
| KeyError (key : string)
| TypeError
| IndexError
| AttributeError
| UnicodeDecodeError.

(** The outcome of validating a document against a model: an instance,
    the errors of a [ValidationError], or an exception of another
    kind that a validator let escape; pydantic turns only [ValueError]
    and [AssertionError] into validation errors, and validation stops
    where anything else is raised. *)
Inductive Result (A : Type) : Type :=
| Ok (a : A)
| Invalid (errors : list ErrorDetails)
| Raised (e : Exception).

Arguments Ok {A} a.
Arguments Invalid {A} errors.
Arguments Raised {A} e.

Definition isOk {A} (r : Result A) : bool :=
  match r with Ok _ => true | _ => false end.

Definition raised {A} (r : Result A) : bool :=
  match r with Raised _ => true | _ => false end.

Definition fail {A} (t : ErrorType) : Result A := Invalid [mkError t []].

Definition prefix (l : LocItem) (e : ErrorDetails) : ErrorDetails :=
  mkError (err_type e) (l :: err_loc e).

Definition at_loc {A} (l : LocItem) (r : Result A) : Result A :=
  match r with
  | Ok a => Ok a
  | Invalid es => Invalid (map (prefix l) es)
  | Raised e => Raised e
  end.

Definition fmap {A B} (f : A -> B) (r : Result A) : Result B :=
  match r with
  | Ok a => Ok (f a)
  | Invalid es => Invalid es
  | Raised e => Raised e
  end.

(** Attributes of one model are validated in order and all their
    errors are reported; an escaping exception ends the validation. *)
Definition ap {A B} (f : Result (A -> B)) (r : Result A) : Result B :=
  match f, r with
  | Raised e, _ => Raised e
  | _, Raised e => Raised e
  | Ok g, Ok a => Ok (g a)
  | Ok _, Invalid es => Invalid es
  | Invalid es, Ok _ => Invalid es
  | Invalid es1, Invalid es2 => Invalid (es1 ++ es2)
  end.

Definition and_then {A B} (r : Result A) (k : A -> Result B) : Result B :=
  match r with
  | Ok a => k a
  | Invalid es => Invalid es
  | Raised e => Raised e
  end.

Notation "f <*> r" := (ap f r) (at level 61, left associativity).

(** *** Scalars *)

Definition str (v : JValue) : Result string :=
  match v with JStr s => Ok s | _ => fail string_type end.

Definition int (v : JValue) : Result Z :=
  match v with JInt n => Ok n | _ => fail int_type end.

Definition boolean (v : JValue) : Result bool :=
  match v with JBool b => Ok b | _ => fail bool_type end.

(** [T | None] *)
Definition nullable {A} (V : JValue -> Result A) (v : JValue)
  : Result (option A) :=
  match v with
  | JNull => Ok None
  | _ => fmap Some (V v)
  end.

(** [int | float] *)
Inductive Number :=
| NInt (n : Z)
| NFloat (lit : string).

Definition number (v : JValue) : Result Number :=
  match v with
  | JInt n => Ok (NInt n)
  | JFloat l => Ok (NFloat l)
  | _ => Invalid [mkError int_type [Key "int"]; mkError float_type [Key "float"]]
  end.

(** *** Lists *)

Fixpoint list_items {A} (V : JValue -> Result A) (i : nat) (l : list JValue)
  : Result (list A) :=
  match l with
  | [] => Ok []
  | v :: rest => Ok cons <*> at_loc (Index i) (V v) <*> list_items V (S i) rest
  end.

Definition list_of {A} (V : JValue -> Result A) (v : JValue)
  : Result (list A) :=
  match v with
  | JList l => list_items V 0 l
  | _ => fail list_type
  end.

(** [Field(min_length=..., max_length=...)] on a list. *)
Definition min_length {A} (n : nat) (l : list A) : Result (list A) :=
  if Nat.ltb (List.length l) n then fail too_short else Ok l.

Definition max_length {A} (n : nat) (l : list A) : Result (list A) :=
  if Nat.ltb n (List.length l) then fail too_long else Ok l.

(** *** Models *)

Definition field {A} (name : string) (V : JValue -> Result A) (o : Obj)
  : Result A :=
  match get name o with
  | None => Invalid [mkError missing [Key name]]
  | Some v => at_loc (Key name) (V v)
  end.

(** [extra="forbid"]: one error per key that the model does not declare. *)
Fixpoint forbid_extra (declared : list string) (o : Obj) : list ErrorDetails :=
  match o with
  | [] => []
  | (k, _) :: rest =>
      if mem k declared then forbid_extra declared rest
      else mkError extra_forbidden [Key k] :: forbid_extra declared rest
  end.

Definition finish {A} (r : Result A) (extra : list ErrorDetails) : Result A :=
  match r, extra with
  | Ok a, [] => Ok a
  | Ok _, _ :: _ => Invalid extra
  | Invalid es, _ => Invalid (es ++ extra)
  | Raised e, _ => Raised e
  end.

Definition model {A} (declared : list string) (fields : Obj -> Result A)
  (v : JValue) : Result A :=
  match v with
  | JObj o => finish (fields o) (forbid_extra declared o)
  | _ => fail model_type
  end.

(** No key of the document lies outside the declared attributes. *)
Definition no_extra (declared : list string) (o : Obj) : bool :=
  forallb (fun kv => mem (fst kv) declared) o.

Definition present (k : string) (o : Obj) : bool :=
  match get k o with Some _ => true | None => false end.

(** The keys of the document are exactly the declared attributes. *)
Definition shape (declared : list string) (v : JValue) : bool :=
  match v with
  | JObj o => forallb (fun k => present k o) declared && no_extra declared o
  | _ => false
  end.

(** Every declared attribute is required by the attribute validators
    [F] of a model. *)
Definition requires {A} (F : Obj -> Result A) (declared : list string) : Prop :=
  forall o k, In k declared -> get k o = None -> isOk (F o) = false.

(** *** Unions *)

Definition Member (A : Type) := (string * (JValue -> Result A))%type.

Fixpoint union {A} (members : list (Member A)) (v : JValue) : Result A :=
  match members with
  | [] => Invalid []
  | (tag, V) :: rest =>
      match V v with
      | Ok a => Ok a
      | Invalid es =>
          match union rest v with
          | Ok a => Ok a
          | Invalid es' => Invalid (map (prefix (Key tag)) es ++ es')
          | Raised e => Raised e
          end
      | Raised e => Raised e
      end
  end.

Definition member {A B} (tag : string) (inj : A -> B)
  (V : JValue -> Result A) : Member B :=
  (tag, fun v => fmap inj (V v)).

(** *** Serialisation helpers *)

Definition dump_option {A} (d : A -> JValue) (o : option A) : JValue :=
  match o with Some a => d a | None => JNull end.

Definition dump_list {A} (d : A -> JValue) (l : list A) : JValue :=
  JList (map d l).

Definition dump_number (n : Number) : JValue :=
  match n with NInt z => JInt z | NFloat l => JFloat l end.

(** * [app/fastform.py]: the form schema *)

Module Fastform.

(** ** Coordinate *)

Record Coordinate := mkCoordinate {
  Coordinate_x : option Z;
  Coordinate_y : option Z
}.

Definition Coordinate_declared : list string := ["x"; "y"].

Definition Coordinate_fields (o : Obj) : Result Coordinate :=
  Ok mkCoordinate
    <*> field "x" (nullable int) o
    <*> field "y" (nullable int) o.

Definition Coordinate_validate : JValue -> Result Coordinate :=
  model Coordinate_declared Coordinate_fields.

Definition Coordinate_dump (c : Coordinate) : JValue :=
  JObj [("x", dump_option JInt (Coordinate_x c));
        ("y", dump_option JInt (Coordinate_y c))].

(** ** AnnotationEnum *)

Inductive AnnotationEnum :=
| text_field
| text_area_field
| number_field
| date_field
| checkbox_field
| radio_field
| select_field
| file_field
| image_field
| signature_field
| email_field
| url_field
| phone_field
| list_field.

Definition AnnotationEnum_members : list AnnotationEnum :=
  [text_field; text_area_field; number_field; date_field; checkbox_field;
   radio_field; select_field; file_field; image_field; signature_field;
   email_field; url_field; phone_field; list_field].

Definition AnnotationEnum_value (e : AnnotationEnum) : string :=
  match e with
  | text_field => "TextField"
  | text_area_field => "TextAreaField"
  | number_field => "NumberField"
  | date_field => "DateField"
  | checkbox_field => "CheckboxField"
  | radio_field => "RadioField"
  | select_field => "SelectField"
  | file_field => "FileField"
  | image_field => "ImageField"
  | signature_field => "SignatureField"
  | email_field => "EmailField"
  | url_field => "UrlField"
  | phone_field => "PhoneField"
  | list_field => "ListField"
  end.

(** Lookup of an enumeration member by value. *)
Definition by_value {E} (value : E -> string) (members : list E) (s : string)
  : option E :=
  find (fun e => String.eqb s (value e)) members.

Definition enum {E} (value : E -> string) (members : list E) (v : JValue)
  : Result E :=
  match v with
  | JStr s =>
      match by_value value members s with
      | Some e => Ok e
      | None => fail enum_error
      end
  | _ => fail enum_error
  end.

Definition AnnotationEnum_validate : JValue -> Result AnnotationEnum :=
  enum AnnotationEnum_value AnnotationEnum_members.

(** ** Annotation *)

Record Annotation := mkAnnotation {
  Annotation_title : string;
  Annotation_description : string;
  Annotation_bbox : list Coordinate;
  Annotation_element_name : AnnotationEnum
}.

(** [bbox: list[Coordinate] = Field(..., min_length=2, max_length=2)] *)
Definition bbox_validate (v : JValue) : Result (list Coordinate) :=
  and_then (and_then (list_of Coordinate_validate v) (min_length 2))
           (max_length 2).

Definition Annotation_declared : list string :=
  ["title"; "description"; "bbox"; "element_name"].

Definition Annotation_fields (o : Obj) : Result Annotation :=
  Ok mkAnnotation
    <*> field "title" str o
    <*> field "description" str o
    <*> field "bbox" bbox_validate o
    <*> field "element_name" AnnotationEnum_validate o.

Definition Annotation_validate : JValue -> Result Annotation :=
  model Annotation_declared Annotation_fields.

Definition Annotation_members (a : Annotation) : Obj :=
  [("title", JStr (Annotation_title a));
   ("description", JStr (Annotation_description a));
   ("bbox", dump_list Coordinate_dump (Annotation_bbox a));
   ("element_name", JStr (AnnotationEnum_value (Annotation_element_name a)))].

Definition Annotation_dump (a : Annotation) : JValue :=
  JObj (Annotation_members a).

(** ** Primitive field types *)

Record TextField := mkTextField {
  TextField_base : Annotation;
  TextField_value : option string
}.

Definition TextField_declared := Annotation_declared ++ ["value"].

Definition TextField_fields (o : Obj) : Result TextField :=
  Ok mkTextField <*> Annotation_fields o <*> field "value" (nullable str) o.

Definition TextField_validate := model TextField_declared TextField_fields.

Definition TextField_dump (f : TextField) : JValue :=
  JObj (Annotation_members (TextField_base f)
        ++ [("value", dump_option JStr (TextField_value f))]).

Record TextAreaField := mkTextAreaField {
  TextAreaField_base : Annotation;
  TextAreaField_value : option string;
  TextAreaField_max_length : option Z
}.

Definition TextAreaField_declared :=
  Annotation_declared ++ ["value"; "max_length"].

Definition TextAreaField_fields (o : Obj) : Result TextAreaField :=
  Ok mkTextAreaField
    <*> Annotation_fields o
    <*> field "value" (nullable str) o
    <*> field "max_length" (nullable int) o.

Definition TextAreaField_validate :=
  model TextAreaField_declared TextAreaField_fields.

Definition TextAreaField_dump (f : TextAreaField) : JValue :=
  JObj (Annotation_members (TextAreaField_base f)
        ++ [("value", dump_option JStr (TextAreaField_value f));
            ("max_length", dump_option JInt (TextAreaField_max_length f))]).

Record NumberField := mkNumberField {
  NumberField_base : Annotation;
  NumberField_value : option Number;
  NumberField_min_value : option Number;
  NumberField_max_value : option Number
}.

Definition NumberField_declared :=
  Annotation_declared ++ ["value"; "min_value"; "max_value"].

Definition NumberField_fields (o : Obj) : Result NumberField :=
  Ok mkNumberField
    <*> Annotation_fields o
    <*> field "value" (nullable number) o
    <*> field "min_value" (nullable number) o
    <*> field "max_value" (nullable number) o.

Definition NumberField_validate :=
  model NumberField_declared NumberField_fields.

Definition NumberField_dump (f : NumberField) : JValue :=
  JObj (Annotation_members (NumberField_base f)
        ++ [("value", dump_option dump_number (NumberField_value f));
            ("min_value", dump_option dump_number (NumberField_min_value f));
            ("max_value", dump_option dump_number (NumberField_max_value f))]).

Record DateField := mkDateField {
  DateField_base : Annotation;
  DateField_value : option string
}.

Definition DateField_declared := Annotation_declared ++ ["value"].

Definition DateField_fields (o : Obj) : Result DateField :=
  Ok mkDateField <*> Annotation_fields o <*> field "value" (nullable str) o.

Definition DateField_validate := model DateField_declared DateField_fields.

Definition DateField_dump (f : DateField) : JValue :=
  JObj (Annotation_members (DateField_base f)
        ++ [("value", dump_option JStr (DateField_value f))]).

Record CheckboxField := mkCheckboxField {
  CheckboxField_base : Annotation;
  CheckboxField_value : option bool
}.

Definition CheckboxField_declared := Annotation_declared ++ ["value"].

Definition CheckboxField_fields (o : Obj) : Result CheckboxField :=
  Ok mkCheckboxField
    <*> Annotation_fields o
    <*> field "value" (nullable boolean) o.

Definition CheckboxField_validate :=
  model CheckboxField_declared CheckboxField_fields.

Definition CheckboxField_dump (f : CheckboxField) : JValue :=
  JObj (Annotation_members (CheckboxField_base f)
        ++ [("value", dump_option JBool (CheckboxField_value f))]).

Record RadioField := mkRadioField {
  RadioField_base : Annotation;
  RadioField_options : list string;
  RadioField_value : option string
}.

Definition RadioField_declared := Annotation_declared ++ ["options"; "value"].

Definition RadioField_fields (o : Obj) : Result RadioField :=
  Ok mkRadioField
    <*> Annotation_fields o
    <*> field "options" (list_of str) o
    <*> field "value" (nullable str) o.

Definition RadioField_validate :=
  model RadioField_declared RadioField_fields.

Definition RadioField_dump (f : RadioField) : JValue :=
  JObj (Annotation_members (RadioField_base f)
        ++ [("options", dump_list JStr (RadioField_options f));
            ("value", dump_option JStr (RadioField_value f))]).

(** ** SelectOption and SelectField *)

(** [str | int | float] *)
Inductive OptionValue :=
| OVStr (s : string)
| OVInt (n : Z)
| OVFloat (lit : string).

Definition option_value (v : JValue) : Result OptionValue :=
  match v with
  | JStr s => Ok (OVStr s)
  | JInt n => Ok (OVInt n)
  | JFloat l => Ok (OVFloat l)
  | _ => Invalid [mkError string_type [Key "str"];
                  mkError int_type [Key "int"];
                  mkError float_type [Key "float"]]
  end.

Definition dump_option_value (v : OptionValue) : JValue :=
  match v with
  | OVStr s => JStr s
  | OVInt n => JInt n
  | OVFloat l => JFloat l
  end.

Record SelectOption := mkSelectOption {
  SelectOption_label : string;
  SelectOption_value : OptionValue
}.

Definition SelectOption_declared : list string := ["label"; "value"].

Definition SelectOption_fields (o : Obj) : Result SelectOption :=
  Ok mkSelectOption
    <*> field "label" str o
    <*> field "value" option_value o.

Definition SelectOption_validate :=
  model SelectOption_declared SelectOption_fields.

Definition SelectOption_dump (s : SelectOption) : JValue :=
  JObj [("label", JStr (SelectOption_label s));
        ("value", dump_option_value (SelectOption_value s))].

(** [list[SelectOption] | SelectOption | None] *)
Inductive Selection :=
| SelNone
| SelOne (o : SelectOption)
| SelList (l : list SelectOption).

Definition selection (v : JValue) : Result Selection :=
  match v with
  | JNull => Ok SelNone
  | _ => union [member "list[SelectOption]" SelList
                  (list_of SelectOption_validate);
                member "SelectOption" SelOne SelectOption_validate] v
  end.

Definition dump_selection (s : Selection) : JValue :=
  match s with
  | SelNone => JNull
  | SelOne o => SelectOption_dump o
  | SelList l => dump_list SelectOption_dump l
  end.

Definition is_None (s : Selection) : bool :=
  match s with SelNone => true | _ => false end.

Definition isinstance_list (s : Selection) : bool :=
  match s with SelList _ => true | _ => false end.

Record SelectField := mkSelectField {
  SelectField_base : Annotation;
  SelectField_options : list SelectOption;
  SelectField_multi : bool;
  SelectField_value : Selection
}.

Definition SelectField_declared :=
  Annotation_declared ++ ["options"; "multi"; "value"].

Definition SelectField_fields (o : Obj) : Result SelectField :=
  Ok mkSelectField
    <*> Annotation_fields o
    <*> field "options" (list_of SelectOption_validate) o
    <*> field "multi" boolean o
    <*> field "value" selection o.

(** [values.get(key)] inside [check_select].  The validator is
    registered with [mode="after"]: pydantic calls it once the
    attributes are validated and passes it the instance it has built,
    so [values] is that instance and not a mapping.  A model has no
    attribute [get], and the lookup raises [AttributeError]. *)
Definition values_get {A} (values : SelectField) (key : string) : Result A :=
  Raised AttributeError.

(** [@model_validator(mode="after") check_select] *)
Definition check_select (values : SelectField) : Result SelectField :=
  and_then (values_get values "multi") (fun multi : bool =>
  and_then (values_get values "value") (fun val : Selection =>
  if multi && negb (is_None val) && negb (isinstance_list val) then
    fail (value_error "When multi=True, value must be a list")
  else if negb multi && isinstance_list val then
    fail (value_error "When multi=False, value must be a single item")
  else Ok values)).

Definition SelectField_validate (v : JValue) : Result SelectField :=
  and_then (model SelectField_declared SelectField_fields v) check_select.

Definition SelectField_dump (f : SelectField) : JValue :=
  JObj (Annotation_members (SelectField_base f)
        ++ [("options", dump_list SelectOption_dump (SelectField_options f));
            ("multi", JBool (SelectField_multi f));
            ("value", dump_selection (SelectField_value f))]).

(** ** File-like and string-valued fields *)

Record FileField := mkFileField {
  FileField_base : Annotation;
  FileField_allowed : list string;
  FileField_max_mb : option Z;
  FileField_value : option string
}.

Definition FileField_declared :=
  Annotation_declared ++ ["allowed"; "max_mb"; "value"].

Definition FileField_fields (o : Obj) : Result FileField :=
  Ok mkFileField
    <*> Annotation_fields o
    <*> field "allowed" (list_of str) o
    <*> field "max_mb" (nullable int) o
    <*> field "value" (nullable str) o.

Definition FileField_validate := model FileField_declared FileField_fields.

Definition FileField_dump (f : FileField) : JValue :=
  JObj (Annotation_members (FileField_base f)
        ++ [("allowed", dump_list JStr (FileField_allowed f));
            ("max_mb", dump_option JInt (FileField_max_mb f));
            ("value", dump_option JStr (FileField_value f))]).

(** [class ImageField(FileField)] only restates [allowed]. *)
Record ImageField := mkImageField {
  ImageField_super : FileField
}.

Definition ImageField_declared := FileField_declared.

Definition ImageField_fields (o : Obj) : Result ImageField :=
  Ok mkImageField <*> FileField_fields o.

Definition ImageField_validate := model ImageField_declared ImageField_fields.

Definition ImageField_dump (f : ImageField) : JValue :=
  FileField_dump (ImageField_super f).

Record SignatureField := mkSignatureField {
  SignatureField_base : Annotation;
  SignatureField_value : option string
}.

Definition SignatureField_declared := Annotation_declared ++ ["value"].

Definition SignatureField_fields (o : Obj) : Result SignatureField :=
  Ok mkSignatureField
    <*> Annotation_fields o
    <*> field "value" (nullable str) o.

Definition SignatureField_validate :=
  model SignatureField_declared SignatureField_fields.

Definition SignatureField_dump (f : SignatureField) : JValue :=
  JObj (Annotation_members (SignatureField_base f)
        ++ [("value", dump_option JStr (SignatureField_value f))]).

Record EmailField := mkEmailField {
  EmailField_base : Annotation;
  EmailField_value : option string
}.

Definition EmailField_declared := Annotation_declared ++ ["value"].

Definition EmailField_fields (o : Obj) : Result EmailField :=
  Ok mkEmailField <*> Annotation_fields o <*> field "value" (nullable str) o.

Definition EmailField_validate := model EmailField_declared EmailField_fields.

Definition EmailField_dump (f : EmailField) : JValue :=
  JObj (Annotation_members (EmailField_base f)
        ++ [("value", dump_option JStr (EmailField_value f))]).

Record UrlField := mkUrlField {
  UrlField_base : Annotation;
  UrlField_value : option string
}.

Definition UrlField_declared := Annotation_declared ++ ["value"].

Definition UrlField_fields (o : Obj) : Result UrlField :=
  Ok mkUrlField <*> Annotation_fields o <*> field "value" (nullable str) o.

Definition UrlField_validate := model UrlField_declared UrlField_fields.

Definition UrlField_dump (f : UrlField) : JValue :=
  JObj (Annotation_members (UrlField_base f)
        ++ [("value", dump_option JStr (UrlField_value f))]).

Record PhoneField := mkPhoneField {
  PhoneField_base : Annotation;
  PhoneField_value : option string
}.

Definition PhoneField_declared := Annotation_declared ++ ["value"].

Definition PhoneField_fields (o : Obj) : Result PhoneField :=
  Ok mkPhoneField <*> Annotation_fields o <*> field "value" (nullable str) o.

Definition PhoneField_validate := model PhoneField_declared PhoneField_fields.

Definition PhoneField_dump (f : PhoneField) : JValue :=
  JObj (Annotation_members (PhoneField_base f)
        ++ [("value", dump_option JStr (PhoneField_value f))]).

(** [ListField(Annotation, Generic[t])] with [t] bound to [Annotation]:
    used as [ListField[t]], its items are validated as [Annotation]. *)
Record ListField := mkListField {
  ListField_base : Annotation;
  ListField_items : option (list Annotation)
}.

Definition ListField_declared := Annotation_declared ++ ["items"].

Definition ListField_fields (o : Obj) : Result ListField :=
  Ok mkListField
    <*> Annotation_fields o
    <*> field "items" (nullable (list_of Annotation_validate)) o.

Definition ListField_validate := model ListField_declared ListField_fields.

Definition ListField_dump (f : ListField) : JValue :=
  JObj (Annotation_members (ListField_base f)
        ++ [("items",
             dump_option (dump_list Annotation_dump) (ListField_items f))]).

(** ** Annotation groups *)

Inductive AnnotationGroupEnum :=
| section_group
| repeat_group
| wizard_step
| table_group.

Definition AnnotationGroupEnum_members : list AnnotationGroupEnum :=
  [section_group; repeat_group; wizard_step; table_group].

Definition AnnotationGroupEnum_value (e : AnnotationGroupEnum) : string :=
  match e with
  | section_group => "SectionGroup"
  | repeat_group => "RepeatGroup"
  | wizard_step => "WizardStep"
  | table_group => "TableGroup"
  end.

Definition AnnotationGroupEnum_validate : JValue -> Result AnnotationGroupEnum :=
  enum AnnotationGroupEnum_value AnnotationGroupEnum_members.

Record AnnotationGroup := mkAnnotationGroup {
  AnnotationGroup_title : string;
  AnnotationGroup_description : string;
  AnnotationGroup_annotations : list Annotation;
  AnnotationGroup_element_name : AnnotationGroupEnum
}.

(** [annotations: list[Annotation] = Field(..., min_length=1)] *)
Definition annotations_validate (v : JValue) : Result (list Annotation) :=
  and_then (list_of Annotation_validate v) (min_length 1).

Definition AnnotationGroup_declared : list string :=
  ["title"; "description"; "annotations"; "element_name"].

Definition AnnotationGroup_fields (o : Obj) : Result AnnotationGroup :=
  Ok mkAnnotationGroup
    <*> field "title" str o
    <*> field "description" str o
    <*> field "annotations" annotations_validate o
    <*> field "element_name" AnnotationGroupEnum_validate o.

Definition AnnotationGroup_validate :=
  model AnnotationGroup_declared AnnotationGroup_fields.

Definition AnnotationGroup_members (g : AnnotationGroup) : Obj :=
  [("title", JStr (AnnotationGroup_title g));
   ("description", JStr (AnnotationGroup_description g));
   ("annotations", dump_list Annotation_dump (AnnotationGroup_annotations g));
   ("element_name",
    JStr (AnnotationGroupEnum_value (AnnotationGroup_element_name g)))].

Definition AnnotationGroup_dump (g : AnnotationGroup) : JValue :=
  JObj (AnnotationGroup_members g).

Record SectionGroup := mkSectionGroup {
  SectionGroup_base : AnnotationGroup;
  SectionGroup_collapsible : bool;
  SectionGroup_collapsed : bool
}.

Definition SectionGroup_declared :=
  AnnotationGroup_declared ++ ["collapsible"; "collapsed"].

Definition SectionGroup_fields (o : Obj) : Result SectionGroup :=
  Ok mkSectionGroup
    <*> AnnotationGroup_fields o
    <*> field "collapsible" boolean o
    <*> field "collapsed" boolean o.

Definition SectionGroup_validate :=
  model SectionGroup_declared SectionGroup_fields.

Definition SectionGroup_dump (g : SectionGroup) : JValue :=
  JObj (AnnotationGroup_members (SectionGroup_base g)
        ++ [("collapsible", JBool (SectionGroup_collapsible g));
            ("collapsed", JBool (SectionGroup_collapsed g))]).

Record RepeatGroup := mkRepeatGroup {
  RepeatGroup_base : AnnotationGroup;
  RepeatGroup_min_val : Z;
  RepeatGroup_max_val : option Z
}.

Definition RepeatGroup_declared :=
  AnnotationGroup_declared ++ ["min_val"; "max_val"].

Definition RepeatGroup_fields (o : Obj) : Result RepeatGroup :=
  Ok mkRepeatGroup
    <*> AnnotationGroup_fields o
    <*> field "min_val" int o
    <*> field "max_val" (nullable int) o.

Definition RepeatGroup_validate :=
  model RepeatGroup_declared RepeatGroup_fields.

Definition RepeatGroup_dump (g : RepeatGroup) : JValue :=
  JObj (AnnotationGroup_members (RepeatGroup_base g)
        ++ [("min_val", JInt (RepeatGroup_min_val g));
            ("max_val", dump_option JInt (RepeatGroup_max_val g))]).

Record WizardStep := mkWizardStep {
  WizardStep_base : AnnotationGroup;
  WizardStep_order : option Z;
  WizardStep_optional : bool
}.

Definition WizardStep_declared :=
  AnnotationGroup_declared ++ ["order"; "optional"].

Definition WizardStep_fields (o : Obj) : Result WizardStep :=
  Ok mkWizardStep
    <*> AnnotationGroup_fields o
    <*> field "order" (nullable int) o
    <*> field "optional" boolean o.

Definition WizardStep_validate :=
  model WizardStep_declared WizardStep_fields.

Definition WizardStep_dump (g : WizardStep) : JValue :=
  JObj (AnnotationGroup_members (WizardStep_base g)
        ++ [("order", dump_option JInt (WizardStep_order g));
            ("optional", JBool (WizardStep_optional g))]).

(** ** Table cells: the union of [TableGroup.rows] *)

Inductive Cell :=
| Cell_TextField (f : TextField)
| Cell_TextAreaField (f : TextAreaField)
| Cell_NumberField (f : NumberField)
| Cell_DateField (f : DateField)
| Cell_CheckboxField (f : CheckboxField)
| Cell_RadioField (f : RadioField)
| Cell_SelectField (f : SelectField)
| Cell_FileField (f : FileField)
| Cell_ImageField (f : ImageField)
| Cell_SignatureField (f : SignatureField)
| Cell_EmailField (f : EmailField)
| Cell_UrlField (f : UrlField)
| Cell_PhoneField (f : PhoneField)
| Cell_ListField (f : ListField)
| Cell_SectionGroup (g : SectionGroup)
| Cell_RepeatGroup (g : RepeatGroup)
| Cell_WizardStep (g : WizardStep).

Definition Cell_members : list (Member Cell) :=
  [member "TextField" Cell_TextField TextField_validate;
   member "TextAreaField" Cell_TextAreaField TextAreaField_validate;
   member "NumberField" Cell_NumberField NumberField_validate;
   member "DateField" Cell_DateField DateField_validate;
   member "CheckboxField" Cell_CheckboxField CheckboxField_validate;
   member "RadioField" Cell_RadioField RadioField_validate;
   member "SelectField" Cell_SelectField SelectField_validate;
   member "FileField" Cell_FileField FileField_validate;
   member "ImageField" Cell_ImageField ImageField_validate;
   member "SignatureField" Cell_SignatureField SignatureField_validate;
   member "EmailField" Cell_EmailField EmailField_validate;
   member "UrlField" Cell_UrlField UrlField_validate;
   member "PhoneField" Cell_PhoneField PhoneField_validate;
   member "ListField" Cell_ListField ListField_validate;
   member "SectionGroup" Cell_SectionGroup SectionGroup_validate;
   member "RepeatGroup" Cell_RepeatGroup RepeatGroup_validate;
   member "WizardStep" Cell_WizardStep WizardStep_validate].

Definition Cell_validate : JValue -> Result Cell := union Cell_members.

Definition Cell_dump (c : Cell) : JValue :=
  match c with
  | Cell_TextField f => TextField_dump f
  | Cell_TextAreaField f => TextAreaField_dump f
  | Cell_NumberField f => NumberField_dump f
  | Cell_DateField f => DateField_dump f
  | Cell_CheckboxField f => CheckboxField_dump f
  | Cell_RadioField f => RadioField_dump f
  | Cell_SelectField f => SelectField_dump f
  | Cell_FileField f => FileField_dump f
  | Cell_ImageField f => ImageField_dump f
  | Cell_SignatureField f => SignatureField_dump f
  | Cell_EmailField f => EmailField_dump f
  | Cell_UrlField f => UrlField_dump f
  | Cell_PhoneField f => PhoneField_dump f
  | Cell_ListField f => ListField_dump f
  | Cell_SectionGroup g => SectionGroup_dump g
  | Cell_RepeatGroup g => RepeatGroup_dump g
  | Cell_WizardStep g => WizardStep_dump g
  end.

(** ** TableGroup *)

Record TableGroup := mkTableGroup {
  TableGroup_base : AnnotationGroup;
  TableGroup_columns : list string;
  TableGroup_rows : list (list Cell)
}.

Definition row_error : ErrorType :=
  value_error "Row length must equal number of columns".

(** The loop of [match_columns]: the first row of another length than
    [columns] raises. *)
Fixpoint match_columns_loop {A} (columns : list string) (rows : list (list A))
  : option ErrorType :=
  match rows with
  | [] => None
  | row :: rest =>
      if negb (List.length row =? List.length columns)%nat then Some row_error
      else match_columns_loop columns rest
  end.

(** [@field_validator("rows", mode="after") match_columns]; [data] is
    [info.data.get("columns")]: the validated columns, absent when
    their own validation failed. *)
Definition match_columns {A} (rows : list (list A))
  (data : option (list string)) : Result (list (list A)) :=
  let columns := match data with Some c => c | None => [] end in
  match match_columns_loop columns rows with
  | Some e => fail e
  | None => Ok rows
  end.

Definition TableGroup_declared :=
  AnnotationGroup_declared ++ ["columns"; "rows"].

Definition TableGroup_fields (o : Obj) : Result TableGroup :=
  let columns := field "columns" (list_of str) o in
  let data := match columns with Ok c => Some c | _ => None end in
  Ok mkTableGroup
    <*> AnnotationGroup_fields o
    <*> columns
    <*> field "rows"
          (fun v => and_then (list_of (list_of Cell_validate) v)
                             (fun rows => match_columns rows data)) o.

Definition TableGroup_validate :=
  model TableGroup_declared TableGroup_fields.

Definition TableGroup_dump (g : TableGroup) : JValue :=
  JObj (AnnotationGroup_members (TableGroup_base g)
        ++ [("columns", dump_list JStr (TableGroup_columns g));
            ("rows", dump_list (dump_list Cell_dump) (TableGroup_rows g))]).

(** ** Form *)

(** The union of [Form.elements]: the members of a table cell, in the
    same order, followed by [TableGroup]. *)
Inductive Element :=
| Element_Cell (c : Cell)
| Element_TableGroup (g : TableGroup).

Definition Element_members : list (Member Element) :=
  map (fun m : Member Cell =>
         (fst m, fun v => fmap Element_Cell (snd m v))) Cell_members
  ++ [member "TableGroup" Element_TableGroup TableGroup_validate].

Definition Element_validate : JValue -> Result Element := union Element_members.

Definition Element_dump (e : Element) : JValue :=
  match e with
  | Element_Cell c => Cell_dump c
  | Element_TableGroup g => TableGroup_dump g
  end.

Record Form := mkForm {
  Form_title : string;
  Form_description : string;
  Form_elements : list Element
}.

Definition Form_declared : list string := ["title"; "description"; "elements"].

Definition Form_fields (o : Obj) : Result Form :=
  Ok mkForm
    <*> field "title" str o
    <*> field "description" str o
    <*> field "elements" (list_of Element_validate) o.

Definition Form_validate : JValue -> Result Form :=
  model Form_declared Form_fields.

Definition Form_dump (f : Form) : JValue :=
  JObj [("title", JStr (Form_title f));
        ("description", JStr (Form_description f));
        ("elements", dump_list Element_dump (Form_elements f))].

End Fastform.

(** * [app/ai.py]: the per-turn orchestration *)

(** ** Code that may raise *)

Inductive Raises (A : Type) : Type :=
| Return (a : A)
| Raise (e : Exception).

Arguments Return {A} a.
Arguments Raise {A} e.

Definition bind {A B} (c : Raises A) (k : A -> Raises B) : Raises B :=
  match c with
  | Return a => k a
  | Raise e => Raise e
  end.

Declare Scope raises_scope.
Delimit Scope raises_scope with raises.
Notation "x <- c ;; k" := (bind c (fun x => k))
  (at level 100, c at next level, right associativity) : raises_scope.
Notation "' p <- c ;; k" := (bind c (fun x => let p := x in k))
  (at level 100, p pattern, c at next level, right associativity) : raises_scope.

(** [model_validate]: a failed validation raises. *)
Definition validated {A} (r : Result A) : Raises A :=
  match r with
  | Ok a => Return a
  | Invalid es => Raise (ValidationError es)
  | Raised e => Raise e
  end.

(** ** The guidance chat state, as far as [ai.py] reads and writes it *)

Module Guidance.

Inductive Role := system | user | assistant.

Definition Role_value (r : Role) : string :=
  match r with
  | system => "system"
  | user => "user"
  | assistant => "assistant"
  end.

Inductive Content :=
| TextContent (text : string)
| ImageUrlContent (url : string).

Record ContentMessage := mkContentMessage {
  role : Role;
  content : list Content
}.

Definition Content_dump (c : Content) : JValue :=
  match c with
  | TextContent text => JObj [("type", JStr "text"); ("text", JStr text)]
  | ImageUrlContent url =>
      JObj [("type", JStr "image_url");
            ("image_url", JObj [("url", JStr url)])]
  end.

Definition ContentMessage_dump (m : ContentMessage) : JValue :=
  JObj [("role", JStr (Role_value (role m)));
        ("content", dump_list Content_dump (content m))].

Definition Role_validate : JValue -> Result Role :=
  Fastform.enum Role_value [system; user; assistant].

Definition literal (s : string) (v : JValue) : Result unit :=
  match v with
  | JStr s' => if String.eqb s s' then Ok tt else fail literal_error
  | _ => fail literal_error
  end.

Definition TextContent_fields (o : Obj) : Result Content :=
  Ok (fun _ text => TextContent text)
    <*> field "type" (literal "text") o
    <*> field "text" str o.

Definition ImageUrl_fields (o : Obj) : Result string :=
  Ok (fun url => url) <*> field "url" str o.

Definition ImageUrlContent_fields (o : Obj) : Result Content :=
  Ok (fun _ url => ImageUrlContent url)
    <*> field "type" (literal "image_url") o
    <*> field "image_url" (model ["url"] ImageUrl_fields) o.

(** The parts are told apart by their [type]; of guidance's part
    types only the two this repository builds are kept. *)
Definition Content_validate : JValue -> Result Content :=
  union [("text", model ["type"; "text"] TextContent_fields);
         ("image_url", model ["type"; "image_url"] ImageUrlContent_fields)].

Definition ContentMessage_fields (o : Obj) : Result ContentMessage :=
  Ok mkContentMessage
    <*> field "role" Role_validate o
    <*> field "content" (list_of Content_validate) o.

Definition ContentMessage_validate : JValue -> Result ContentMessage :=
  model ["role"; "content"] ContentMessage_fields.

(** What a [json(name=..., schema=...)] call leaves behind: the text
    written into the conversation and the document that text denotes
    ([json.loads] of it). *)
Record Generated := mkGenerated {
  text : string;
  value : JValue
}.

Inductive Schema := YesNo_schema | Form_schema.

(** [guidance.models.Model]: structured generation under a schema and
    free generation, each from the conversation so far; either call may
    fail. *)
Record Model := mkModel {
  json : Schema -> list ContentMessage -> Raises Generated;
  gen : list ContentMessage -> Raises string
}.

(** [lm._interpreter.state] together with the captures [lm[name]].
    [messages] are the role blocks already closed, [active] the block
    being written: a block is closed when the next one is opened. *)
Record State := mkState {
  messages : list ContentMessage;
  active : option ContentMessage;
  captures : list (string * Generated)
}.

Definition get_active_message (st : State) : option ContentMessage :=
  active st.

Definition closed (st : State) : list ContentMessage :=
  match active st with
  | Some m => messages st ++ [m]
  | None => messages st
  end.

(** Entering [with assistant():] at the next [lm += ...]. *)
Definition open_block (r : Role) (st : State) : State :=
  mkState (closed st) (Some (mkContentMessage r [])) (captures st).

Definition apply_text (t : string) (st : State) : State :=
  match active st with
  | Some m =>
      mkState (messages st)
              (Some (mkContentMessage (role m) (content m ++ [TextContent t])))
              (captures st)
  | None => st
  end.

Definition capture (name : string) (g : Generated) (st : State) : State :=
  mkState (messages st) (active st) ((name, g) :: captures st).

(** [with assistant(): lm += t] *)
Definition assistant_text (t : string) (st : State) : State :=
  apply_text t (open_block assistant st).

(** [with assistant(): lm += json(name=..., schema=...)] *)
Definition assistant_json (lm : Model) (name : string) (schema : Schema)
  (st : State) : Raises State :=
  let st := open_block assistant st in
  bind (json lm schema (messages st))
       (fun g => Return (capture name g (apply_text (text g) st))).

(** [with assistant(): lm += gen(name)] *)
Definition assistant_gen (lm : Model) (name : string) (st : State)
  : Raises State :=
  let st := open_block assistant st in
  bind (gen lm (messages st))
       (fun t => Return (capture name (mkGenerated t (JStr t))
                                 (apply_text t st))).

(** [j.loads(lm[name])] *)
Fixpoint loads_capture (name : string) (cs : list (string * Generated))
  : Raises JValue :=
  match cs with
  | [] => Raise (KeyError name)
  | (n, g) :: rest =>
      if String.eqb name n then Return (value g) else loads_capture name rest
  end.

(** [messages[-2]] *)
Definition last_but_one {A} (l : list A) : Raises A :=
  match rev l with
  | _ :: a :: _ => Return a
  | _ => Raise IndexError
  end.

End Guidance.

Module Ai.
Import Guidance.

Definition SYSTEM_PROMPT : string :=
"You are a helpful assistant for the FastForm application.
Your task is to assist users in creating and modifying forms based on their requests.

You are not supposed to provide any values for any of the bbox fields in the form. If 
the frontend system provides values for the bbox fields, you must not change them. 
Analyze the user's request and provide the necessary changes to the form structure. Try 
to cover all possible fields that the page might have.
".

(** [SYSTEM_PROMPT_FILL.format(form_structure=...)] *)
Definition SYSTEM_PROMPT_FILL (form_structure : string) : string :=
  String.append
"You are a helpful assistant for the FastForm application.
Your task is to assist users in filling out forms based on their requests. Here is the
form structure:

"
  (String.append form_structure
"

You must not deviate from the provided structure expect for values filled in by the
frontend system.

The frontend system might change values of the fields but NEVER change the structure
of the form and you must not do the same. Your task is to just fill in the fields based 
on the conversation with the user.
").

Inductive Response := yes | no.

Definition Response_value (r : Response) : string :=
  match r with
  | yes => "yes"
  | no => "no"
  end.

Record YesNo := mkYesNo {
  YesNo_selection : Response
}.

Definition YesNo_fields (o : Obj) : Result YesNo :=
  Ok mkYesNo <*> field "selection" (Fastform.enum Response_value [yes; no]) o.

Definition YesNo_validate : JValue -> Result YesNo :=
  model ["selection"] YesNo_fields.

Definition YesNo_dump (y : YesNo) : JValue :=
  JObj [("selection", JStr (Response_value (YesNo_selection y)))].

(** [obj[key]] on a loaded document. *)
Definition subscript (v : JValue) (key : string) : Raises JValue :=
  match v with
  | JObj o =>
      match get key o with
      | Some x => Return x
      | None => Raise (KeyError key)
      end
  | _ => Raise TypeError
  end.

(** [selection == s] for a string [s]. *)
Definition equals (selection : JValue) (s : string) : bool :=
  match selection with
  | JStr s' => String.eqb s' s
  | _ => false
  end.

Definition start (messages : list ContentMessage) : State :=
  mkState messages None [].

Definition BUILD_ANALYZE : string :=
"        Now I will analyze the user's request to determine if they are asking to create 
        a new form or modify an existing one.
        If any of the above is true, I will respond with a JSON object containing
        the form structure.
        If not, I will continue with the conversation as usual.

        So, Is the user asking to create a new form or modify an existing one?
        ".

Definition BUILD_GENERATE : string :=
"Now I will generate a new form based on the user's request.".

Definition BUILD_COMMENT : string :=
"        Now I will provide additional commentary/end of message comment on the above 
        form structure but not repeat the structure itself.
        ".

Definition BUILD_CONTINUE : string :=
"        The user is not asking to create a new form or modify an existing one.
        I will continue with the conversation as usual.
        ".

Definition FILL_ANALYZE : string :=
"        Now I will analyze the user's request to determine if they are asking to fill out
        a form based on the provided form structure.
        If yes I will respond with a JSON object containing the filled form.
        If not, I will continue with the conversation as usual.
        ".

Definition FILL_GENERATE : string :=
"Now I will generate a filled form based on the user's request.".

Definition FILL_COMMENT : string :=
"        Now I will provide additional commentary/end of message comment on the above 
        filled form but not repeat the form itself.
        ".

Definition FILL_CONTINUE : string :=
"        The user is not asking to fill out a form based on the provided form structure.
        I will continue with the conversation as usual.
        ".

Open Scope raises_scope.

Definition fastformbuild_chat (lm : Model) (messages : list ContentMessage)
  : Raises (list (option ContentMessage)) :=
  let st := start messages in
  let st := assistant_text BUILD_ANALYZE st in
  st <- assistant_json lm "yes_no" YesNo_schema st ;;
  yes_no <- loads_capture "yes_no" (captures st) ;;
  selection <- subscript yes_no "selection" ;;
  if equals selection (Response_value yes) then
    let st := assistant_text BUILD_GENERATE st in
    st <- assistant_json lm "new_form" Form_schema st ;;
    let st := assistant_text BUILD_COMMENT st in
    st <- assistant_gen lm "message" st ;;
    m <- last_but_one (Guidance.messages st) ;;
    Return ([Some m] ++ [get_active_message st])
  else if equals selection (Response_value no) then
    let st := assistant_text BUILD_CONTINUE st in
    st <- assistant_gen lm "message" st ;;
    Return [get_active_message st]
  else Return [].

Definition fastformfill_chat (lm : Model) (messages : list ContentMessage)
  : Raises (list (option ContentMessage)) :=
  let st := start messages in
  let st := assistant_text FILL_ANALYZE st in
  st <- assistant_json lm "yes_no" YesNo_schema st ;;
  yes_no <- loads_capture "yes_no" (captures st) ;;
  selection <- subscript yes_no "selection" ;;
  if equals selection (Response_value yes) then
    let st := assistant_text FILL_GENERATE st in
    st <- assistant_json lm "filled_form" Form_schema st ;;
    let st := assistant_text FILL_COMMENT st in
    st <- assistant_gen lm "message" st ;;
    m <- last_but_one (Guidance.messages st) ;;
    Return ([Some m] ++ [get_active_message st])
  else if equals selection (Response_value no) then
    let st := assistant_text FILL_CONTINUE st in
    st <- assistant_gen lm "message" st ;;
    Return [get_active_message st]
  else Return [].

Close Scope raises_scope.

End Ai.

(** * [app/services.py]: the two chat services *)

Module Services.
Import Guidance.

Definition bytes := string.

(** Modelled from the spec: the [Message] and [Annotation] tables of
    [app/models.py], which is not part of the sources at hand.  A
    message is a content-bearing unit of a thread, identified by an
    opaque string key and ordered by creation time; an annotation
    stores a form structure as text.  Only the attributes that
    [services.py] reads or writes are kept.  The text column [content]
    holds a JSON document and is kept as that document; creation time
    is a logical clock that advances with every message created. *)
Record Message := mkMessage {
  Message_content : JValue;
  Message_thread_id : string;
  Message_user_id : string;
  Message_timestamp : nat
}.

Record Annotation := mkAnnotation {
  Annotation_id : Z;
  Annotation_structure : string;
  Annotation_user_id : string
}.

(** [schemas.MessageCreateBase] with the optional
    [load_annotation_id] of [FastfillMessageCreate]. *)
Record MessageCreate := mkMessageCreate {
  content : string;
  thread_id : string;
  user_id : string;
  load_annotation_id : option Z
}.

(** The database session: the committed rows, the rows added since the
    last commit, and the clock. *)
Record Session := mkSession {
  message_table : list Message;
  annotation_table : list Annotation;
  added : list Message;
  clock : nat
}.

(** Service code runs against the session and may raise; what was
    committed before an exception stays committed. *)
Definition Db (A : Type) := Session -> Raises A * Session.

Definition ret {A} (a : A) : Db A := fun s => (Return a, s).

Definition raise {A} (e : Exception) : Db A := fun s => (Raise e, s).

Definition lift {A} (c : Raises A) : Db A := fun s => (c, s).

Definition bind_db {A B} (c : Db A) (k : A -> Db B) : Db B :=
  fun s =>
    match c s with
    | (Return a, s') => k a s'
    | (Raise e, s') => (Raise e, s')
    end.

(** [try: c  except HTTPException as e: h e] *)
Definition try_except_HTTPException {A} (c : Db A)
  (h : nat -> string -> Db A) : Db A :=
  fun s =>
    match c s with
    | (Raise (HTTPException status_code detail), s') => h status_code detail s'
    | r => r
    end.

Declare Scope db_scope.
Delimit Scope db_scope with db.
Notation "x <- c ;; k" := (bind_db c (fun x => k))
  (at level 100, c at next level, right associativity) : db_scope.
Notation "c ;; k" := (bind_db c (fun _ => k))
  (at level 100, right associativity) : db_scope.

Open Scope db_scope.

(** [Message(content=..., thread_id=..., user_id=...)] *)
Definition new_Message (content : JValue) (thread_id user_id : string)
  : Db Message :=
  fun s =>
    (Return (mkMessage content thread_id user_id (clock s)),
     mkSession (message_table s) (annotation_table s) (added s) (S (clock s))).

Definition session_add (m : Message) : Db unit :=
  fun s =>
    (Return tt,
     mkSession (message_table s) (annotation_table s) (added s ++ [m])
               (clock s)).

Definition session_commit : Db unit :=
  fun s =>
    (Return tt,
     mkSession (message_table s ++ added s) (annotation_table s) [] (clock s)).

Definition HTTP_404_NOT_FOUND : nat := 404.

Definition quoted (s : string) : string :=
  String.append "'" (String.append s "'").

(** [f"{annotation_id}"] *)
Definition str_of_int (n : Z) : string := NilZero.string_of_int (Z.to_int n).

(** [AnnotationService.get_annotation_by_id] *)
Definition get_annotation_by_id (annotation_id : Z) : Db Annotation :=
  fun s =>
    match find (fun a => Z.eqb (Annotation_id a) annotation_id)
               (annotation_table s) with
    | Some a => (Return a, s)
    | None =>
        (Raise (HTTPException HTTP_404_NOT_FOUND
                  (String.append "Annotation "
                     (String.append (quoted (str_of_int annotation_id))
                                    " not found"))), s)
    end.

(** [MessageService._get_thread_history] *)
Definition _get_thread_history (thread_id : string) : Db (list Message) :=
  fun s =>
    match filter (fun m => String.eqb (Message_thread_id m) thread_id)
                 (message_table s) with
    | [] =>
        (Raise (HTTPException HTTP_404_NOT_FOUND
                  (String.append "Thread "
                     (String.append (quoted thread_id) " not found"))), s)
    | thread => (Return thread, s)
    end.

(** [thread.sort(key=lambda m: m.timestamp)]: a stable sort. *)
Fixpoint insert_by_timestamp (m : Message) (l : list Message) : list Message :=
  match l with
  | [] => [m]
  | h :: t =>
      if Nat.leb (Message_timestamp m) (Message_timestamp h) then m :: h :: t
      else h :: insert_by_timestamp m t
  end.

Definition sort_by_timestamp (l : list Message) : list Message :=
  fold_right insert_by_timestamp [] l.

(** [[ContentMessage.model_validate_json(m.content) for m in thread]] *)
Fixpoint validate_thread (thread : list Message) : Raises (list ContentMessage) :=
  match thread with
  | [] => Return []
  | m :: rest =>
      bind (validated (ContentMessage_validate (Message_content m)))
           (fun c => bind (validate_thread rest) (fun cs => Return (c :: cs)))
  end.

(** [msg.model_dump_json()]; [msg] may be [None]. *)
Definition model_dump_json (msg : option ContentMessage) : Raises JValue :=
  match msg with
  | Some m => Return (ContentMessage_dump m)
  | None => Raise AttributeError
  end.

(** The loop that turns the response into rows added to the session. *)
Fixpoint add_response (thread_id user_id : string)
  (_response : list (option ContentMessage)) : Db (list Message) :=
  match _response with
  | [] => ret []
  | msg :: rest =>
      content <- lift (model_dump_json msg) ;;
      new_message <- new_Message content thread_id user_id ;;
      session_add new_message ;;
      created_messages <- add_response thread_id user_id rest ;;
      ret (new_message :: created_messages)
  end.

Definition text_item (text : string) : JValue :=
  JObj [("type", JStr "text"); ("text", JStr text)].

Definition image_item (url : string) : JValue :=
  JObj [("type", JStr "image_url"); ("image_url", JObj [("url", JStr url)])].

Definition system_message_json (text : string) : JValue :=
  JObj [("role", JStr "system"); ("content", JList [text_item text])].

Definition user_message_json (content_items : list JValue) : JValue :=
  JObj [("role", JStr "user"); ("content", JList content_items)].

Section Runtime.

(** The two functions of the Python runtime that the attachment filter
    calls: [base64.b64decode(b, validate=True)] and
    [bytes.decode('utf-8')]; [None] stands for a raised exception. *)
Variable b64decode : bytes -> option bytes.
Variable decode : bytes -> option string.

(** [MessageService._is_valid_base64_image] *)
Definition _is_valid_base64_image (b : bytes) : bool :=
  match b64decode b with
  | Some _ => true
  | None => false
  end.

(** The loop over [form_pages]. *)
Fixpoint append_pages (content_items : list JValue) (form_pages : list bytes)
  : Raises (list JValue) :=
  match form_pages with
  | [] => Return content_items
  | page :: rest =>
      if _is_valid_base64_image page then
        match decode page with
        | Some s =>
            append_pages
              (content_items
               ++ [image_item (String.append "data:image/png;base64," s)])
              rest
        | None => Raise UnicodeDecodeError
        end
      else append_pages content_items rest
  end.

(** [FastformBuildMessageService.chat] *)
Definition FastformBuildMessageService_chat (lm : Model)
  (message_data : MessageCreate) (form_pages : option (list bytes))
  : Db (list Message) :=
  let thread_id := thread_id message_data in
  thread <- try_except_HTTPException (_get_thread_history thread_id)
              (fun status_code detail =>
                 if Nat.eqb status_code HTTP_404_NOT_FOUND then
                   system_message <- new_Message
                                       (system_message_json Ai.SYSTEM_PROMPT)
                                       thread_id (user_id message_data) ;;
                   session_add system_message ;;
                   session_commit ;;
                   ret [system_message]
                 else raise (HTTPException status_code detail)) ;;
  let thread := sort_by_timestamp thread in
  messages <- lift (validate_thread thread) ;;
  let content_items := [text_item (content message_data)] in
  content_items <- lift (match form_pages with
                         | Some pages => append_pages content_items pages
                         | None => Return content_items
                         end) ;;
  user_message <- lift (validated (ContentMessage_validate
                                     (user_message_json content_items))) ;;
  let messages := messages ++ [user_message] in
  user_message_db <- new_Message (ContentMessage_dump user_message) thread_id
                       (user_id message_data) ;;
  session_add user_message_db ;;
  session_commit ;;
  _response <- lift (Ai.fastformbuild_chat lm messages) ;;
  created_messages <- add_response thread_id (user_id message_data) _response ;;
  session_commit ;;
  ret created_messages.

End Runtime.

(** [FastfillMessageService.chat] *)
Definition FastfillMessageService_chat (lm : Model)
  (message_data : MessageCreate) : Db (list Message) :=
  let thread_id := thread_id message_data in
  annotation <- match load_annotation_id message_data with
                | Some id =>
                    if Z.eqb id 0 then ret None
                    else (a <- get_annotation_by_id id ;; ret (Some a))
                | None => ret None
                end ;;
  thread <- try_except_HTTPException (_get_thread_history thread_id)
              (fun status_code detail =>
                 if Nat.eqb status_code HTTP_404_NOT_FOUND then
                   system_message <- new_Message
                                       (system_message_json
                                          (Ai.SYSTEM_PROMPT_FILL
                                             match annotation with
                                             | Some a => Annotation_structure a
                                             | None => "No structure provided"
                                             end))
                                       thread_id (user_id message_data) ;;
                   session_add system_message ;;
                   session_commit ;;
                   ret [system_message]
                 else raise (HTTPException status_code detail)) ;;
  let thread := sort_by_timestamp thread in
  messages <- lift (validate_thread thread) ;;
  let content_items := [text_item (content message_data)] in
  user_message <- lift (validated (ContentMessage_validate
                                     (user_message_json content_items))) ;;
  let messages := messages ++ [user_message] in
  user_message_db <- new_Message (ContentMessage_dump user_message) thread_id
                       (user_id message_data) ;;
  session_add user_message_db ;;
  session_commit ;;
  _response <- lift (Ai.fastformfill_chat lm messages) ;;
  created_messages <- add_response thread_id (user_id message_data) _response ;;
  session_commit ;;
  ret created_messages.

Close Scope db_scope.

End Services.

(** * Vocabulary of the properties *)

Module Schema.
Import Fastform.

(** ** The models of the schema tree *)

Inductive ModelName :=
| M_Coordinate
| M_SelectOption
| M_Annotation
| M_TextField
| M_TextAreaField
| M_NumberField
| M_DateField
| M_CheckboxField
| M_RadioField
| M_SelectField
| M_FileField
| M_ImageField
| M_SignatureField
| M_EmailField
| M_UrlField
| M_PhoneField
| M_ListField
| M_AnnotationGroup
| M_SectionGroup
| M_RepeatGroup
| M_WizardStep
| M_TableGroup
| M_Form.

Definition declared (m : ModelName) : list string :=
  match m with
  | M_Coordinate => Coordinate_declared
  | M_SelectOption => SelectOption_declared
  | M_Annotation => Annotation_declared
  | M_TextField => TextField_declared
  | M_TextAreaField => TextAreaField_declared
  | M_NumberField => NumberField_declared
  | M_DateField => DateField_declared
  | M_CheckboxField => CheckboxField_declared
  | M_RadioField => RadioField_declared
  | M_SelectField => SelectField_declared
  | M_FileField => FileField_declared
  | M_ImageField => ImageField_declared
  | M_SignatureField => SignatureField_declared
  | M_EmailField => EmailField_declared
  | M_UrlField => UrlField_declared
  | M_PhoneField => PhoneField_declared
  | M_ListField => ListField_declared
  | M_AnnotationGroup => AnnotationGroup_declared
  | M_SectionGroup => SectionGroup_declared
  | M_RepeatGroup => RepeatGroup_declared
  | M_WizardStep => WizardStep_declared
  | M_TableGroup => TableGroup_declared
  | M_Form => Form_declared
  end.

(** [accepts m v]: [m.model_validate(v)] returns an instance. *)
Definition accepts (m : ModelName) (v : JValue) : bool :=
  match m with
  | M_Coordinate => isOk (Coordinate_validate v)
  | M_SelectOption => isOk (SelectOption_validate v)
  | M_Annotation => isOk (Annotation_validate v)
  | M_TextField => isOk (TextField_validate v)
  | M_TextAreaField => isOk (TextAreaField_validate v)
  | M_NumberField => isOk (NumberField_validate v)
  | M_DateField => isOk (DateField_validate v)
  | M_CheckboxField => isOk (CheckboxField_validate v)
  | M_RadioField => isOk (RadioField_validate v)
  | M_SelectField => isOk (SelectField_validate v)
  | M_FileField => isOk (FileField_validate v)
  | M_ImageField => isOk (ImageField_validate v)
  | M_SignatureField => isOk (SignatureField_validate v)
  | M_EmailField => isOk (EmailField_validate v)
  | M_UrlField => isOk (UrlField_validate v)
  | M_PhoneField => isOk (PhoneField_validate v)
  | M_ListField => isOk (ListField_validate v)
  | M_AnnotationGroup => isOk (AnnotationGroup_validate v)
  | M_SectionGroup => isOk (SectionGroup_validate v)
  | M_RepeatGroup => isOk (RepeatGroup_validate v)
  | M_WizardStep => isOk (WizardStep_validate v)
  | M_TableGroup => isOk (TableGroup_validate v)
  | M_Form => isOk (Form_validate v)
  end.

(** ** Leaf variants and their discriminator *)

(** The model class of a leaf variant, named by the member of
    [AnnotationEnum] that the variant is meant to carry. *)
Definition variant_validate (k : AnnotationEnum) (v : JValue) : Result Cell :=
  match k with
  | text_field => fmap Cell_TextField (TextField_validate v)
  | text_area_field => fmap Cell_TextAreaField (TextAreaField_validate v)
  | number_field => fmap Cell_NumberField (NumberField_validate v)
  | date_field => fmap Cell_DateField (DateField_validate v)
  | checkbox_field => fmap Cell_CheckboxField (CheckboxField_validate v)
  | radio_field => fmap Cell_RadioField (RadioField_validate v)
  | select_field => fmap Cell_SelectField (SelectField_validate v)
  | file_field => fmap Cell_FileField (FileField_validate v)
  | image_field => fmap Cell_ImageField (ImageField_validate v)
  | signature_field => fmap Cell_SignatureField (SignatureField_validate v)
  | email_field => fmap Cell_EmailField (EmailField_validate v)
  | url_field => fmap Cell_UrlField (UrlField_validate v)
  | phone_field => fmap Cell_PhoneField (PhoneField_validate v)
  | list_field => fmap Cell_ListField (ListField_validate v)
  end.

Definition variant_of (c : Cell) : option AnnotationEnum :=
  match c with
  | Cell_TextField _ => Some text_field
  | Cell_TextAreaField _ => Some text_area_field
  | Cell_NumberField _ => Some number_field
  | Cell_DateField _ => Some date_field
  | Cell_CheckboxField _ => Some checkbox_field
  | Cell_RadioField _ => Some radio_field
  | Cell_SelectField _ => Some select_field
  | Cell_FileField _ => Some file_field
  | Cell_ImageField _ => Some image_field
  | Cell_SignatureField _ => Some signature_field
  | Cell_EmailField _ => Some email_field
  | Cell_UrlField _ => Some url_field
  | Cell_PhoneField _ => Some phone_field
  | Cell_ListField _ => Some list_field
  | Cell_SectionGroup _ | Cell_RepeatGroup _ | Cell_WizardStep _ => None
  end.




(** ** Valid instances

    The constraints that section 3 of the specification puts on an
    instance: a bounding box of exactly two coordinates, at least one
    annotation in a group, rows as long as the columns, a selection
    whose cardinality agrees with [multi]. *)

Definition bbox_ok (a : Annotation) : bool :=
  Nat.eqb (List.length (Annotation_bbox a)) 2.

Definition cardinality_ok (multi : bool) (value : Selection) : bool :=
  match multi, value with
  | true, SelOne _ => false
  | false, SelList _ => false
  | _, _ => true
  end.

Definition group_ok (g : AnnotationGroup) : bool :=
  negb (Nat.eqb (List.length (AnnotationGroup_annotations g)) 0)
  && forallb bbox_ok (AnnotationGroup_annotations g).

Definition Cell_ok (c : Cell) : bool :=
  match c with
  | Cell_TextField f => bbox_ok (TextField_base f)
  | Cell_TextAreaField f => bbox_ok (TextAreaField_base f)
  | Cell_NumberField f => bbox_ok (NumberField_base f)
  | Cell_DateField f => bbox_ok (DateField_base f)
  | Cell_CheckboxField f => bbox_ok (CheckboxField_base f)
  | Cell_RadioField f => bbox_ok (RadioField_base f)
  | Cell_SelectField f =>
      bbox_ok (SelectField_base f)
      && cardinality_ok (SelectField_multi f) (SelectField_value f)
  | Cell_FileField f => bbox_ok (FileField_base f)
  | Cell_ImageField f => bbox_ok (FileField_base (ImageField_super f))
  | Cell_SignatureField f => bbox_ok (SignatureField_base f)
  | Cell_EmailField f => bbox_ok (EmailField_base f)
  | Cell_UrlField f => bbox_ok (UrlField_base f)
  | Cell_PhoneField f => bbox_ok (PhoneField_base f)
  | Cell_ListField f =>
      bbox_ok (ListField_base f)
      && match ListField_items f with
         | Some items => forallb bbox_ok items
         | None => true
         end
  | Cell_SectionGroup g => group_ok (SectionGroup_base g)
  | Cell_RepeatGroup g => group_ok (RepeatGroup_base g)
  | Cell_WizardStep g => group_ok (WizardStep_base g)
  end.

(** The cells that are instances of [SelectField]. *)
Definition is_select (c : Cell) : bool :=
  match c with Cell_SelectField _ => true | _ => false end.

(** The valid cells on which validation runs to its end. *)
Definition Cell_passes (c : Cell) : bool := Cell_ok c && negb (is_select c).

Definition rows_ok {A} (columns : list string) (rows : list (list A)) : bool :=
  forallb (fun row => Nat.eqb (List.length row) (List.length columns)) rows.

Definition TableGroup_ok (g : TableGroup) : bool :=
  group_ok (TableGroup_base g)
  && forallb (forallb Cell_ok) (TableGroup_rows g)
  && rows_ok (TableGroup_columns g) (TableGroup_rows g).

Definition Element_ok (e : Element) : bool :=
  match e with
  | Element_Cell c => Cell_ok c
  | Element_TableGroup g => TableGroup_ok g
  end.

Definition Form_ok (f : Form) : bool := forallb Element_ok (Form_elements f).

Definition TableGroup_passes (g : TableGroup) : bool :=
  group_ok (TableGroup_base g)
  && forallb (forallb Cell_passes) (TableGroup_rows g)
  && rows_ok (TableGroup_columns g) (TableGroup_rows g).

Definition Element_passes (e : Element) : bool :=
  match e with
  | Element_Cell c => Cell_passes c
  | Element_TableGroup g => TableGroup_passes g
  end.

(** The valid forms without a [SelectField] at any depth. *)
Definition Form_passes (f : Form) : bool :=
  forallb Element_passes (Form_elements f).

(** ** Bounding boxes of an instance *)

Definition group_bboxes (g : AnnotationGroup) : list (list Coordinate) :=
  map Annotation_bbox (AnnotationGroup_annotations g).

Definition Cell_bboxes (c : Cell) : list (list Coordinate) :=
  match c with
  | Cell_TextField f => [Annotation_bbox (TextField_base f)]
  | Cell_TextAreaField f => [Annotation_bbox (TextAreaField_base f)]
  | Cell_NumberField f => [Annotation_bbox (NumberField_base f)]
  | Cell_DateField f => [Annotation_bbox (DateField_base f)]
  | Cell_CheckboxField f => [Annotation_bbox (CheckboxField_base f)]
  | Cell_RadioField f => [Annotation_bbox (RadioField_base f)]
  | Cell_SelectField f => [Annotation_bbox (SelectField_base f)]
  | Cell_FileField f => [Annotation_bbox (FileField_base f)]
  | Cell_ImageField f => [Annotation_bbox (FileField_base (ImageField_super f))]
  | Cell_SignatureField f => [Annotation_bbox (SignatureField_base f)]
  | Cell_EmailField f => [Annotation_bbox (EmailField_base f)]
  | Cell_UrlField f => [Annotation_bbox (UrlField_base f)]
  | Cell_PhoneField f => [Annotation_bbox (PhoneField_base f)]
  | Cell_ListField f =>
      Annotation_bbox (ListField_base f)
      :: match ListField_items f with
         | Some items => map Annotation_bbox items
         | None => []
         end
  | Cell_SectionGroup g => group_bboxes (SectionGroup_base g)
  | Cell_RepeatGroup g => group_bboxes (RepeatGroup_base g)
  | Cell_WizardStep g => group_bboxes (WizardStep_base g)
  end.

Definition Element_bboxes (e : Element) : list (list Coordinate) :=
  match e with
  | Element_Cell c => Cell_bboxes c
  | Element_TableGroup g =>
      group_bboxes (TableGroup_base g)
      ++ flat_map (flat_map Cell_bboxes) (TableGroup_rows g)
  end.

(** Every bounding box that occurs in the form, at any depth. *)
Definition Form_bboxes (f : Form) : list (list Coordinate) :=
  flat_map Element_bboxes (Form_elements f).

Definition Coordinate_is_null (c : Coordinate) : bool :=
  match Coordinate_x c, Coordinate_y c with
  | None, None => true
  | _, _ => false
  end.

(** Every coordinate of the form has both components absent. *)
Definition coordinates_null (f : Form) : bool :=
  forallb (forallb Coordinate_is_null) (Form_bboxes f).

End Schema.

Module Turn.
Import Guidance.

Definition assistant_message (t : string) : ContentMessage :=
  mkContentMessage assistant [TextContent t].

(** The contract of the structured-generation capability: what it
    returns under a schema is an instance of that schema.  The
    classifier is the call under [YesNo], the structured generator the
    call under [Form]. *)
Definition classifier_follows_schema (lm : Model) : Prop :=
  forall ctx g,
    json lm YesNo_schema ctx = Return g ->
    isOk (Ai.YesNo_validate (value g)) = true.

Definition generator_follows_schema (lm : Model) : Prop :=
  forall ctx g,
    json lm Form_schema ctx = Return g ->
    isOk (Fastform.Form_validate (value g)) = true.

Definition follows_schema (lm : Model) : Prop :=
  classifier_follows_schema lm /\ generator_follows_schema lm.

(** The classifier's decision: the [selection] read from the document
    it generated. *)
Definition decides (g : Generated) (r : Ai.Response) : Prop :=
  Ai.subscript (value g) "selection" = Return (JStr (Ai.Response_value r)).

(** The conversation handed to the classifier, to the structured
    generator and to the commentary stage of either branch. *)
Definition classifier_context (analyze : string)
  (messages : list ContentMessage) : list ContentMessage :=
  messages ++ [assistant_message analyze].

Definition generator_context (analyze generate : string)
  (messages : list ContentMessage) (g0 : Generated) : list ContentMessage :=
  classifier_context analyze messages
  ++ [assistant_message (text g0); assistant_message generate].

Definition commentary_context (analyze generate comment : string)
  (messages : list ContentMessage) (g0 g1 : Generated) : list ContentMessage :=
  generator_context analyze generate messages g0
  ++ [assistant_message (text g1); assistant_message comment].

Definition conversing_context (analyze continue : string)
  (messages : list ContentMessage) (g0 : Generated) : list ContentMessage :=
  classifier_context analyze messages
  ++ [assistant_message (text g0); assistant_message continue].

(** The turn ends with the structure message followed by the
    commentary message: the classifier decided yes, and the two
    messages carry the outputs of the structured generator and of the
    commentary stage. *)
Definition two_messages (analyze generate comment : string) (lm : Model)
  (messages : list ContentMessage) (out : list (option ContentMessage)) : Prop :=
  exists g0 g1 t,
    json lm YesNo_schema (classifier_context analyze messages) = Return g0
    /\ decides g0 Ai.yes
    /\ json lm Form_schema (generator_context analyze generate messages g0)
       = Return g1
    /\ gen lm (commentary_context analyze generate comment messages g0 g1)
       = Return t
    /\ out = [Some (assistant_message (text g1)); Some (assistant_message t)].

(** The turn ends with the commentary message alone: the classifier
    decided no. *)
Definition one_message (analyze continue : string) (lm : Model)
  (messages : list ContentMessage) (out : list (option ContentMessage)) : Prop :=
  exists g0 t,
    json lm YesNo_schema (classifier_context analyze messages) = Return g0
    /\ decides g0 Ai.no
    /\ gen lm (conversing_context analyze continue messages g0) = Return t
    /\ out = [Some (assistant_message t)].

End Turn.

Module Structure.
Import Fastform.





End Structure.

Module Prefix.
Import Guidance Services.
Open Scope db_scope.

(** The seeding of a new thread, as both [chat] methods do it. *)
Definition history (seed : string) (message_data : MessageCreate)
  : Db (list Message) :=
  let thread_id := thread_id message_data in
  try_except_HTTPException (_get_thread_history thread_id)
    (fun status_code detail =>
       if Nat.eqb status_code HTTP_404_NOT_FOUND then
         system_message <- new_Message (system_message_json seed) thread_id
                             (user_id message_data) ;;
         session_add system_message ;;
         session_commit ;;
         ret [system_message]
       else raise (HTTPException status_code detail)).

(** The part of [chat] from the sorted history to the commit of the
    user message; it returns the conversation handed to the
    orchestration. *)
Definition receive (thread : list Message) (message_data : MessageCreate)
  (items : Raises (list JValue)) : Db (list ContentMessage) :=
  let thread := sort_by_timestamp thread in
  messages <- lift (validate_thread thread) ;;
  content_items <- lift items ;;
  user_message <- lift (validated (ContentMessage_validate
                                     (user_message_json content_items))) ;;
  let messages := messages ++ [user_message] in
  user_message_db <- new_Message (ContentMessage_dump user_message)
                       (thread_id message_data) (user_id message_data) ;;
  session_add user_message_db ;;
  session_commit ;;
  ret messages.

(** [FastformBuildMessageService.chat] up to the call of
    [fastformbuild_chat]. *)
Definition build_receive (b64decode : bytes -> option bytes)
  (decode : bytes -> option string) (message_data : MessageCreate)
  (form_pages : option (list bytes)) : Db (list ContentMessage) :=
  thread <- history Ai.SYSTEM_PROMPT message_data ;;
  receive thread message_data
    (match form_pages with
     | Some pages =>
         append_pages b64decode decode [text_item (content message_data)] pages
     | None => Return [text_item (content message_data)]
     end).

(** [FastfillMessageService.chat] up to the call of
    [fastformfill_chat]. *)
Definition fill_receive (message_data : MessageCreate)
  : Db (list ContentMessage) :=
  annotation <- match load_annotation_id message_data with
                | Some id =>
                    if Z.eqb id 0 then ret None
                    else (a <- get_annotation_by_id id ;; ret (Some a))
                | None => ret None
                end ;;
  thread <- history (Ai.SYSTEM_PROMPT_FILL
                       match annotation with
                       | Some a => Annotation_structure a
                       | None => "No structure provided"
                       end) message_data ;;
  receive thread message_data (Return [text_item (content message_data)]).


(** The part of [chat] after the orchestration has answered: the
    response is added to the session, committed and returned. *)
Definition respond (_response : Raises (list (option ContentMessage)))
  (message_data : MessageCreate) : Db (list Message) :=
  _response <- lift _response ;;
  created_messages <- add_response (thread_id message_data)
                        (user_id message_data) _response ;;
  session_commit ;;
  ret created_messages.

(** The role of the message that a row stores. *)
Definition row_role (m : Message) : option Role :=
  match ContentMessage_validate (Message_content m) with
  | Ok c => Some (role c)
  | _ => None
  end.

(** What the message table has gained between [s] and [s1] once the
    user message is received: the system message of a new thread, if
    the thread is new, and the user message; no assistant message. *)
Definition received (message_data : MessageCreate) (s s1 : Session) : Prop :=
  exists seed row,
    message_table s1 = message_table s ++ seed ++ [row]
    /\ List.length seed <= 1
    /\ (forall m, In m seed -> row_role m = Some system)
    /\ row_role row = Some user
    /\ Message_thread_id row = thread_id message_data.

Close Scope db_scope.
End Prefix.

(** * Sample data *)

Module Samples.
Import Fastform Guidance Services.

Definition quote : string := String (ascii_of_nat 34) EmptyString.

Fixpoint join (sep : string) (l : list string) : string :=
  match l with
  | [] => EmptyString
  | [s] => s
  | s :: rest => String.append s (String.append sep (join sep rest))
  end.

Fixpoint escape (s : string) : string :=
  match s with
  | EmptyString => EmptyString
  | String c rest =>
      if orb (Ascii.eqb c (ascii_of_nat 34)) (Ascii.eqb c (ascii_of_nat 92))
      then String (ascii_of_nat 92) (String c (escape rest))
      else String c (escape rest)
  end.

Definition quoted_string (s : string) : string :=
  String.append quote (String.append (escape s) quote).

(** [json.dumps] with its default separators. *)
Fixpoint dumps (v : JValue) : string :=
  match v with
  | JNull => "null"
  | JBool true => "true"
  | JBool false => "false"
  | JInt n => str_of_int n
  | JFloat lit => lit
  | JStr s => quoted_string s
  | JList l =>
      String.append "[" (String.append (join ", " (map dumps l)) "]")
  | JObj o =>
      String.append "{"
        (String.append
           (join ", "
              (map (fun kv =>
                      String.append (quoted_string (fst kv))
                        (String.append ": " (dumps (snd kv)))) o))
           "}")
  end.

Definition generated (v : JValue) : Generated := mkGenerated (dumps v) v.

Definition null_box : list Coordinate :=
  [mkCoordinate None None; mkCoordinate None None].

Definition name_field : TextField :=
  mkTextField (Fastform.mkAnnotation "Name" "Full name" null_box text_field) None.


(** A stored structure with a single text field. *)
Definition stored_form : Form :=
  mkForm "Contact" "A contact form" [Element_Cell (Cell_TextField name_field)].


(** A form whose first bounding box carries integers. *)
Definition placed_form : Form :=
  mkForm "Contact" "A contact form"
    [Element_Cell (Cell_TextField
       (mkTextField
          (Fastform.mkAnnotation "Name" "Full name"
             [mkCoordinate (Some 5%Z) (Some 7%Z); mkCoordinate None None]
             text_field)
          None))].

(** A form with a bounding box of one coordinate inside a group. *)
Definition short_box_form : Form :=
  mkForm "Contact" "A contact form"
    [Element_Cell (Cell_TextField name_field);
     Element_Cell (Cell_SectionGroup
       (mkSectionGroup
          (mkAnnotationGroup "Address" "Postal address"
             [Fastform.mkAnnotation "Street" "Street name" [mkCoordinate None None]
                text_field]
             section_group)
          true false))].

Definition options : list SelectOption :=
  [mkSelectOption "Red" (OVStr "r"); mkSelectOption "Blue" (OVInt 2)].

Definition select (multi : bool) (value : Selection) : SelectField :=
  mkSelectField
    (Fastform.mkAnnotation "Colour" "Pick" null_box select_field)
    options multi value.

Definition cell : Cell := Cell_TextField name_field.

(** A form whose only element is a single-choice select without a
    choice made. *)
Definition select_form : Form :=
  mkForm "Survey" "A survey"
    [Element_Cell (Cell_SelectField (select false SelNone))].

(** A table of one column with the given rows. *)
Definition table (rows : list (list Cell)) : TableGroup :=
  mkTableGroup
    (mkAnnotationGroup "Items" "Item list"
       [Fastform.mkAnnotation "Item" "An item" null_box text_field] table_group)
    ["item"] rows.

(** A model that answers [decision], generates [form] and comments
    with [comment], whatever the conversation. *)
Definition scripted (decision : Ai.Response) (form : JValue) (comment : string)
  : Model :=
  mkModel
    (fun schema _ =>
       match schema with
       | YesNo_schema => Return (generated (Ai.YesNo_dump (Ai.mkYesNo decision)))
       | Form_schema => Return (generated form)
       end)
    (fun _ => Return comment).

(** A model whose classifier answers yes and whose structured
    generation then fails. *)
Definition failing : Model :=
  mkModel
    (fun schema _ =>
       match schema with
       | YesNo_schema => Return (generated (Ai.YesNo_dump (Ai.mkYesNo Ai.yes)))
       | Form_schema => Raise (ModelError "generation failed")
       end)
    (fun _ => Return EmptyString).

Definition empty_session : Session := mkSession [] [] [] 0.

Definition stored_session : Session :=
  mkSession [] [Services.mkAnnotation 1%Z (dumps (Form_dump stored_form)) "u1"] [] 0.

Definition request : MessageCreate :=
  mkMessageCreate "my name is Ada" "t1" "u1" None.

Definition fill_request : MessageCreate :=
  mkMessageCreate "my name is Ada" "t1" "u1" (Some 1%Z).

(** Stand-ins for the two runtime functions, to run the services on
    examples.  The first accepts the texts over the base64 alphabet,
    padded with at most two [=] to a length that is a multiple of four
    (the decoded bytes are never used by the caller and are not
    computed); the second decodes the 7-bit texts. *)
Definition is_b64_digit (c : ascii) : bool :=
  let n := nat_of_ascii c in
  (Nat.leb 65 n && Nat.leb n 90) || (Nat.leb 97 n && Nat.leb n 122)
  || (Nat.leb 48 n && Nat.leb n 57) || Nat.eqb n 43 || Nat.eqb n 47.

Fixpoint b64_shape (pads : nat) (s : string) : bool :=
  match s with
  | EmptyString => true
  | String c rest =>
      if is_b64_digit c then b64_shape pads rest
      else if Ascii.eqb c "="%char then
        match pads, rest with
        | S _, EmptyString => true
        | S (S _), String c' EmptyString => Ascii.eqb c' "="%char
        | _, _ => false
        end
      else false
  end.

Definition sample_b64decode (b : bytes) : option bytes :=
  if b64_shape 2 b && Nat.eqb (Nat.modulo (String.length b) 4) 0
  then Some EmptyString else None.

Fixpoint seven_bit (s : string) : bool :=
  match s with
  | EmptyString => true
  | String c rest => Nat.ltb (nat_of_ascii c) 128 && seven_bit rest
  end.

Definition sample_decode (b : bytes) : option string :=
  if seven_bit b then Some b else None.

End Samples.

(** * [app/api.py] and [app/main.py]: the chat endpoints *)

Module Main.
Import Guidance.

Section Models.

(** [guidance.models.OpenAI(model=..., api_key=...)] *)
Variable OpenAI : string -> string -> Model.

(** [init_models]; [openai] is [keys.openai], which is falsy when it is
    [None] or the empty string. *)
Definition init_models (openai : option string) : list (string * Model) :=
  match openai with
  | Some (String c rest) =>
      [("gpt-4o-mini", OpenAI "gpt-4o-mini" (String c rest))]
  | _ => []
  end.

End Models.

End Main.

Module Api.
Import Guidance Services.
Open Scope db_scope.

(** [FastformBuildMessageResponse] and [FastfillMessageResponse]: the
    attributes [id], [content], [thread_id], [timestamp] and [user_id]
    are copied from a row and are kept as that row; [form_data] is
    declared [str | None]. *)
Record MessageResponse := mkMessageResponse {
  response_row : Message;
  form_data : option string
}.

(** [models[name]] *)
Fixpoint getitem (models : list (string * Model)) (name : string)
  : Raises Model :=
  match models with
  | [] => Raise (KeyError name)
  | (k, lm) :: rest => if String.eqb name k then Return lm else getitem rest name
  end.

(** [key in obj] for a string [key]: a key of a dict, an item of a
    list, a substring of a string. *)
Definition contains (key : string) (obj : JValue) : Raises bool :=
  match obj with
  | JObj o => Return (present key o)
  | JList l => Return (existsb (fun x => Ai.equals x key) l)
  | JStr s =>
      Return (match String.index 0 key s with Some _ => true | None => false end)
  | _ => Raise TypeError
  end.

(** [len(obj) > 0] *)
Definition len_positive (obj : JValue) : Raises bool :=
  match obj with
  | JList l => Return (negb (Nat.eqb (List.length l) 0))
  | JObj o => Return (negb (Nat.eqb (List.length o) 0))
  | JStr s => Return (negb (String.eqb s EmptyString))
  | _ => Raise TypeError
  end.

(** [obj[0]]; an item of a string is a string, and no key of a loaded
    JSON object is the integer 0. *)
Definition first_item (obj : JValue) : Raises JValue :=
  match obj with
  | JList (x :: _) => Return x
  | JList [] => Raise IndexError
  | JStr (String c _) => Return (JStr (String c EmptyString))
  | JStr EmptyString => Raise IndexError
  | JObj _ => Raise (KeyError "0")
  | _ => Raise TypeError
  end.

(** [obj.get(key)]: only a dict has the method; the result is Python's
    [None] when the key is missing or maps to [null]. *)
Definition dict_get (obj : JValue) (key : string) : Raises (option JValue) :=
  match obj with
  | JObj o =>
      Return (match get key o with
              | Some JNull | None => None
              | Some v => Some v
              end)
  | _ => Raise AttributeError
  end.

(** The body of the [try] in both chat endpoints, from
    [first_content = json.loads(response_messages[0].content)]; it
    returns the new value of [form_data]. *)
Definition read_form_data (first_content : JValue) : Raises (option JValue) :=
  bind (contains "content" first_content) (fun has_content =>
  if has_content then
    bind (Ai.subscript first_content "content") (fun c =>
    bind (len_positive c) (fun positive =>
    if positive then
      bind (Ai.subscript first_content "content") (fun c =>
      bind (first_item c) (fun item => dict_get item "text"))
    else Return None))
  else Return None).

(** [form_data] after the [if len(response_messages) == 2:] block;
    [except Exception] leaves it [None]. *)
Definition extract_form_data (response_messages : list Message)
  : option JValue :=
  if Nat.eqb (List.length response_messages) 2 then
    match response_messages with
    | first :: _ =>
        match read_form_data (Message_content first) with
        | Return form_data => form_data
        | Raise _ => None
        end
    | [] => None
    end
  else None.

(** The construction of the response: [form_data] is validated as
    [str | None]. *)
Definition new_MessageResponse (last_message : Message)
  (form_data : option JValue) : Raises MessageResponse :=
  match form_data with
  | None => Return (mkMessageResponse last_message None)
  | Some (JStr s) => Return (mkMessageResponse last_message (Some s))
  | Some _ => Raise (ValidationError [mkError string_type [Key "form_data"]])
  end.

(** [response_messages[-1] if response_messages else None] *)
Definition last_message (response_messages : list Message) : option Message :=
  List.last (map Some response_messages) None.

(** What both chat endpoints do with the messages of the service. *)
Definition to_response (response_messages : list Message) : Db MessageResponse :=
  match last_message response_messages with
  | None => raise (HTTPException 500 "No response")
  | Some last =>
      lift (new_MessageResponse last (extract_form_data response_messages))
  end.

Section Runtime.

Variable b64decode : bytes -> option bytes.
Variable decode : bytes -> option string.

(** [POST /fastformbuild/chat] *)
Definition fastformbuild_chat (models : list (string * Model))
  (message_data : MessageCreate) (form_pages : option (list bytes))
  : Db MessageResponse :=
  lm <- lift (getitem models "gpt-4o-mini") ;;
  response_messages <- FastformBuildMessageService_chat b64decode decode lm
                         message_data form_pages ;;
  to_response response_messages.

End Runtime.

(** [POST /fastfill/chat] *)
Definition fastfill_chat (models : list (string * Model))
  (message_data : MessageCreate) : Db MessageResponse :=
  lm <- lift (getitem models "gpt-4o-mini") ;;
  response_messages <- FastfillMessageService_chat lm message_data ;;
  to_response response_messages.

(** [GET /fastformbuild/threads/{thread_id}/history] and
    [GET /fastfill/threads/{thread_id}/history] *)
Definition get_thread_history (thread_id : string) : Db (list MessageResponse) :=
  messages <- _get_thread_history thread_id ;;
  ret (map (fun m => mkMessageResponse m None) messages).

Close Scope db_scope.

End Api.

(** * Vocabulary of the further properties *)

Module Shadowing.
Import Fastform.

(** The classes of which the unions of [TableGroup.rows] and
    [Form.elements] return no instance: [SelectField], and the classes
    whose attributes are those of a class declared earlier in the
    union. *)
Definition never_returned (c : Cell) : bool :=
  match c with
  | Cell_SelectField _ | Cell_DateField _ | Cell_ImageField _
  | Cell_SignatureField _ | Cell_EmailField _ | Cell_UrlField _
  | Cell_PhoneField _ => true
  | _ => false
  end.

(** The members of the two unions that occur in a form: its elements
    other than tables, and the cells of its tables. *)
Definition Element_cells (e : Element) : list Cell :=
  match e with
  | Element_Cell c => [c]
  | Element_TableGroup g => concat (TableGroup_rows g)
  end.

Definition Form_cells (f : Form) : list Cell :=
  flat_map Element_cells (Form_elements f).

(** The instance that the union returns for the serialised cell: the
    same attributes under the first class of the union that has them. *)
Definition first_match (c : Cell) : Cell :=
  match c with
  | Cell_DateField f =>
      Cell_TextField (mkTextField (DateField_base f) (DateField_value f))
  | Cell_CheckboxField f =>
      match CheckboxField_value f with
      | None => Cell_TextField (mkTextField (CheckboxField_base f) None)
      | Some _ => c
      end
  | Cell_ImageField f => Cell_FileField (ImageField_super f)
  | Cell_SignatureField f =>
      Cell_TextField (mkTextField (SignatureField_base f) (SignatureField_value f))
  | Cell_EmailField f =>
      Cell_TextField (mkTextField (EmailField_base f) (EmailField_value f))
  | Cell_UrlField f =>
      Cell_TextField (mkTextField (UrlField_base f) (UrlField_value f))
  | Cell_PhoneField f =>
      Cell_TextField (mkTextField (PhoneField_base f) (PhoneField_value f))
  | _ => c
  end.

Definition Element_first_match (e : Element) : Element :=
  match e with
  | Element_Cell c => Element_Cell (first_match c)
  | Element_TableGroup g =>
      Element_TableGroup
        (mkTableGroup (TableGroup_base g) (TableGroup_columns g)
           (map (map first_match) (TableGroup_rows g)))
  end.

Definition Form_first_match (f : Form) : Form :=
  mkForm (Form_title f) (Form_description f)
         (map Element_first_match (Form_elements f)).

End Shadowing.

Module Examples.
Import Fastform.

Definition birth_date : DateField :=
  mkDateField
    (mkAnnotation "Born" "Date of birth" Samples.null_box date_field)
    (Some "2001-02-03").

(** A form with a date and, in a table, a signature. *)
Definition person_form : Form :=
  mkForm "Person" "A person"
    [Element_Cell (Cell_DateField birth_date);
     Element_TableGroup
       (Samples.table
          [[Cell_SignatureField
              (mkSignatureField
                 (mkAnnotation "Signed" "Signature" Samples.null_box
                    signature_field)
                 None)]])].

(** A model whose classifier answers outside its schema. *)
Definition undecided : Guidance.Model :=
  Guidance.mkModel
    (fun _ _ =>
       Return (Samples.generated (JObj [("selection", JStr "maybe")])))
    (fun _ => Return "Hello").


(** A session whose thread [t1] is under way, with the stored
    annotation of [Samples.stored_session]. *)
Definition running_session : Services.Session :=
  Services.mkSession
    [Services.mkMessage (Services.system_message_json "Be brief.") "t1" "u1" 0]
    (Services.annotation_table Samples.stored_session) [] 1.

End Examples.

Module Failure.
Import Guidance.

(** Some call of the model raised [e]. *)
Definition model_raised (lm : Model) (e : Exception) : Prop :=
  (exists schema ctx, json lm schema ctx = Raise e)
  \/ (exists ctx, gen lm ctx = Raise e).

End Failure.

Module Frame.
Import Services.

(** The rows that a turn on behalf of [message_data] may write. *)
Definition own_row (message_data : MessageCreate) (m : Message) : Prop :=
  Message_thread_id m = thread_id message_data
  /\ Message_user_id m = user_id message_data.

(** Between [s] and [s']: the message table has only grown, by rows of
    the request's thread and user; the annotations are untouched. *)
Definition extended (message_data : MessageCreate) (s s' : Session) : Prop :=
  (exists rows,
     message_table s' = message_table s ++ rows
     /\ Forall (own_row message_data) rows)
  /\ annotation_table s' = annotation_table s.

(** The same for one step of a turn, where rows may wait in the
    session for the next commit. *)
Definition step (message_data : MessageCreate) (s s' : Session) : Prop :=
  Forall (own_row message_data) (added s) ->
  extended message_data s s' /\ Forall (own_row message_data) (added s').

Definition preserves {A} (message_data : MessageCreate) (c : Db A) : Prop :=
  forall s r s', c s = (r, s') -> step message_data s s'.

(** The request without its [load_annotation_id]. *)
Definition without_annotation (message_data : MessageCreate) : MessageCreate :=
  mkMessageCreate (content message_data) (thread_id message_data)
                  (user_id message_data) None.

End Frame.

(** * Facts about validation results *)

Module ResultFacts.

Lemma isOk_at_loc {A} (l : LocItem) (r : Result A) : isOk (at_loc l r) = isOk r.
Proof. destruct r; reflexivity. Qed.

Lemma isOk_fmap {A B} (f : A -> B) (r : Result A) : isOk (fmap f r) = isOk r.
Proof. destruct r; reflexivity. Qed.

Lemma isOk_ap {A B} (f : Result (A -> B)) (r : Result A) :
  isOk (f <*> r) = isOk f && isOk r.
Proof. destruct f, r; reflexivity. Qed.

Lemma isOk_and_then {A B} (r : Result A) (k : A -> Result B) :
  isOk (and_then r k) = true -> isOk r = true.
Proof. destruct r; [reflexivity | discriminate..]. Qed.

Lemma isOk_true {A} (r : Result A) : isOk r = true -> exists a, r = Ok a.
Proof. destruct r as [a| |]; [exists a; reflexivity | discriminate..]. Qed.

Lemma forbid_extra_nil (declared : list string) (o : Obj) :
  forbid_extra declared o = [] <-> no_extra declared o = true.
Proof.
  induction o as [|[k v] o IH]; cbn; [tauto|].
  destruct (mem k declared); cbn; [exact IH|]. split; discriminate.
Qed.

Lemma isOk_finish {A} (r : Result A) (declared : list string) (o : Obj) :
  isOk (finish r (forbid_extra declared o)) = isOk r && no_extra declared o.
Proof.
  destruct (no_extra declared o) eqn:E.
  - apply forbid_extra_nil in E. rewrite E. destruct r; reflexivity.
  - destruct (forbid_extra declared o) eqn:F.
    + apply forbid_extra_nil in F. congruence.
    + destruct r; reflexivity.
Qed.

Lemma isOk_model {A} (declared : list string) (F : Obj -> Result A) (o : Obj) :
  isOk (model declared F (JObj o)) = isOk (F o) && no_extra declared o.
Proof. apply isOk_finish. Qed.

Lemma no_extra_undeclared (declared : list string) (o : Obj) (k : string) :
  In k (keys o) -> mem k declared = false -> no_extra declared o = false.
Proof.
  unfold no_extra, keys.
  induction o as [|[k' v] o IH]; cbn; [tauto|].
  intros [->|H] Hk.
  - now rewrite Hk.
  - rewrite (IH H Hk). apply andb_false_r.
Qed.

Lemma model_no_extra {A} (declared : list string) (F : Obj -> Result A) (o : Obj) :
  no_extra declared o = true -> model declared F (JObj o) = finish (F o) [].
Proof. intros H. apply forbid_extra_nil in H. cbn. now rewrite H. Qed.

Lemma finish_nil {A} (r : Result A) : isOk r = true -> finish r [] = r.
Proof. destruct r; [reflexivity | discriminate..]. Qed.

(** *** Escaping exceptions *)

Lemma raised_at_loc {A} (l : LocItem) (r : Result A) :
  raised (at_loc l r) = raised r.
Proof. destruct r; reflexivity. Qed.

Lemma raised_fmap {A B} (f : A -> B) (r : Result A) :
  raised (fmap f r) = raised r.
Proof. destruct r; reflexivity. Qed.

Lemma raised_ap {A B} (f : Result (A -> B)) (r : Result A) :
  raised f = false -> raised r = false -> raised (f <*> r) = false.
Proof. destruct f, r; cbn; congruence. Qed.

Lemma raised_finish {A} (r : Result A) (extra : list ErrorDetails) :
  raised (finish r extra) = raised r.
Proof. destruct r, extra; reflexivity. Qed.

Lemma raised_model {A} (declared : list string) (F : Obj -> Result A)
  (v : JValue) :
  (forall o, raised (F o) = false) -> raised (model declared F v) = false.
Proof.
  intros H. destruct v; try reflexivity. cbn. now rewrite raised_finish.
Qed.

Lemma raised_field {A} (name : string) (V : JValue -> Result A) (o : Obj) :
  (forall v, raised (V v) = false) -> raised (field name V o) = false.
Proof.
  intros H. unfold field. destruct (get name o); [|reflexivity].
  now rewrite raised_at_loc.
Qed.

Lemma raised_field_missing {A} (name : string) (V : JValue -> Result A)
  (o : Obj) : get name o = None -> raised (field name V o) = false.
Proof. intros H. unfold field. now rewrite H. Qed.

Lemma raised_nullable {A} (V : JValue -> Result A) (v : JValue) :
  (forall v, raised (V v) = false) -> raised (nullable V v) = false.
Proof.
  intros H. destruct v; try reflexivity; cbn; now rewrite raised_fmap.
Qed.

Lemma raised_list_items {A} (V : JValue -> Result A) (l : list JValue) :
  (forall v, raised (V v) = false) ->
  forall i, raised (list_items V i l) = false.
Proof.
  intros H. induction l as [|v l IH]; intros i; cbn [list_items];
    [reflexivity|].
  apply raised_ap; [apply raised_ap; [reflexivity|]|apply IH].
  now rewrite raised_at_loc.
Qed.

Lemma raised_list_of {A} (V : JValue -> Result A) (v : JValue) :
  (forall v, raised (V v) = false) -> raised (list_of V v) = false.
Proof.
  intros H. destruct v; try reflexivity. now apply raised_list_items.
Qed.

Lemma raised_and_then {A B} (r : Result A) (k : A -> Result B) :
  raised r = false -> (forall a, raised (k a) = false) ->
  raised (and_then r k) = false.
Proof. destruct r; cbn; [auto | reflexivity | discriminate]. Qed.

Lemma raised_str (v : JValue) : raised (str v) = false.
Proof. destruct v; reflexivity. Qed.

Lemma raised_int (v : JValue) : raised (int v) = false.
Proof. destruct v; reflexivity. Qed.

Lemma raised_boolean (v : JValue) : raised (boolean v) = false.
Proof. destruct v; reflexivity. Qed.

Lemma raised_number (v : JValue) : raised (number v) = false.
Proof. destruct v; reflexivity. Qed.

Lemma raised_min_length {A} (n : nat) (l : list A) :
  raised (min_length n l) = false.
Proof. unfold min_length. destruct (Nat.ltb _ _); reflexivity. Qed.

Lemma raised_max_length {A} (n : nat) (l : list A) :
  raised (max_length n l) = false.
Proof. unfold max_length. destruct (Nat.ltb _ _); reflexivity. Qed.

(** *** Unions *)

Lemma union_accepted {A} (ms : list (Member A)) (v : JValue) :
  isOk (union ms v) = true -> existsb (fun m => isOk (snd m v)) ms = true.
Proof.
  induction ms as [|[tag V] ms IH]; cbn; [discriminate|].
  destruct (V v); cbn; [reflexivity| |discriminate].
  intros H. apply IH. destruct (union ms v); [reflexivity|discriminate..].
Qed.

Lemma union_accepts {A} (ms : list (Member A)) (v : JValue) :
  (forall m, In m ms -> raised (snd m v) = false) ->
  existsb (fun m => isOk (snd m v)) ms = true ->
  isOk (union ms v) = true.
Proof.
  induction ms as [|[tag V] ms IH]; cbn; [discriminate|].
  intros Hq H. pose proof (Hq (tag, V) (or_introl eq_refl)) as Hv. cbn in Hv.
  destruct (V v); cbn in *; [reflexivity| |discriminate].
  pose proof (IH (fun m Hm => Hq m (or_intror Hm)) H) as H'.
  destruct (union ms v); [reflexivity|discriminate..].
Qed.

Lemma raised_union {A} (ms : list (Member A)) (v : JValue) :
  (forall m, In m ms -> raised (snd m v) = false) ->
  raised (union ms v) = false.
Proof.
  induction ms as [|[tag V] ms IH]; cbn; [reflexivity|].
  intros Hq. pose proof (Hq (tag, V) (or_introl eq_refl)) as Hv. cbn in Hv.
  destruct (V v); cbn in *; [reflexivity| |discriminate].
  pose proof (IH (fun m Hm => Hq m (or_intror Hm))) as H.
  destruct (union ms v); [reflexivity|reflexivity|discriminate].
Qed.

Lemma isOk_list_items {A} (V : JValue -> Result A) (l : list JValue) :
  forall i, isOk (list_items V i l) = forallb (fun v => isOk (V v)) l.
Proof.
  induction l as [|v l IH]; intros i; cbn [list_items forallb]; [reflexivity|].
  rewrite !isOk_ap, isOk_at_loc, IH. reflexivity.
Qed.

Lemma isOk_list_of_dump {A B} (V : JValue -> Result A) (d : B -> JValue)
  (l : list B) :
  isOk (list_of V (dump_list d l)) = forallb (fun b => isOk (V (d b))) l.
Proof.
  unfold list_of, dump_list. rewrite isOk_list_items.
  induction l as [|b l IH]; cbn; [reflexivity|]. now rewrite IH.
Qed.

Lemma isOk_field {A} (name : string) (V : JValue -> Result A) (o : Obj) :
  isOk (field name V o)
  = match get name o with Some v => isOk (V v) | None => false end.
Proof. unfold field. destruct (get name o); [apply isOk_at_loc | reflexivity]. Qed.

Lemma list_items_length {A} (V : JValue -> Result A) (l : list JValue) :
  forall i l', list_items V i l = Ok l' -> List.length l' = List.length l.
Proof.
  induction l as [|v l IH]; intros i l'; cbn.
  - intros [= <-]. reflexivity.
  - destruct (V v); cbn; destruct (list_items V (S i) l) eqn:E; cbn;
      try discriminate.
    intros [= <-]. cbn. f_equal. eapply IH, E.
Qed.

Lemma list_items_dump {A} (V : JValue -> Result A) (d : A -> JValue)
  (l : list A) :
  (forall a, In a l -> V (d a) = Ok a) ->
  forall i, list_items V i (map d l) = Ok l.
Proof.
  induction l as [|a l IH]; intros H i; cbn; [reflexivity|].
  rewrite (H a (or_introl eq_refl)). cbn. rewrite IH; [reflexivity|].
  intros b Hb. apply H. now right.
Qed.

Lemma list_of_dump {A} (V : JValue -> Result A) (d : A -> JValue) (l : list A) :
  (forall a, In a l -> V (d a) = Ok a) -> list_of V (dump_list d l) = Ok l.
Proof. intros H. apply list_items_dump, H. Qed.

Lemma nullable_str_dump (s : option string) :
  nullable str (dump_option JStr s) = Ok s.
Proof. destruct s; reflexivity. Qed.

Lemma nullable_int_dump (n : option Z) : nullable int (dump_option JInt n) = Ok n.
Proof. destruct n; reflexivity. Qed.

Lemma nullable_boolean_dump (b : option bool) :
  nullable boolean (dump_option JBool b) = Ok b.
Proof. destruct b; reflexivity. Qed.

Lemma nullable_number_dump (n : option Number) :
  nullable number (dump_option dump_number n) = Ok n.
Proof. destruct n as [[]|]; reflexivity. Qed.

Lemma list_of_str_dump (l : list string) : list_of str (dump_list JStr l) = Ok l.
Proof. apply list_of_dump. reflexivity. Qed.

End ResultFacts.

(** * Facts about the schema *)

Module FastformFacts.
Import Fastform Schema ResultFacts.

Lemma Coordinate_validate_dump (c : Coordinate) :
  Coordinate_validate (Coordinate_dump c) = Ok c.
Proof. destruct c as [[x|] [y|]]; reflexivity. Qed.

Lemma bbox_validate_dump (b : list Coordinate) :
  Nat.eqb (List.length b) 2 = true ->
  bbox_validate (dump_list Coordinate_dump b) = Ok b.
Proof.
  intros H. apply Nat.eqb_eq in H. unfold bbox_validate.
  rewrite list_of_dump by (intros; apply Coordinate_validate_dump).
  cbn. unfold min_length, max_length. rewrite H. cbn. rewrite H. reflexivity.
Qed.

Lemma isOk_bbox (b : list Coordinate) :
  isOk (bbox_validate (dump_list Coordinate_dump b)) = Nat.eqb (List.length b) 2.
Proof.
  unfold bbox_validate.
  rewrite list_of_dump by (intros; apply Coordinate_validate_dump).
  destruct b as [|c1 [|c2 [|c3 b]]]; reflexivity.
Qed.

Lemma AnnotationEnum_validate_value (e : AnnotationEnum) :
  AnnotationEnum_validate (JStr (AnnotationEnum_value e)) = Ok e.
Proof. destruct e; reflexivity. Qed.

Lemma AnnotationGroupEnum_validate_value (e : AnnotationGroupEnum) :
  AnnotationGroupEnum_validate (JStr (AnnotationGroupEnum_value e)) = Ok e.
Proof. destruct e; reflexivity. Qed.

Lemma by_value_sound {E} (value : E -> string) (members : list E) (s : string)
  (e : E) : by_value value members s = Some e -> value e = s.
Proof.
  unfold by_value. intros H. apply find_some in H as [_ H].
  apply String.eqb_eq in H. congruence.
Qed.

Lemma SelectOption_validate_dump (o : SelectOption) :
  SelectOption_validate (SelectOption_dump o) = Ok o.
Proof. destruct o as [l [s|n|f]]; reflexivity. Qed.

Lemma selection_dump (s : Selection) : selection (dump_selection s) = Ok s.
Proof.
  destruct s as [|o|l]; [reflexivity| |].
  - cbn [dump_selection]. unfold selection, SelectOption_dump.
    cbn [union member list_of fmap fail].
    fold (SelectOption_dump o). now rewrite SelectOption_validate_dump.
  - cbn [dump_selection]. unfold selection, dump_list.
    cbn [union member fmap]. fold (dump_list SelectOption_dump l).
    rewrite list_of_dump by (intros; apply SelectOption_validate_dump).
    reflexivity.
Qed.

Arguments bbox_validate : simpl never.
Arguments AnnotationEnum_validate : simpl never.
Arguments AnnotationGroupEnum_validate : simpl never.
Arguments annotations_validate : simpl never.
Arguments nullable : simpl never.
Arguments list_of : simpl never.
Arguments dump_list : simpl never.
Arguments dump_option : simpl never.
Arguments selection : simpl never.
Arguments dump_selection : simpl never.
Arguments SelectOption_validate : simpl never.
Arguments SelectOption_dump : simpl never.
Arguments Annotation_validate : simpl never.
Arguments Annotation_dump : simpl never.
Arguments Cell_validate : simpl never.
Arguments Cell_dump : simpl never.
Arguments Element_validate : simpl never.
Arguments Element_dump : simpl never.

Create Rewrite HintDb dump.
#[local] Hint Rewrite AnnotationEnum_validate_value
  AnnotationGroupEnum_validate_value nullable_str_dump nullable_int_dump
  nullable_boolean_dump nullable_number_dump list_of_str_dump selection_dump
  : dump.
#[local] Hint Rewrite bbox_validate_dump using assumption : dump.
#[local] Hint Rewrite @list_of_dump using
  (intros; first [ apply SelectOption_validate_dump ]) : dump.

Ltac roundtrip := repeat (cbn; autorewrite with dump); try reflexivity.

Lemma Annotation_validate_dump (a : Annotation) :
  bbox_ok a = true -> Annotation_validate (Annotation_dump a) = Ok a.
Proof.
  destruct a as [t d b e]. unfold bbox_ok. cbn [Annotation_bbox]. intros H.
  unfold Annotation_validate, Annotation_dump, model, Annotation_fields, field.
  roundtrip.
Qed.

Lemma annotations_dump (l : list Annotation) :
  forallb bbox_ok l = true ->
  list_of Annotation_validate (dump_list Annotation_dump l) = Ok l.
Proof.
  intros H. apply list_of_dump. intros a Ha.
  apply Annotation_validate_dump. rewrite forallb_forall in H. now apply H.
Qed.

#[local] Hint Rewrite annotations_dump using assumption : dump.

Ltac leaf_roundtrip :=
  unfold bbox_ok; cbn [Annotation_bbox]; intros;
  unfold ImageField_validate, ImageField_dump, ImageField_fields;
  unfold TextField_validate, TextAreaField_validate, NumberField_validate,
    DateField_validate, CheckboxField_validate, RadioField_validate,
    FileField_validate,
    SignatureField_validate, EmailField_validate, UrlField_validate,
    PhoneField_validate, ListField_validate,
    TextField_dump, TextAreaField_dump, NumberField_dump,
    DateField_dump, CheckboxField_dump, RadioField_dump,
    FileField_dump,
    SignatureField_dump, EmailField_dump, UrlField_dump,
    PhoneField_dump, ListField_dump, model,
    TextField_fields, TextAreaField_fields, NumberField_fields,
    DateField_fields, CheckboxField_fields, RadioField_fields,
    FileField_fields,
    SignatureField_fields, EmailField_fields, UrlField_fields,
    PhoneField_fields, ListField_fields, Annotation_fields, field;
  roundtrip.

Lemma TextField_validate_dump t d b e v :
  let f := mkTextField (mkAnnotation t d b e) v in
  bbox_ok (TextField_base f) = true -> TextField_validate (TextField_dump f) = Ok f.
Proof. leaf_roundtrip. Qed.

Lemma TextAreaField_validate_dump t d b e v m :
  let f := mkTextAreaField (mkAnnotation t d b e) v m in
  bbox_ok (TextAreaField_base f) = true ->
  TextAreaField_validate (TextAreaField_dump f) = Ok f.
Proof. leaf_roundtrip. Qed.

Lemma NumberField_validate_dump t d b e v mn mx :
  let f := mkNumberField (mkAnnotation t d b e) v mn mx in
  bbox_ok (NumberField_base f) = true ->
  NumberField_validate (NumberField_dump f) = Ok f.
Proof. leaf_roundtrip. Qed.

Lemma DateField_validate_dump t d b e v :
  let f := mkDateField (mkAnnotation t d b e) v in
  bbox_ok (DateField_base f) = true -> DateField_validate (DateField_dump f) = Ok f.
Proof. leaf_roundtrip. Qed.

Lemma CheckboxField_validate_dump t d b e v :
  let f := mkCheckboxField (mkAnnotation t d b e) v in
  bbox_ok (CheckboxField_base f) = true ->
  CheckboxField_validate (CheckboxField_dump f) = Ok f.
Proof. leaf_roundtrip. Qed.

Lemma RadioField_validate_dump t d b e o v :
  let f := mkRadioField (mkAnnotation t d b e) o v in
  bbox_ok (RadioField_base f) = true ->
  RadioField_validate (RadioField_dump f) = Ok f.
Proof. leaf_roundtrip. Qed.

Lemma FileField_validate_dump t d b e a m v :
  let f := mkFileField (mkAnnotation t d b e) a m v in
  bbox_ok (FileField_base f) = true ->
  FileField_validate (FileField_dump f) = Ok f.
Proof. leaf_roundtrip. Qed.

Lemma ImageField_validate_dump t d b e a m v :
  let f := mkImageField (mkFileField (mkAnnotation t d b e) a m v) in
  bbox_ok (FileField_base (ImageField_super f)) = true ->
  ImageField_validate (ImageField_dump f) = Ok f.
Proof. leaf_roundtrip. Qed.

Lemma SignatureField_validate_dump t d b e v :
  let f := mkSignatureField (mkAnnotation t d b e) v in
  bbox_ok (SignatureField_base f) = true ->
  SignatureField_validate (SignatureField_dump f) = Ok f.
Proof. leaf_roundtrip. Qed.

Lemma EmailField_validate_dump t d b e v :
  let f := mkEmailField (mkAnnotation t d b e) v in
  bbox_ok (EmailField_base f) = true ->
  EmailField_validate (EmailField_dump f) = Ok f.
Proof. leaf_roundtrip. Qed.

Lemma UrlField_validate_dump t d b e v :
  let f := mkUrlField (mkAnnotation t d b e) v in
  bbox_ok (UrlField_base f) = true -> UrlField_validate (UrlField_dump f) = Ok f.
Proof. leaf_roundtrip. Qed.

Lemma PhoneField_validate_dump t d b e v :
  let f := mkPhoneField (mkAnnotation t d b e) v in
  bbox_ok (PhoneField_base f) = true ->
  PhoneField_validate (PhoneField_dump f) = Ok f.
Proof. leaf_roundtrip. Qed.

Lemma ListField_validate_dump t d b e items :
  let f := mkListField (mkAnnotation t d b e) items in
  bbox_ok (ListField_base f) = true ->
  match items with Some l => forallb bbox_ok l | None => true end = true ->
  ListField_validate (ListField_dump f) = Ok f.
Proof.
  destruct items as [l|]; leaf_roundtrip.
  unfold nullable, dump_option.
  change (JList (map Annotation_dump l)) with (dump_list Annotation_dump l).
  cbn [List.map]. unfold dump_list at 1. fold (dump_list Annotation_dump l).
  rewrite annotations_dump by assumption. reflexivity.
Qed.

Lemma SelectField_fields_dump t d b e o m v :
  let f := mkSelectField (mkAnnotation t d b e) o m v in
  bbox_ok (SelectField_base f) = true ->
  model SelectField_declared SelectField_fields (SelectField_dump f) = Ok f.
Proof.
  unfold bbox_ok; cbn [Annotation_bbox SelectField_base]; intros.
  unfold SelectField_dump, model, SelectField_fields, Annotation_fields, field.
  roundtrip.
Qed.

(** ** Acceptance of a serialised instance, member by member *)

Lemma isOk_enum_value (e : AnnotationEnum) :
  isOk (AnnotationEnum_validate (JStr (AnnotationEnum_value e))) = true.
Proof. now rewrite AnnotationEnum_validate_value. Qed.

Lemma isOk_group_enum_value (e : AnnotationGroupEnum) :
  isOk (AnnotationGroupEnum_validate (JStr (AnnotationGroupEnum_value e))) = true.
Proof. now rewrite AnnotationGroupEnum_validate_value. Qed.

Lemma isOk_group_enum_leaf (e : AnnotationEnum) :
  isOk (AnnotationGroupEnum_validate (JStr (AnnotationEnum_value e))) = false.
Proof. destruct e; reflexivity. Qed.

Lemma isOk_nullable_str (s : option string) :
  isOk (nullable str (dump_option JStr s)) = true.
Proof. now rewrite nullable_str_dump. Qed.

Lemma isOk_nullable_int (n : option Z) :
  isOk (nullable int (dump_option JInt n)) = true.
Proof. now rewrite nullable_int_dump. Qed.

Lemma isOk_nullable_boolean (b : option bool) :
  isOk (nullable boolean (dump_option JBool b)) = true.
Proof. now rewrite nullable_boolean_dump. Qed.

Lemma isOk_nullable_number (n : option Number) :
  isOk (nullable number (dump_option dump_number n)) = true.
Proof. now rewrite nullable_number_dump. Qed.

Lemma isOk_str_of_boolean (b : option bool) :
  isOk (nullable str (dump_option JBool b))
  = match b with None => true | Some _ => false end.
Proof. destruct b; reflexivity. Qed.

Lemma isOk_boolean_of_str (s : option string) :
  isOk (nullable boolean (dump_option JStr s))
  = match s with None => true | Some _ => false end.
Proof. destruct s; reflexivity. Qed.

Lemma isOk_list_of_str (l : list string) :
  isOk (list_of str (dump_list JStr l)) = true.
Proof. now rewrite list_of_str_dump. Qed.

Lemma isOk_options (l : list SelectOption) :
  isOk (list_of SelectOption_validate (dump_list SelectOption_dump l)) = true.
Proof.
  rewrite list_of_dump; [reflexivity|].
  intros; apply SelectOption_validate_dump.
Qed.

Lemma isOk_selection (s : Selection) : isOk (selection (dump_selection s)) = true.
Proof. now rewrite selection_dump. Qed.

Lemma isOk_Annotation (a : Annotation) :
  isOk (Annotation_validate (Annotation_dump a)) = bbox_ok a.
Proof.
  destruct a as [t d b e].
  unfold Annotation_validate, Annotation_dump, Annotation_members.
  rewrite isOk_model. unfold Annotation_fields. rewrite !isOk_ap, !isOk_field.
  cbn. rewrite isOk_bbox, isOk_enum_value. unfold bbox_ok. cbn.
  now rewrite !andb_true_r.
Qed.

Lemma isOk_annotations (l : list Annotation) :
  isOk (list_of Annotation_validate (dump_list Annotation_dump l))
  = forallb bbox_ok l.
Proof.
  rewrite isOk_list_of_dump. induction l as [|a l IH]; cbn; [reflexivity|].
  now rewrite isOk_Annotation, IH.
Qed.

Lemma isOk_items (items : option (list Annotation)) :
  isOk (nullable (list_of Annotation_validate)
          (dump_option (dump_list Annotation_dump) items))
  = match items with Some l => forallb bbox_ok l | None => true end.
Proof.
  destruct items as [l|]; [|reflexivity].
  unfold nullable, dump_option, dump_list. rewrite isOk_fmap.
  apply isOk_annotations.
Qed.

Lemma isOk_group_annotations (l : list Annotation) :
  isOk (annotations_validate (dump_list Annotation_dump l))
  = negb (Nat.eqb (List.length l) 0) && forallb bbox_ok l.
Proof.
  unfold annotations_validate.
  destruct (forallb bbox_ok l) eqn:E.
  - rewrite annotations_dump by assumption. destruct l; reflexivity.
  - rewrite andb_false_r.
    destruct (list_of Annotation_validate (dump_list Annotation_dump l)) eqn:F;
      [|reflexivity..].
    pose proof (isOk_annotations l) as H. rewrite F, E in H. discriminate.
Qed.

(** ** Validators that let no exception escape *)

Lemma enum_quiet {E} (value : E -> string) (members : list E) (v : JValue) :
  raised (enum value members v) = false.
Proof.
  destruct v; try reflexivity. cbn. destruct (by_value value members s);
    reflexivity.
Qed.

Ltac quiet_step :=
  first
    [ reflexivity
    | assumption
    | apply raised_str | apply raised_int | apply raised_boolean
    | apply raised_number | apply raised_min_length | apply raised_max_length
    | apply enum_quiet
    | apply raised_model; intros
    | apply raised_ap
    | apply raised_field; intros
    | apply raised_nullable; intros
    | apply raised_list_of; intros
    | apply raised_and_then; intros ].

Ltac quiet := repeat quiet_step.

Lemma Coordinate_quiet (v : JValue) : raised (Coordinate_validate v) = false.
Proof. unfold Coordinate_validate, Coordinate_fields. quiet. Qed.

Lemma bbox_quiet (v : JValue) : raised (bbox_validate v) = false.
Proof. unfold bbox_validate. quiet. Qed.

Lemma Annotation_fields_quiet (o : Obj) : raised (Annotation_fields o) = false.
Proof.
  unfold Annotation_fields, AnnotationEnum_validate. quiet; apply bbox_quiet.
Qed.

Lemma Annotation_quiet (v : JValue) : raised (Annotation_validate v) = false.
Proof. apply raised_model, Annotation_fields_quiet. Qed.

Lemma annotations_quiet (v : JValue) : raised (annotations_validate v) = false.
Proof. unfold annotations_validate. quiet; apply Annotation_quiet. Qed.

Lemma AnnotationGroup_fields_quiet (o : Obj) :
  raised (AnnotationGroup_fields o) = false.
Proof.
  unfold AnnotationGroup_fields, AnnotationGroupEnum_validate.
  quiet; apply annotations_quiet.
Qed.

Lemma option_value_quiet (v : JValue) : raised (option_value v) = false.
Proof. destruct v; reflexivity. Qed.

Lemma SelectOption_quiet (v : JValue) : raised (SelectOption_validate v) = false.
Proof.
  unfold SelectOption_validate, SelectOption_fields.
  quiet; apply option_value_quiet.
Qed.

Lemma selection_quiet (v : JValue) : raised (selection v) = false.
Proof.
  unfold selection. destruct v; try reflexivity; apply raised_union;
    intros m [<-|[<-|[]]]; cbn [member snd]; rewrite raised_fmap;
    first [ apply SelectOption_quiet
          | apply raised_list_of; intros; apply SelectOption_quiet ].
Qed.

Lemma SelectField_fields_quiet (o : Obj) : raised (SelectField_fields o) = false.
Proof.
  unfold SelectField_fields.
  repeat first [ apply Annotation_fields_quiet | apply SelectOption_quiet
               | apply selection_quiet | quiet_step ].
Qed.

Ltac leaf_quiet :=
  repeat first [ apply Annotation_fields_quiet | apply Annotation_quiet
               | apply AnnotationGroup_fields_quiet | quiet_step ].

Lemma TextField_quiet (v : JValue) : raised (TextField_validate v) = false.
Proof. unfold TextField_validate, TextField_fields. leaf_quiet. Qed.

Lemma TextAreaField_quiet (v : JValue) :
  raised (TextAreaField_validate v) = false.
Proof. unfold TextAreaField_validate, TextAreaField_fields. leaf_quiet. Qed.

Lemma NumberField_quiet (v : JValue) : raised (NumberField_validate v) = false.
Proof. unfold NumberField_validate, NumberField_fields. leaf_quiet. Qed.

Lemma DateField_quiet (v : JValue) : raised (DateField_validate v) = false.
Proof. unfold DateField_validate, DateField_fields. leaf_quiet. Qed.

Lemma CheckboxField_quiet (v : JValue) :
  raised (CheckboxField_validate v) = false.
Proof. unfold CheckboxField_validate, CheckboxField_fields. leaf_quiet. Qed.

Lemma RadioField_quiet (v : JValue) : raised (RadioField_validate v) = false.
Proof. unfold RadioField_validate, RadioField_fields. leaf_quiet. Qed.

Lemma FileField_quiet (v : JValue) : raised (FileField_validate v) = false.
Proof. unfold FileField_validate, FileField_fields. leaf_quiet. Qed.

Lemma ImageField_quiet (v : JValue) : raised (ImageField_validate v) = false.
Proof.
  unfold ImageField_validate, ImageField_fields, FileField_fields. leaf_quiet.
Qed.

Lemma SignatureField_quiet (v : JValue) :
  raised (SignatureField_validate v) = false.
Proof. unfold SignatureField_validate, SignatureField_fields. leaf_quiet. Qed.

Lemma EmailField_quiet (v : JValue) : raised (EmailField_validate v) = false.
Proof. unfold EmailField_validate, EmailField_fields. leaf_quiet. Qed.

Lemma UrlField_quiet (v : JValue) : raised (UrlField_validate v) = false.
Proof. unfold UrlField_validate, UrlField_fields. leaf_quiet. Qed.

Lemma PhoneField_quiet (v : JValue) : raised (PhoneField_validate v) = false.
Proof. unfold PhoneField_validate, PhoneField_fields. leaf_quiet. Qed.

Lemma ListField_quiet (v : JValue) : raised (ListField_validate v) = false.
Proof. unfold ListField_validate, ListField_fields. leaf_quiet. Qed.

Lemma SectionGroup_quiet (v : JValue) : raised (SectionGroup_validate v) = false.
Proof. unfold SectionGroup_validate, SectionGroup_fields. leaf_quiet. Qed.

Lemma RepeatGroup_quiet (v : JValue) : raised (RepeatGroup_validate v) = false.
Proof. unfold RepeatGroup_validate, RepeatGroup_fields. leaf_quiet. Qed.

Lemma WizardStep_quiet (v : JValue) : raised (WizardStep_validate v) = false.
Proof. unfold WizardStep_validate, WizardStep_fields. leaf_quiet. Qed.

(** ** The validator of [SelectField] *)

Lemma SelectField_never_accepts (v : JValue) :
  isOk (SelectField_validate v) = false.
Proof.
  unfold SelectField_validate.
  destruct (model SelectField_declared SelectField_fields v); reflexivity.
Qed.

(** It raises exactly when the attributes are valid. *)
Lemma raised_SelectField (v : JValue) :
  raised (SelectField_validate v)
  = isOk (model SelectField_declared SelectField_fields v).
Proof.
  unfold SelectField_validate.
  pose proof (raised_model SelectField_declared SelectField_fields v
                SelectField_fields_quiet) as H.
  destruct (model SelectField_declared SelectField_fields v);
    [reflexivity | reflexivity | discriminate].
Qed.

(** ** Shapes *)

Lemma model_shape {A} (declared : list string) (F : Obj -> Result A) :
  requires F declared ->
  forall v, shape declared v = false -> isOk (model declared F v) = false.
Proof.
  intros HF [| | | | | |o]; try reflexivity. unfold shape. intros H.
  rewrite isOk_model. apply andb_false_iff in H as [H|H].
  - apply not_true_iff_false in H. rewrite forallb_forall in H.
    destruct (isOk (F o)) eqn:E; [|reflexivity]. exfalso. apply H.
    intros k Hk. unfold present. destruct (get k o) eqn:G; [reflexivity|].
    rewrite (HF o k Hk G) in E. discriminate.
  - rewrite H. apply andb_false_r.
Qed.

Ltac requires_tac :=
  intros o k Hin Hget; cbn in Hin;
  repeat (destruct Hin as [<-|Hin]; [|]); try contradiction;
  rewrite ?isOk_ap, ?isOk_field, ?Hget;
  repeat (rewrite ?andb_false_r; cbn [andb]); reflexivity.

Lemma Annotation_requires : requires Annotation_fields Annotation_declared.
Proof. unfold Annotation_fields. requires_tac. Qed.

Lemma TextField_requires : requires TextField_fields TextField_declared.
Proof. unfold TextField_fields, Annotation_fields. requires_tac. Qed.

Lemma TextAreaField_requires :
  requires TextAreaField_fields TextAreaField_declared.
Proof. unfold TextAreaField_fields, Annotation_fields. requires_tac. Qed.

Lemma NumberField_requires : requires NumberField_fields NumberField_declared.
Proof. unfold NumberField_fields, Annotation_fields. requires_tac. Qed.

Lemma DateField_requires : requires DateField_fields DateField_declared.
Proof. unfold DateField_fields, Annotation_fields. requires_tac. Qed.

Lemma CheckboxField_requires :
  requires CheckboxField_fields CheckboxField_declared.
Proof. unfold CheckboxField_fields, Annotation_fields. requires_tac. Qed.

Lemma RadioField_requires : requires RadioField_fields RadioField_declared.
Proof. unfold RadioField_fields, Annotation_fields. requires_tac. Qed.

Lemma SelectField_requires : requires SelectField_fields SelectField_declared.
Proof. unfold SelectField_fields, Annotation_fields. requires_tac. Qed.

Lemma FileField_requires : requires FileField_fields FileField_declared.
Proof. unfold FileField_fields, Annotation_fields. requires_tac. Qed.

Lemma ImageField_requires : requires ImageField_fields ImageField_declared.
Proof.
  unfold ImageField_fields, FileField_fields, Annotation_fields. requires_tac.
Qed.

Lemma SignatureField_requires :
  requires SignatureField_fields SignatureField_declared.
Proof. unfold SignatureField_fields, Annotation_fields. requires_tac. Qed.

Lemma EmailField_requires : requires EmailField_fields EmailField_declared.
Proof. unfold EmailField_fields, Annotation_fields. requires_tac. Qed.

Lemma UrlField_requires : requires UrlField_fields UrlField_declared.
Proof. unfold UrlField_fields, Annotation_fields. requires_tac. Qed.

Lemma PhoneField_requires : requires PhoneField_fields PhoneField_declared.
Proof. unfold PhoneField_fields, Annotation_fields. requires_tac. Qed.

Lemma ListField_requires : requires ListField_fields ListField_declared.
Proof. unfold ListField_fields, Annotation_fields. requires_tac. Qed.

Lemma SectionGroup_requires : requires SectionGroup_fields SectionGroup_declared.
Proof. unfold SectionGroup_fields, AnnotationGroup_fields. requires_tac. Qed.

Lemma RepeatGroup_requires : requires RepeatGroup_fields RepeatGroup_declared.
Proof. unfold RepeatGroup_fields, AnnotationGroup_fields. requires_tac. Qed.

Lemma WizardStep_requires : requires WizardStep_fields WizardStep_declared.
Proof. unfold WizardStep_fields, AnnotationGroup_fields. requires_tac. Qed.

Lemma TableGroup_requires : requires TableGroup_fields TableGroup_declared.
Proof.
  unfold TableGroup_fields, AnnotationGroup_fields. cbv zeta. requires_tac.
Qed.

Lemma TextField_shape (v : JValue) :
  shape TextField_declared v = false -> isOk (TextField_validate v) = false.
Proof. apply model_shape, TextField_requires. Qed.

Lemma TextAreaField_shape (v : JValue) :
  shape TextAreaField_declared v = false -> isOk (TextAreaField_validate v) = false.
Proof. apply model_shape, TextAreaField_requires. Qed.

Lemma NumberField_shape (v : JValue) :
  shape NumberField_declared v = false -> isOk (NumberField_validate v) = false.
Proof. apply model_shape, NumberField_requires. Qed.

Lemma DateField_shape (v : JValue) :
  shape DateField_declared v = false -> isOk (DateField_validate v) = false.
Proof. apply model_shape, DateField_requires. Qed.

Lemma CheckboxField_shape (v : JValue) :
  shape CheckboxField_declared v = false -> isOk (CheckboxField_validate v) = false.
Proof. apply model_shape, CheckboxField_requires. Qed.

Lemma RadioField_shape (v : JValue) :
  shape RadioField_declared v = false -> isOk (RadioField_validate v) = false.
Proof. apply model_shape, RadioField_requires. Qed.

Lemma FileField_shape (v : JValue) :
  shape FileField_declared v = false -> isOk (FileField_validate v) = false.
Proof. apply model_shape, FileField_requires. Qed.

Lemma ImageField_shape (v : JValue) :
  shape ImageField_declared v = false -> isOk (ImageField_validate v) = false.
Proof. apply model_shape, ImageField_requires. Qed.

Lemma SignatureField_shape (v : JValue) :
  shape SignatureField_declared v = false -> isOk (SignatureField_validate v) = false.
Proof. apply model_shape, SignatureField_requires. Qed.

Lemma EmailField_shape (v : JValue) :
  shape EmailField_declared v = false -> isOk (EmailField_validate v) = false.
Proof. apply model_shape, EmailField_requires. Qed.

Lemma UrlField_shape (v : JValue) :
  shape UrlField_declared v = false -> isOk (UrlField_validate v) = false.
Proof. apply model_shape, UrlField_requires. Qed.

Lemma PhoneField_shape (v : JValue) :
  shape PhoneField_declared v = false -> isOk (PhoneField_validate v) = false.
Proof. apply model_shape, PhoneField_requires. Qed.

Lemma ListField_shape (v : JValue) :
  shape ListField_declared v = false -> isOk (ListField_validate v) = false.
Proof. apply model_shape, ListField_requires. Qed.

Lemma SectionGroup_shape (v : JValue) :
  shape SectionGroup_declared v = false -> isOk (SectionGroup_validate v) = false.
Proof. apply model_shape, SectionGroup_requires. Qed.

Lemma RepeatGroup_shape (v : JValue) :
  shape RepeatGroup_declared v = false -> isOk (RepeatGroup_validate v) = false.
Proof. apply model_shape, RepeatGroup_requires. Qed.

Lemma WizardStep_shape (v : JValue) :
  shape WizardStep_declared v = false -> isOk (WizardStep_validate v) = false.
Proof. apply model_shape, WizardStep_requires. Qed.

Lemma TableGroup_shape (v : JValue) :
  shape TableGroup_declared v = false -> isOk (TableGroup_validate v) = false.
Proof. apply model_shape, TableGroup_requires. Qed.

Lemma SelectField_shape (v : JValue) :
  shape SelectField_declared v = false -> isOk (SelectField_validate v) = false.
Proof. intros _. apply SelectField_never_accepts. Qed.

Lemma SelectField_shape_quiet (v : JValue) :
  shape SelectField_declared v = false ->
  raised (SelectField_validate v) = false.
Proof.
  intros H. rewrite raised_SelectField.
  apply (model_shape _ _ SelectField_requires v H).
Qed.

(** *** Members of the same shape *)

Lemma isOk_Annotation_fields (a : Annotation) (rest : Obj) :
  isOk (Annotation_fields (Annotation_members a ++ rest)) = bbox_ok a.
Proof.
  destruct a as [t d b e]. unfold Annotation_fields.
  rewrite !isOk_ap, !isOk_field. cbn.
  rewrite isOk_bbox, isOk_enum_value. unfold bbox_ok. cbn.
  now rewrite !andb_true_r.
Qed.

Lemma isOk_AnnotationGroup_fields (g : AnnotationGroup) (rest : Obj) :
  isOk (AnnotationGroup_fields (AnnotationGroup_members g ++ rest)) = group_ok g.
Proof.
  destruct g as [t d l e]. unfold AnnotationGroup_fields.
  rewrite !isOk_ap, !isOk_field. cbn.
  rewrite isOk_group_annotations, isOk_group_enum_value. unfold group_ok. cbn.
  now rewrite !andb_true_r.
Qed.

(** A leaf model accepts a document that starts with the attributes
    of an annotation only if the bounding box of that annotation has
    two coordinates. *)
Ltac leaf_needs_bbox :=
  intros H; rewrite isOk_model in H;
  apply andb_true_iff in H as [H _];
  rewrite ?isOk_ap in H; cbn [isOk andb] in H;
  repeat match type of H with
         | (_ && _ = true) => apply andb_true_iff in H as [H _]
         end;
  now rewrite isOk_Annotation_fields in H.

Lemma TextField_needs_bbox (a : Annotation) (rest : Obj) :
  isOk (TextField_validate (JObj (Annotation_members a ++ rest))) = true ->
  bbox_ok a = true.
Proof. unfold TextField_validate, TextField_fields. leaf_needs_bbox. Qed.

Lemma DateField_needs_bbox (a : Annotation) (rest : Obj) :
  isOk (DateField_validate (JObj (Annotation_members a ++ rest))) = true ->
  bbox_ok a = true.
Proof. unfold DateField_validate, DateField_fields. leaf_needs_bbox. Qed.

Lemma CheckboxField_needs_bbox (a : Annotation) (rest : Obj) :
  isOk (CheckboxField_validate (JObj (Annotation_members a ++ rest))) = true ->
  bbox_ok a = true.
Proof. unfold CheckboxField_validate, CheckboxField_fields. leaf_needs_bbox. Qed.

Lemma SignatureField_needs_bbox (a : Annotation) (rest : Obj) :
  isOk (SignatureField_validate (JObj (Annotation_members a ++ rest))) = true ->
  bbox_ok a = true.
Proof. unfold SignatureField_validate, SignatureField_fields. leaf_needs_bbox. Qed.

Lemma EmailField_needs_bbox (a : Annotation) (rest : Obj) :
  isOk (EmailField_validate (JObj (Annotation_members a ++ rest))) = true ->
  bbox_ok a = true.
Proof. unfold EmailField_validate, EmailField_fields. leaf_needs_bbox. Qed.

Lemma UrlField_needs_bbox (a : Annotation) (rest : Obj) :
  isOk (UrlField_validate (JObj (Annotation_members a ++ rest))) = true ->
  bbox_ok a = true.
Proof. unfold UrlField_validate, UrlField_fields. leaf_needs_bbox. Qed.

Lemma PhoneField_needs_bbox (a : Annotation) (rest : Obj) :
  isOk (PhoneField_validate (JObj (Annotation_members a ++ rest))) = true ->
  bbox_ok a = true.
Proof. unfold PhoneField_validate, PhoneField_fields. leaf_needs_bbox. Qed.

Lemma FileField_needs_bbox (a : Annotation) (rest : Obj) :
  isOk (FileField_validate (JObj (Annotation_members a ++ rest))) = true ->
  bbox_ok a = true.
Proof. unfold FileField_validate, FileField_fields. leaf_needs_bbox. Qed.

Lemma ImageField_needs_bbox (a : Annotation) (rest : Obj) :
  isOk (ImageField_validate (JObj (Annotation_members a ++ rest))) = true ->
  bbox_ok a = true.
Proof.
  unfold ImageField_validate, ImageField_fields, FileField_fields.
  leaf_needs_bbox.
Qed.
Lemma TextAreaField_needs_bbox (a : Annotation) (rest : Obj) :
  isOk (TextAreaField_validate (JObj (Annotation_members a ++ rest))) = true ->
  bbox_ok a = true.
Proof. unfold TextAreaField_validate, TextAreaField_fields. leaf_needs_bbox. Qed.

Lemma NumberField_needs_bbox (a : Annotation) (rest : Obj) :
  isOk (NumberField_validate (JObj (Annotation_members a ++ rest))) = true ->
  bbox_ok a = true.
Proof. unfold NumberField_validate, NumberField_fields. leaf_needs_bbox. Qed.

Lemma RadioField_needs_bbox (a : Annotation) (rest : Obj) :
  isOk (RadioField_validate (JObj (Annotation_members a ++ rest))) = true ->
  bbox_ok a = true.
Proof. unfold RadioField_validate, RadioField_fields. leaf_needs_bbox. Qed.

Lemma ListField_needs_bbox (a : Annotation) (rest : Obj) :
  isOk (ListField_validate (JObj (Annotation_members a ++ rest))) = true ->
  bbox_ok a = true.
Proof. unfold ListField_validate, ListField_fields. leaf_needs_bbox. Qed.

(** *** Each model on its own instances *)

Lemma isOk_ListField (f : ListField) :
  isOk (ListField_validate (ListField_dump f)) = Cell_ok (Cell_ListField f).
Proof.
  destruct f as [a items]. unfold ListField_validate, ListField_dump.
  rewrite isOk_model. unfold ListField_fields.
  rewrite !isOk_ap, isOk_Annotation_fields, isOk_field.
  destruct a as [t d b e]. cbn. now rewrite isOk_items, andb_true_r.
Qed.

Ltac group_own :=
  rewrite isOk_model, !isOk_ap, isOk_AnnotationGroup_fields, !isOk_field;
  cbn; rewrite ?isOk_nullable_int; cbn; now rewrite ?andb_true_r.

Lemma isOk_SectionGroup (g : SectionGroup) :
  isOk (SectionGroup_validate (SectionGroup_dump g))
  = group_ok (SectionGroup_base g).
Proof.
  destruct g as [[t d l e] c1 c2].
  unfold SectionGroup_validate, SectionGroup_dump, SectionGroup_fields.
  group_own.
Qed.

Lemma isOk_RepeatGroup (g : RepeatGroup) :
  isOk (RepeatGroup_validate (RepeatGroup_dump g))
  = group_ok (RepeatGroup_base g).
Proof.
  destruct g as [[t d l e] mn mx].
  unfold RepeatGroup_validate, RepeatGroup_dump, RepeatGroup_fields.
  group_own.
Qed.

Lemma isOk_WizardStep (g : WizardStep) :
  isOk (WizardStep_validate (WizardStep_dump g))
  = group_ok (WizardStep_base g).
Proof.
  destruct g as [[t d l e] o p].
  unfold WizardStep_validate, WizardStep_dump, WizardStep_fields.
  group_own.
Qed.

(** ** Table cells *)

Ltac by_shape H :=
  first
    [ rewrite TextField_shape in H by reflexivity
    | rewrite TextAreaField_shape in H by reflexivity
    | rewrite NumberField_shape in H by reflexivity
    | rewrite DateField_shape in H by reflexivity
    | rewrite CheckboxField_shape in H by reflexivity
    | rewrite RadioField_shape in H by reflexivity
    | rewrite SelectField_shape in H by reflexivity
    | rewrite FileField_shape in H by reflexivity
    | rewrite ImageField_shape in H by reflexivity
    | rewrite SignatureField_shape in H by reflexivity
    | rewrite EmailField_shape in H by reflexivity
    | rewrite UrlField_shape in H by reflexivity
    | rewrite PhoneField_shape in H by reflexivity
    | rewrite ListField_shape in H by reflexivity
    | rewrite SectionGroup_shape in H by reflexivity
    | rewrite RepeatGroup_shape in H by reflexivity
    | rewrite WizardStep_shape in H by reflexivity
    | rewrite TableGroup_shape in H by reflexivity ];
  discriminate H.

Ltac by_bbox H :=
  first
    [ apply TextField_needs_bbox in H
    | apply TextAreaField_needs_bbox in H
    | apply NumberField_needs_bbox in H
    | apply DateField_needs_bbox in H
    | apply CheckboxField_needs_bbox in H
    | apply RadioField_needs_bbox in H
    | apply FileField_needs_bbox in H
    | apply ImageField_needs_bbox in H
    | apply SignatureField_needs_bbox in H
    | apply EmailField_needs_bbox in H
    | apply UrlField_needs_bbox in H
    | apply PhoneField_needs_bbox in H ];
  exact H.

Ltac by_own H :=
  first
    [ rewrite isOk_ListField in H
    | rewrite isOk_SectionGroup in H
    | rewrite isOk_RepeatGroup in H
    | rewrite isOk_WizardStep in H ];
  exact H.

Lemma Cell_accepted_passes (c : Cell) :
  isOk (Cell_validate (Cell_dump c)) = true -> Cell_passes c = true.
Proof.
  unfold Cell_validate. intros H. apply union_accepted in H.
  apply existsb_exists in H as [m [Hm H]]. unfold Cell_members in Hm.
  cbn [In] in Hm.
  repeat (destruct Hm as [<-|Hm]; [|]); try contradiction;
    cbn [member snd] in H; rewrite isOk_fmap in H;
    try (rewrite SelectField_never_accepts in H; discriminate H);
    destruct c as [f|f|f|f|f|f|f|f|[f]|f|f|f|f|f|g|g|g];
    unfold Cell_passes; cbn [Cell_ok is_select negb];
    rewrite ?andb_true_r; unfold Cell_dump in H;
    first [ by_shape H | by_own H | by_bbox H ].
Qed.

(** No member lets an exception escape on the serialisation of a cell
    that is not a [SelectField]. *)
Lemma Cell_members_quiet (c : Cell) (m : Member Cell) :
  is_select c = false -> In m Cell_members ->
  raised (snd m (Cell_dump c)) = false.
Proof.
  intros Hs Hm. unfold Cell_members in Hm. cbn [In] in Hm.
  repeat (destruct Hm as [<-|Hm]; [|]); try contradiction;
    cbn [member snd]; rewrite raised_fmap;
    first
      [ apply TextField_quiet | apply TextAreaField_quiet
      | apply NumberField_quiet | apply DateField_quiet
      | apply CheckboxField_quiet | apply RadioField_quiet
      | apply FileField_quiet | apply ImageField_quiet
      | apply SignatureField_quiet | apply EmailField_quiet
      | apply UrlField_quiet | apply PhoneField_quiet | apply ListField_quiet
      | apply SectionGroup_quiet | apply RepeatGroup_quiet
      | apply WizardStep_quiet
      | idtac ].
  apply SelectField_shape_quiet.
  destruct c as [f|f|f|f|f|f|f|f|[f]|f|f|f|f|f|g|g|g];
    first [ discriminate Hs | reflexivity ].
Qed.

Tactic Notation "own_member" integer(n) constr(lemma) :=
  eexists; split; [do n right; apply in_eq|]; cbn [member snd];
  first [ now rewrite lemma | now rewrite isOk_fmap, lemma ].

Lemma Cell_passes_accepted (c : Cell) :
  Cell_passes c = true -> isOk (Cell_validate (Cell_dump c)) = true.
Proof.
  unfold Cell_passes. intros H. apply andb_true_iff in H as [H Hs].
  apply negb_true_iff in Hs. unfold Cell_validate.
  apply union_accepts; [intros m Hm; now apply Cell_members_quiet|].
  apply existsb_exists.
  destruct c as [[[t d b e] v]|[[t d b e] v m]|[[t d b e] v mn mx]
                |[[t d b e] v]|[[t d b e] v]|[[t d b e] o v]|f
                |[[t d b e] a m v]|[[[t d b e] a m v]]|[[t d b e] v]
                |[[t d b e] v]|[[t d b e] v]|[[t d b e] v]|f|g|g|g];
    cbn [Cell_ok] in H; unfold Cell_dump.
  - own_member 0 TextField_validate_dump.
  - own_member 1 TextAreaField_validate_dump.
  - own_member 2 NumberField_validate_dump.
  - own_member 3 DateField_validate_dump.
  - own_member 4 CheckboxField_validate_dump.
  - own_member 5 RadioField_validate_dump.
  - discriminate Hs.
  - own_member 7 FileField_validate_dump.
  - own_member 8 ImageField_validate_dump.
  - own_member 9 SignatureField_validate_dump.
  - own_member 10 EmailField_validate_dump.
  - own_member 11 UrlField_validate_dump.
  - own_member 12 PhoneField_validate_dump.
  - own_member 13 isOk_ListField.
  - own_member 14 isOk_SectionGroup.
  - own_member 15 isOk_RepeatGroup.
  - own_member 16 isOk_WizardStep.
Qed.

Lemma isOk_Cell (c : Cell) : isOk (Cell_validate (Cell_dump c)) = Cell_passes c.
Proof.
  destruct (Cell_passes c) eqn:E.
  - now apply Cell_passes_accepted.
  - apply not_true_iff_false. intros H. apply Cell_accepted_passes in H.
    congruence.
Qed.

(** ** Tables *)

Lemma isOk_rows (rows : list (list Cell)) :
  isOk (list_of (list_of Cell_validate) (dump_list (dump_list Cell_dump) rows))
  = forallb (forallb Cell_passes) rows.
Proof.
  rewrite isOk_list_of_dump. induction rows as [|row rows IH]; cbn;
    [reflexivity|].
  rewrite IH. f_equal. rewrite isOk_list_of_dump.
  clear. induction row as [|c row IH]; cbn; [reflexivity|].
  now rewrite isOk_Cell, IH.
Qed.

Lemma rows_lengths {A} (V : JValue -> Result A) (d : A -> JValue)
  (rows : list (list A)) :
  forall i rows',
    list_items (list_of V) i (map (dump_list d) rows) = Ok rows' ->
    map (@List.length A) rows' = map (@List.length A) rows.
Proof.
  induction rows as [|row rows IH]; intros i rows'; cbn [map list_items].
  - intros [= <-]. reflexivity.
  - destruct (list_of V (dump_list d row)) as [row'| |] eqn:E; cbn;
      destruct (list_items (list_of V) (S i) (map (dump_list d) rows))
        as [rest| |] eqn:F; cbn; try discriminate.
    intros [= <-]. cbn. f_equal; [|eapply IH, F].
    unfold list_of, dump_list in E. apply list_items_length in E.
    now rewrite E, length_map.
Qed.

Lemma match_columns_loop_lengths {A B} (columns : list string)
  (rows : list (list A)) (rows' : list (list B)) :
  map (@List.length A) rows = map (@List.length B) rows' ->
  match_columns_loop columns rows = match_columns_loop columns rows'.
Proof.
  revert rows'. induction rows as [|row rows IH]; intros [|row' rows'];
    cbn; try discriminate; [reflexivity|].
  intros [= H1 H2]. rewrite H1. now rewrite (IH rows' H2).
Qed.

Lemma match_columns_loop_rows_ok {A} (columns : list string)
  (rows : list (list A)) :
  match_columns_loop columns rows
  = if rows_ok columns rows then None else Some row_error.
Proof.
  unfold rows_ok. induction rows as [|row rows IH]; cbn; [reflexivity|].
  destruct (Nat.eqb (List.length row) (List.length columns)); cbn;
    [exact IH | reflexivity].
Qed.

Lemma AnnotationGroup_fields_dump (g : AnnotationGroup) (rest : Obj) :
  group_ok g = true ->
  AnnotationGroup_fields (AnnotationGroup_members g ++ rest) = Ok g.
Proof.
  destruct g as [t d l e]. unfold group_ok. cbn [AnnotationGroup_annotations].
  intros H. apply andb_true_iff in H as [Hn Hl].
  unfold AnnotationGroup_fields, field. cbn.
  unfold annotations_validate. rewrite annotations_dump by assumption.
  cbn. unfold min_length. destruct l; [discriminate|]. cbn.
  now rewrite AnnotationGroupEnum_validate_value.
Qed.

(** What validation makes of a serialised table whose group part and
    cells are valid: the outcome is decided by the row lengths. *)
Lemma TableGroup_validate_rows (g : TableGroup) :
  group_ok (TableGroup_base g) = true ->
  forallb (forallb Cell_passes) (TableGroup_rows g) = true ->
  if rows_ok (TableGroup_columns g) (TableGroup_rows g)
  then isOk (TableGroup_validate (TableGroup_dump g)) = true
  else TableGroup_validate (TableGroup_dump g)
       = Invalid [mkError row_error [Key "rows"]].
Proof.
  destruct g as [base columns rows]. cbn [TableGroup_base TableGroup_rows
    TableGroup_columns]. intros Hg Hc.
  unfold TableGroup_validate, TableGroup_dump.
  rewrite model_no_extra by (destruct base; reflexivity).
  unfold TableGroup_fields. cbv zeta.
  rewrite AnnotationGroup_fields_dump by assumption.
  unfold field. destruct base as [t d l e]. cbn [get AnnotationGroup_members app
    String.eqb Ascii.eqb Bool.eqb].
  cbn. rewrite list_of_str_dump. cbn.
  pose proof (isOk_rows rows) as Hr. rewrite Hc in Hr.
  apply isOk_true in Hr as [rows' Hr]. rewrite Hr. cbn.
  unfold match_columns.
  assert (Hl : map (@List.length Cell) rows' = map (@List.length Cell) rows).
  { unfold list_of, dump_list in Hr. eapply rows_lengths, Hr. }
  rewrite (match_columns_loop_lengths columns rows' rows Hl).
  rewrite match_columns_loop_rows_ok.
  destruct (rows_ok columns rows); reflexivity.
Qed.

Lemma isOk_TableGroup (g : TableGroup) :
  isOk (TableGroup_validate (TableGroup_dump g)) = TableGroup_passes g.
Proof.
  unfold TableGroup_passes.
  destruct (group_ok (TableGroup_base g)) eqn:Hg; cbn [andb].
  - destruct (forallb (forallb Cell_passes) (TableGroup_rows g)) eqn:Hc; cbn [andb].
    + pose proof (TableGroup_validate_rows g Hg Hc) as H.
      destruct (rows_ok (TableGroup_columns g) (TableGroup_rows g));
        [exact H | now rewrite H].
    + destruct g as [[t d l e] columns rows]. cbn [TableGroup_rows] in Hc.
      unfold TableGroup_validate, TableGroup_dump. rewrite isOk_model.
      unfold TableGroup_fields. cbv zeta. rewrite !isOk_ap.
      rewrite (isOk_field "rows"). cbn [get AnnotationGroup_members app
        String.eqb Ascii.eqb Bool.eqb].
      cbn.
      destruct (list_of (list_of Cell_validate)
                  (dump_list (dump_list Cell_dump) rows)) eqn:E.
      * pose proof (isOk_rows rows) as Hr. rewrite E, Hc in Hr. discriminate.
      * cbn. now rewrite !andb_false_r.
      * cbn. now rewrite !andb_false_r.
  - destruct g as [base columns rows]. cbn [TableGroup_base] in Hg.
    unfold TableGroup_validate, TableGroup_dump.
    cbn [TableGroup_base TableGroup_columns TableGroup_rows].
    rewrite isOk_model.
    unfold TableGroup_fields. cbv zeta.
    rewrite !isOk_ap, isOk_AnnotationGroup_fields, Hg. cbn [isOk andb].
    reflexivity.
Qed.

(** ** Elements and forms *)

Lemma Cell_member_accepts (c : Cell) (m : Member Cell) :
  In m Cell_members -> isOk (snd m (Cell_dump c)) = true ->
  Cell_passes c = true.
Proof.
  intros Hm H. apply Cell_accepted_passes. unfold Cell_validate.
  destruct (is_select c) eqn:Hs.
  - exfalso. unfold Cell_members in Hm. cbn [In] in Hm.
    destruct c; try discriminate Hs.
    repeat (destruct Hm as [<-|Hm]; [|]); try contradiction;
      cbn [member snd] in H; rewrite isOk_fmap in H;
      try (rewrite SelectField_never_accepts in H; discriminate H);
      unfold Cell_dump in H; by_shape H.
  - apply union_accepts; [intros m' Hm'; now apply Cell_members_quiet|].
    apply existsb_exists. now exists m.
Qed.

Lemma Cell_member_rejects_table (g : TableGroup) (m : Member Cell) :
  In m Cell_members -> isOk (snd m (TableGroup_dump g)) = false.
Proof.
  intros Hm. apply not_true_iff_false. intros H.
  unfold Cell_members in Hm. cbn [In] in Hm.
  repeat (destruct Hm as [<-|Hm]; [|]); try contradiction;
    cbn [member snd] in H; rewrite isOk_fmap in H;
    try (rewrite SelectField_never_accepts in H; discriminate H);
    by_shape H.
Qed.

Lemma Cell_member_quiet_on_table (g : TableGroup) (m : Member Cell) :
  In m Cell_members -> raised (snd m (TableGroup_dump g)) = false.
Proof.
  intros Hm. unfold Cell_members in Hm. cbn [In] in Hm.
  repeat (destruct Hm as [<-|Hm]; [|]); try contradiction;
    cbn [member snd]; rewrite raised_fmap;
    first
      [ apply TextField_quiet | apply TextAreaField_quiet
      | apply NumberField_quiet | apply DateField_quiet
      | apply CheckboxField_quiet | apply RadioField_quiet
      | apply FileField_quiet | apply ImageField_quiet
      | apply SignatureField_quiet | apply EmailField_quiet
      | apply UrlField_quiet | apply PhoneField_quiet | apply ListField_quiet
      | apply SectionGroup_quiet | apply RepeatGroup_quiet
      | apply WizardStep_quiet
      | apply SelectField_shape_quiet; reflexivity ].
Qed.

Lemma TableGroup_rejects_cell (c : Cell) :
  isOk (TableGroup_validate (Cell_dump c)) = false.
Proof.
  destruct c as [f|f|f|f|f|f|f|f|[f]|f|f|f|f|f|g|g|g];
    apply TableGroup_shape; reflexivity.
Qed.

Lemma TableGroup_quiet_without_rows (o : Obj) :
  get "rows" o = None -> raised (TableGroup_validate (JObj o)) = false.
Proof.
  intros H. unfold TableGroup_validate, model. rewrite raised_finish.
  unfold TableGroup_fields. cbv zeta.
  apply raised_ap; [apply raised_ap; [apply raised_ap|]|].
  - reflexivity.
  - apply AnnotationGroup_fields_quiet.
  - apply raised_field. intros. apply raised_list_of. apply raised_str.
  - now apply raised_field_missing.
Qed.

Lemma TableGroup_quiet_on_cell (c : Cell) :
  raised (TableGroup_validate (Cell_dump c)) = false.
Proof.
  destruct c as [f|f|f|f|f|f|f|f|[f]|f|f|f|f|f|g|g|g];
    apply TableGroup_quiet_without_rows; reflexivity.
Qed.

(** The members of [Form.elements]: a member of a cell, or the
    table. *)
Lemma Element_member (m : Member Element) :
  In m Element_members ->
  (exists m0, In m0 Cell_members
              /\ forall v, snd m v = fmap Element_Cell (snd m0 v))
  \/ m = member "TableGroup" Element_TableGroup TableGroup_validate.
Proof.
  unfold Element_members. intros H. apply in_app_or in H as [H|[<-|[]]];
    [|now right].
  left. apply in_map_iff in H as [m0 [<- H]]. exists m0. split; [exact H|].
  reflexivity.
Qed.

Lemma Element_member_lift (m0 : Member Cell) :
  In m0 Cell_members ->
  In (fst m0, fun v => fmap Element_Cell (snd m0 v)) Element_members.
Proof.
  intros H. unfold Element_members. apply in_or_app. left.
  apply in_map_iff. now exists m0.
Qed.

Lemma Element_accepted_passes (e : Element) :
  isOk (Element_validate (Element_dump e)) = true -> Element_passes e = true.
Proof.
  unfold Element_validate. intros H. apply union_accepted in H.
  apply existsb_exists in H as [m [Hm H]].
  apply Element_member in Hm as [[m0 [Hm0 E]]| ->].
  - rewrite E, isOk_fmap in H. destruct e as [c|g]; unfold Element_dump in H.
    + now apply (Cell_member_accepts c m0).
    + now rewrite Cell_member_rejects_table in H.
  - cbn [member snd] in H. rewrite isOk_fmap in H.
    destruct e as [c|g]; unfold Element_dump in H.
    + now rewrite TableGroup_rejects_cell in H.
    + now rewrite isOk_TableGroup in H.
Qed.

Lemma Element_passes_accepted (e : Element) :
  Element_passes e = true -> isOk (Element_validate (Element_dump e)) = true.
Proof.
  intros H. unfold Element_validate. destruct e as [c|g];
    unfold Element_passes in H; unfold Element_dump.
  - apply union_accepts.
    + intros m Hm. apply Element_member in Hm as [[m0 [Hm0 E]]| ->].
      * rewrite E, raised_fmap. apply Cell_members_quiet; [|exact Hm0].
        unfold Cell_passes in H. apply andb_true_iff in H as [_ H].
        now apply negb_true_iff in H.
      * cbn [member snd]. rewrite raised_fmap. apply TableGroup_quiet_on_cell.
    + pose proof (Cell_passes_accepted c H) as A. unfold Cell_validate in A.
      apply union_accepted in A. apply existsb_exists in A as [m0 [Hm0 A]].
      apply existsb_exists.
      exists (fst m0, fun v => fmap Element_Cell (snd m0 v)).
      split; [now apply Element_member_lift|]. cbn [snd].
      now rewrite isOk_fmap.
  - rewrite <- isOk_TableGroup in H. apply union_accepts.
    + intros m Hm. apply Element_member in Hm as [[m0 [Hm0 E]]| ->].
      * rewrite E, raised_fmap. now apply Cell_member_quiet_on_table.
      * cbn [member snd]. rewrite raised_fmap.
        destruct (TableGroup_validate (TableGroup_dump g));
          [reflexivity | discriminate H | discriminate H].
    + apply existsb_exists.
      exists (member "TableGroup" Element_TableGroup TableGroup_validate).
      split.
      * unfold Element_members. apply in_or_app. right. apply in_eq.
      * cbn [member snd]. now rewrite isOk_fmap.
Qed.

Lemma isOk_Element (e : Element) :
  isOk (Element_validate (Element_dump e)) = Element_passes e.
Proof.
  destruct (Element_passes e) eqn:E.
  - now apply Element_passes_accepted.
  - apply not_true_iff_false. intros H. apply Element_accepted_passes in H.
    congruence.
Qed.

Lemma isOk_Form (f : Form) : isOk (Form_validate (Form_dump f)) = Form_passes f.
Proof.
  destruct f as [t d es]. unfold Form_validate, Form_dump, Form_passes.
  cbn [Form_title Form_description Form_elements].
  rewrite isOk_model. unfold Form_fields. rewrite !isOk_ap, !isOk_field.
  cbn. rewrite isOk_list_of_dump, andb_true_r.
  induction es as [|e es IH]; cbn; [reflexivity|].
  now rewrite isOk_Element, IH.
Qed.

(** *** Bounding boxes of a valid form *)

Lemma group_ok_bboxes (g : AnnotationGroup) :
  group_ok g = true ->
  forall b, In b (group_bboxes g) -> List.length b = 2.
Proof.
  unfold group_ok, group_bboxes. intros H b Hb.
  apply andb_true_iff in H as [_ H]. rewrite forallb_forall in H.
  apply in_map_iff in Hb as [a [<- Ha]]. apply H in Ha.
  now apply Nat.eqb_eq in Ha.
Qed.

Lemma Cell_ok_bboxes (c : Cell) :
  Cell_ok c = true -> forall b, In b (Cell_bboxes c) -> List.length b = 2.
Proof.
  destruct c as [f|f|f|f|f|f|f|f|f|f|f|f|f|f|g|g|g];
    cbn [Cell_ok Cell_bboxes]; intros H b Hb;
    try (now apply (group_ok_bboxes _ H));
    try (destruct Hb as [<-|[]]; unfold bbox_ok in H;
         try (apply andb_true_iff in H as [H _]);
         now apply Nat.eqb_eq in H).
  apply andb_true_iff in H as [H1 H2]. destruct Hb as [<-|Hb].
  - now apply Nat.eqb_eq in H1.
  - destruct (ListField_items f) as [items|]; [|contradiction].
    rewrite forallb_forall in H2. apply in_map_iff in Hb as [a [<- Ha]].
    apply H2 in Ha. now apply Nat.eqb_eq in Ha.
Qed.

Lemma Cell_passes_ok (c : Cell) : Cell_passes c = true -> Cell_ok c = true.
Proof. unfold Cell_passes. intros H. now apply andb_true_iff in H as [H _]. Qed.

Lemma Element_passes_bboxes (e : Element) :
  Element_passes e = true ->
  forall b, In b (Element_bboxes e) -> List.length b = 2.
Proof.
  destruct e as [c|g]; cbn [Element_passes Element_bboxes].
  - intros H. apply Cell_passes_ok in H. now apply Cell_ok_bboxes.
  - unfold TableGroup_passes. intros H b Hb.
    apply andb_true_iff in H as [H _]. apply andb_true_iff in H as [Hg Hr].
    apply in_app_or in Hb as [Hb|Hb]; [now apply (group_ok_bboxes _ Hg)|].
    apply in_flat_map in Hb as [row [Hrow Hb]].
    apply in_flat_map in Hb as [c [Hc Hb]].
    rewrite forallb_forall in Hr. apply Hr in Hrow.
    rewrite forallb_forall in Hrow. apply Hrow in Hc.
    apply Cell_passes_ok in Hc. now apply (Cell_ok_bboxes c).
Qed.

Lemma Form_passes_bboxes (f : Form) :
  Form_passes f = true -> forall b, In b (Form_bboxes f) -> List.length b = 2.
Proof.
  unfold Form_passes, Form_bboxes. intros H b Hb.
  apply in_flat_map in Hb as [e [He Hb]].
  rewrite forallb_forall in H. now apply (Element_passes_bboxes e (H e He)).
Qed.

(** Apart from [SelectField], validation accepts the serialisation of
    a form exactly when the form is valid, and so rejects every form
    with a bounding box of another length than two. *)
Lemma Form_validation_passes (f : Form) :
  (Form_passes f = true -> isOk (Form_validate (Form_dump f)) = true)
  /\ (forall b, In b (Form_bboxes f) -> List.length b <> 2 ->
      isOk (Form_validate (Form_dump f)) = false).
Proof.
  rewrite isOk_Form. split; [trivial|].
  intros b Hb Hl. apply not_true_iff_false. intros H.
  apply Hl, (Form_passes_bboxes f H b Hb).
Qed.

(** ** Replacing the discriminator *)





Lemma ap_Ok {A B} (f : Result (A -> B)) (r : Result A) (b : B) :
  f <*> r = Ok b -> exists g a, f = Ok g /\ r = Ok a /\ b = g a.
Proof.
  destruct f as [g| |], r as [a| |]; cbn; try discriminate.
  intros [= <-]. now exists g, a.
Qed.

Lemma fmap_Ok {A B} (f : A -> B) (r : Result A) (b : B) :
  fmap f r = Ok b -> exists a, r = Ok a /\ b = f a.
Proof. destruct r as [a| |]; cbn; try discriminate. intros [= <-]. now exists a. Qed.

Lemma model_Ok {A} (declared : list string) (F : Obj -> Result A) (o : Obj)
  (a : A) :
  model declared F (JObj o) = Ok a -> F o = Ok a /\ forbid_extra declared o = [].
Proof.
  cbn. destruct (F o), (forbid_extra declared o); cbn; try discriminate.
  now intros [= <-].
Qed.

Ltac invert_ap H :=
  lazymatch type of H with
  | (_ <*> _) = Ok _ =>
      let g := fresh "g" in
      let a := fresh "a" in
      let Hf := fresh "Hf" in
      let Hr := fresh "Hr" in
      apply ap_Ok in H as (g & a & Hf & Hr & ->);
      invert_ap Hf; try invert_ap Hr
  | Ok _ = Ok _ => injection H as <-
  end.


End FastformFacts.

(** * Properties of the schema *)

Module SchemaProperties.
Import Fastform Schema ResultFacts FastformFacts.

(** C2: the code departs from the claim.  [check_select] is written
    for a mapping of the attributes, but as a validator of mode
    "after" it receives the instance: on every serialised
    [SelectField] whose attributes are valid, whatever [multi] and
    [value] are, validation ends with the [AttributeError] of
    [values.get] instead of accepting the instance or reporting the
    cardinality as a validation error. *)
Theorem check_select_escapes (f : SelectField) :
  bbox_ok (SelectField_base f) = true ->
  SelectField_validate (SelectField_dump f) = Raised AttributeError.
Proof.
  destruct f as [[t d b e] o m v]. intros H. unfold SelectField_validate.
  rewrite SelectField_fields_dump by exact H. reflexivity.
Qed.

Lemma check_select_escapes_witness :
  SelectField_validate (SelectField_dump (Samples.select false SelNone))
  = Raised AttributeError
  /\ SelectField_validate
       (SelectField_dump (Samples.select true (SelList Samples.options)))
     = Raised AttributeError.
Proof.
  split.
  - apply (check_select_escapes (Samples.select false SelNone)). reflexivity.
  - apply (check_select_escapes
             (Samples.select true (SelList Samples.options))). reflexivity.
Defined.

(** C5: every model of the schema tree rejects a document that carries
    an attribute the model does not declare. *)
Theorem undeclared_attribute_rejected (m : ModelName) (o : Obj) (k : string) :
  In k (keys o) -> mem k (declared m) = false -> accepts m (JObj o) = false.
Proof.
  intros Hk Hd. pose proof (no_extra_undeclared _ _ _ Hk Hd) as H.
  destruct m; unfold accepts, declared in *;
    unfold Coordinate_validate, SelectOption_validate, Annotation_validate,
      TextField_validate, TextAreaField_validate, NumberField_validate,
      DateField_validate, CheckboxField_validate, RadioField_validate,
      FileField_validate, ImageField_validate,
      SignatureField_validate, EmailField_validate, UrlField_validate,
      PhoneField_validate, ListField_validate, AnnotationGroup_validate,
      SectionGroup_validate, RepeatGroup_validate, WizardStep_validate,
      TableGroup_validate, Form_validate;
    try apply SelectField_never_accepts;
    rewrite isOk_model, H, andb_false_r; reflexivity.
Qed.

Lemma undeclared_attribute_rejected_witness :
  accepts M_Coordinate (JObj [("x", JNull); ("y", JNull); ("z", JInt 1)]) = false
  /\ accepts M_Coordinate (JObj [("x", JNull); ("y", JNull)]) = true.
Proof.
  split.
  - apply (undeclared_attribute_rejected M_Coordinate _ "z").
    + cbn. tauto.
    + reflexivity.
  - reflexivity.
Defined.

(** C6: the code departs from the claim.  The form whose only
    element is a single-choice [SelectField] without a choice is
    valid, and its validation does not succeed: it ends with the
    [AttributeError] that [check_select] lets escape. *)
Theorem valid_form_not_validated :
  Form_ok Samples.select_form = true
  /\ Form_validate (Form_dump Samples.select_form) = Raised AttributeError.
Proof. split; vm_compute; reflexivity. Qed.

(** C4, as amended: validation of a table succeeds only if every row
    is as long as the list of columns; when the group part and the
    cells are valid and some row has another length, validation fails
    with the one error that [match_columns] raises, located at the
    attribute [rows] and the same whichever row is at fault. *)
Theorem TableGroup_row_lengths (g : TableGroup) :
  (isOk (TableGroup_validate (TableGroup_dump g)) = true ->
   forall row, In row (TableGroup_rows g) ->
               List.length row = List.length (TableGroup_columns g))
  /\ (group_ok (TableGroup_base g) = true ->
      forallb (forallb Cell_passes) (TableGroup_rows g) = true ->
      ((forall row, In row (TableGroup_rows g) ->
                    List.length row = List.length (TableGroup_columns g)) ->
       isOk (TableGroup_validate (TableGroup_dump g)) = true)
      /\ ((exists row, In row (TableGroup_rows g)
                       /\ List.length row <> List.length (TableGroup_columns g)) ->
          TableGroup_validate (TableGroup_dump g)
          = Invalid [mkError row_error [Key "rows"]])).
Proof.
  split.
  - rewrite isOk_TableGroup. unfold TableGroup_passes, rows_ok.
    intros H row Hrow.
    apply andb_true_iff in H as [_ H]. rewrite forallb_forall in H.
    apply H in Hrow. now apply Nat.eqb_eq in Hrow.
  - intros Hg Hc. pose proof (TableGroup_validate_rows g Hg Hc) as H.
    destruct (rows_ok (TableGroup_columns g) (TableGroup_rows g)) eqn:E.
    + split; [trivial|]. intros [row [Hrow Hl]]. exfalso. apply Hl.
      unfold rows_ok in E. rewrite forallb_forall in E. apply E in Hrow.
      now apply Nat.eqb_eq in Hrow.
    + split; [|trivial]. intros Hall. exfalso.
      apply not_true_iff_false in E. apply E. unfold rows_ok.
      apply forallb_forall. intros row Hrow. apply Nat.eqb_eq. now apply Hall.
Qed.

Lemma TableGroup_row_lengths_witness :
  isOk (TableGroup_validate (TableGroup_dump (Samples.table [[Samples.cell]])))
  = true
  /\ TableGroup_validate
       (TableGroup_dump (Samples.table [[Samples.cell]; []]))
     = Invalid [mkError row_error [Key "rows"]].
Proof.
  split.
  - apply (TableGroup_row_lengths (Samples.table [[Samples.cell]]));
      try reflexivity.
    intros row [<-|[]]. reflexivity.
  - apply (TableGroup_row_lengths (Samples.table [[Samples.cell]; []]));
      try reflexivity.
    exists []. split; [cbn; tauto | cbn; discriminate].
Defined.

(** C4, as stated, fails in its last part: no function of the errors
    of a failed validation names a row of another length than the
    columns.  The table whose first row is too short and the table
    whose second row is too short fail with the same errors. *)
Lemma row_not_identified :
  ~ exists locate : list ErrorDetails -> nat,
      forall (g : TableGroup) (errs : list ErrorDetails),
        TableGroup_validate (TableGroup_dump g) = Invalid errs ->
        exists row,
          nth_error (TableGroup_rows g) (locate errs) = Some row
          /\ List.length row <> List.length (TableGroup_columns g).
Proof.
  intros [locate H].
  assert (E0 : TableGroup_validate
                 (TableGroup_dump (Samples.table [[]; [Samples.cell]]))
               = Invalid [mkError row_error [Key "rows"]])
    by (vm_compute; reflexivity).
  assert (E1 : TableGroup_validate
                 (TableGroup_dump (Samples.table [[Samples.cell]; []]))
               = Invalid [mkError row_error [Key "rows"]])
    by (vm_compute; reflexivity).
  destruct (H _ _ E0) as [r0 [H0 L0]]. destruct (H _ _ E1) as [r1 [H1 L1]].
  cbn [Samples.table TableGroup_rows TableGroup_columns] in H0, H1, L0, L1.
  destruct (locate [mkError row_error [Key "rows"]]) as [|[|n]];
    cbn in H0, H1.
  - injection H1 as <-. apply L1. reflexivity.
  - injection H0 as <-. apply L0. reflexivity.
  - destruct n; discriminate.
Qed.

(** C7, as amended: the schema requires both components of a
    coordinate to be present and admits null as well as an integer for
    each; nothing in validation tells a coordinate set by the
    assistant from one set by the frontend. *)
Theorem Coordinate_components :
  (forall c : Coordinate, Coordinate_validate (Coordinate_dump c) = Ok c)
  /\ (forall o : Obj, get "x" o = None \/ get "y" o = None ->
                     isOk (Coordinate_validate (JObj o)) = false).
Proof.
  split; [apply Coordinate_validate_dump|].
  intros o H. unfold Coordinate_validate. rewrite isOk_model.
  unfold Coordinate_fields. rewrite !isOk_ap, !isOk_field.
  destruct H as [-> | ->]; cbn; now rewrite ?andb_false_r.
Qed.

Lemma Coordinate_components_witness :
  Coordinate_validate (Coordinate_dump (mkCoordinate (Some 5%Z) (Some 7%Z)))
  = Ok (mkCoordinate (Some 5%Z) (Some 7%Z))
  /\ isOk (Coordinate_validate (JObj [("x", JNull)])) = false.
Proof.
  split.
  - apply (proj1 Coordinate_components).
  - apply (proj2 Coordinate_components). right. reflexivity.
Defined.



End SchemaProperties.

(** * Facts about the orchestration *)

Module AiFacts.
Import Guidance Ai Turn ResultFacts.

Lemma last_but_one_snoc {A} (l : list A) (a b : A) :
  last_but_one ((l ++ [a]) ++ [b]) = Return a.
Proof. unfold last_but_one. now rewrite !rev_unit. Qed.

Lemma YesNo_selection_read (v : JValue) :
  isOk (YesNo_validate v) = true ->
  exists r, subscript v "selection" = Return (JStr (Response_value r)).
Proof.
  destruct v as [| | | | | |o]; try discriminate.
  unfold YesNo_validate. rewrite isOk_model. intros H.
  apply andb_true_iff in H as [H _]. unfold YesNo_fields in H.
  rewrite isOk_ap, isOk_field in H. cbn [isOk andb] in H.
  unfold subscript. destruct (get "selection" o) as [x|]; [|discriminate].
  unfold Fastform.enum in H. destruct x as [| | | |s| |]; try discriminate.
  destruct (Fastform.by_value Response_value [yes; no] s) as [r|] eqn:E;
    [|discriminate].
  exists r. unfold Fastform.by_value in E. apply find_some in E as [_ E].
  apply String.eqb_eq in E. now rewrite E.
Qed.

(** The two chat functions are one script run on two sets of
    prompts. *)
Ltac run_script :=
  unfold fastformbuild_chat, fastformfill_chat, assistant_json, assistant_gen,
    assistant_text, open_block, apply_text, capture, closed, start,
    get_active_message, commentary_context, conversing_context,
    generator_context, classifier_context, assistant_message in *;
  cbn [Guidance.messages active captures role content app bind loads_capture
       String.eqb Ascii.eqb Bool.eqb value text] in *.

Ltac flatten :=
  repeat (rewrite <- app_assoc in * ); cbn [app] in *.

Lemma last_but_one_end {A} (l : list A) (a b : A) (rest : list A) :
  last_but_one (l ++ rest ++ [a; b]) = Return a.
Proof.
  replace (l ++ rest ++ [a; b]) with (((l ++ rest) ++ [a]) ++ [b])
    by (rewrite <- !app_assoc; reflexivity).
  apply last_but_one_snoc.
Qed.

Ltac end_of_yes_branch :=
  match goal with
  | |- context [last_but_one (?m ++ ?a :: ?b :: ?c :: ?d :: ?e :: nil)] =>
      change (m ++ a :: b :: c :: d :: e :: nil)
        with (m ++ [a; b; c] ++ [d; e]);
      rewrite last_but_one_end
  end.



Ltac case_json H g E :=
  match type of H with
  | context [json ?lm ?schema ?ctx] =>
      destruct (json lm schema ctx) as [g|] eqn:E; [|discriminate H]
  end.

Ltac case_gen H t E :=
  match type of H with
  | context [gen ?lm ?ctx] =>
      destruct (gen lm ctx) as [t|] eqn:E; [|discriminate H]
  end.

Ltac shapes_tac :=
  let Hlm := fresh "Hlm" in
  let H := fresh "H" in
  let g0 := fresh "g0" in
  let g1 := fresh "g1" in
  let t := fresh "t" in
  let r := fresh "r" in
  let H0 := fresh "H0" in
  let Hr := fresh "Hr" in
  let H1 := fresh "H1" in
  let Ht := fresh "Ht" in
  intros Hlm H; run_script; flatten;
  case_json H g0 H0;
  destruct (YesNo_selection_read (value g0) (Hlm _ _ H0)) as [r Hr];
  cbn in H; rewrite Hr in H; destruct r; cbn in H; flatten;
  [ case_json H g1 H1; cbn in H; flatten;
    case_gen H t Ht; cbn in H; flatten;
    revert H; end_of_yes_branch; cbn; intros H; injection H as <-;
    left; exists g0, g1, t; unfold decides; run_script; flatten;
    repeat split; assumption
  | case_gen H t Ht; cbn in H; injection H as <-;
    right; exists g0, t; unfold decides; run_script; flatten;
    repeat split; assumption ].





Lemma build_shapes lm messages out :
  classifier_follows_schema lm ->
  fastformbuild_chat lm messages = Return out ->
  two_messages BUILD_ANALYZE BUILD_GENERATE BUILD_COMMENT lm messages out
  \/ one_message BUILD_ANALYZE BUILD_CONTINUE lm messages out.
Proof. unfold two_messages, one_message. shapes_tac. Qed.

Lemma fill_shapes lm messages out :
  classifier_follows_schema lm ->
  fastformfill_chat lm messages = Return out ->
  two_messages FILL_ANALYZE FILL_GENERATE FILL_COMMENT lm messages out
  \/ one_message FILL_ANALYZE FILL_CONTINUE lm messages out.
Proof. unfold two_messages, one_message. shapes_tac. Qed.

(** A selection outside the enumeration falls through both branches:
    the turn returns no message. *)
Lemma build_other_selection lm messages g0 s :
  json lm YesNo_schema (classifier_context BUILD_ANALYZE messages) = Return g0 ->
  subscript (value g0) "selection" = Return (JStr s) ->
  s <> "yes" -> s <> "no" ->
  fastformbuild_chat lm messages = Return [].
Proof.
  intros H0 Hs Hy Hn. run_script. flatten. rewrite H0. cbn. rewrite Hs. cbn.
  apply String.eqb_neq in Hy, Hn. now rewrite Hy, Hn.
Qed.

End AiFacts.

(** * Properties of the orchestration *)

Module TurnProperties.
Import Guidance Ai Turn AiFacts.


End TurnProperties.


(** * Facts about the services *)

Module ServicesFacts.
Import Guidance Services Prefix ResultFacts.

Lemma Content_validate_dump (c : Content) :
  Content_validate (Content_dump c) = Ok c.
Proof. destruct c; reflexivity. Qed.

Lemma ContentMessage_validate_dump (m : ContentMessage) :
  ContentMessage_validate (ContentMessage_dump m) = Ok m.
Proof.
  destruct m as [r c]. unfold ContentMessage_validate, ContentMessage_dump.
  cbn [role content]. rewrite model_no_extra by reflexivity.
  unfold ContentMessage_fields, field. cbn [get String.eqb Ascii.eqb Bool.eqb].
  rewrite list_of_dump by (intros; apply Content_validate_dump).
  destruct r; reflexivity.
Qed.

Lemma build_chat_split b64decode decode lm message_data form_pages s :
  FastformBuildMessageService_chat b64decode decode lm message_data form_pages s
  = bind_db (build_receive b64decode decode message_data form_pages)
      (fun messages => respond (Ai.fastformbuild_chat lm messages) message_data)
      s.
Proof.
  unfold FastformBuildMessageService_chat, build_receive, receive, respond,
    history, bind_db, lift, ret.
  repeat match goal with
         | |- context [match ?c with _ => _ end] => destruct c eqn:?
         end; try reflexivity; try congruence.
Qed.

Lemma fill_chat_split lm message_data s :
  FastfillMessageService_chat lm message_data s
  = bind_db (fill_receive message_data)
      (fun messages => respond (Ai.fastformfill_chat lm messages) message_data)
      s.
Proof.
  unfold FastfillMessageService_chat, fill_receive, receive, respond,
    history, bind_db, lift, ret.
  repeat match goal with
         | |- context [match ?c with _ => _ end] => destruct c eqn:?
         end; try reflexivity; try congruence.
Qed.

Lemma respond_raise e message_data s :
  respond (Raise e) message_data s = (Raise e, s).
Proof. reflexivity. Qed.

Lemma user_message_role (items : list JValue) (m : ContentMessage) :
  ContentMessage_validate (user_message_json items) = Ok m -> role m = user.
Proof.
  unfold ContentMessage_validate, user_message_json.
  rewrite model_no_extra by reflexivity.
  unfold ContentMessage_fields, field. cbn [get String.eqb Ascii.eqb Bool.eqb].
  change (Role_validate (JStr "user")) with (@Ok Role user).
  cbn [at_loc ap].
  destruct (list_of Content_validate (JList items)); cbn; try discriminate.
  intros [= <-]. reflexivity.
Qed.

Lemma row_role_dump (m : ContentMessage) (thread_id user_id : string) (t : nat) :
  row_role (mkMessage (ContentMessage_dump m) thread_id user_id t)
  = Some (role m).
Proof.
  unfold row_role. cbn [Message_content].
  now rewrite ContentMessage_validate_dump.
Qed.

(** The effect of the seeding on the message table. *)
Lemma history_table seed message_data s thread s1 :
  added s = [] ->
  history seed message_data s = (Return thread, s1) ->
  added s1 = []
  /\ exists rows,
       message_table s1 = message_table s ++ rows
       /\ List.length rows <= 1
       /\ (forall m, In m rows -> row_role m = Some system).
Proof.
  intros Ha. unfold history, try_except_HTTPException, _get_thread_history.
  destruct (filter _ (message_table s)) as [|m0 rest] eqn:F.
  - cbn. rewrite Ha. intros [= <- <-]. cbn. split; [reflexivity|].
    eexists [_]. split; [reflexivity|]. split; [cbn; lia|].
    intros m [<-|[]].
    change (system_message_json seed)
      with (ContentMessage_dump (mkContentMessage system [TextContent seed])).
    apply row_role_dump.
  - intros [= <- <-]. split; [exact Ha|]. exists []. rewrite app_nil_r.
    split; [reflexivity|]. split; [cbn; lia|]. intros m [].
Qed.

Lemma receive_table thread message_data items s messages s1 :
  added s = [] ->
  receive thread message_data items s = (Return messages, s1) ->
  exists row,
    message_table s1 = message_table s ++ [row]
    /\ row_role row = Some user
    /\ Message_thread_id row = thread_id message_data.
Proof.
  intros Ha. unfold receive, bind_db, lift, ret.
  destruct (validate_thread (sort_by_timestamp thread)); [|discriminate].
  destruct items as [content_items|]; [|discriminate].
  destruct (ContentMessage_validate (user_message_json content_items))
    as [m| |] eqn:E; cbn; try discriminate.
  rewrite Ha. intros [= <- <-]. cbn. eexists. split; [reflexivity|].
  split; [|reflexivity]. rewrite row_role_dump.
  now rewrite (user_message_role _ _ E).
Qed.

Lemma build_receive_received b64decode decode message_data form_pages s
  messages s1 :
  added s = [] ->
  build_receive b64decode decode message_data form_pages s
  = (Return messages, s1) ->
  received message_data s s1.
Proof.
  intros Ha. unfold build_receive, bind_db.
  destruct (history Ai.SYSTEM_PROMPT message_data s) as [[thread|e] s0] eqn:H;
    [|discriminate].
  apply (history_table _ _ _ _ _ Ha) in H as (Ha0 & seed & Hs & Hl & Hr).
  intros R. apply (receive_table _ _ _ _ _ _ Ha0) in R as (row & Ht & Hu & Hi).
  exists seed, row. rewrite Ht, Hs, <- app_assoc. auto.
Qed.

Lemma annotation_lookup_session message_data s r s' :
  match load_annotation_id message_data with
  | Some id =>
      if Z.eqb id 0 then ret None
      else bind_db (get_annotation_by_id id) (fun a => ret (Some a))
  | None => ret None
  end s = (r, s') ->
  s' = s.
Proof.
  destruct (load_annotation_id message_data) as [id|]; [|now intros [= _ <-]].
  destruct (Z.eqb id 0); [now intros [= _ <-]|].
  unfold bind_db, get_annotation_by_id, ret.
  destruct (find _ (annotation_table s)); now intros [= _ <-].
Qed.

Lemma fill_receive_received message_data s messages s1 :
  added s = [] ->
  fill_receive message_data s = (Return messages, s1) ->
  received message_data s s1.
Proof.
  intros Ha. unfold fill_receive. unfold bind_db at 1.
  match goal with
  | |- context [match ?c s with _ => _ end] =>
      destruct (c s) as [[annotation|e] s'] eqn:A; [|discriminate]
  end.
  apply annotation_lookup_session in A. subst s'. unfold bind_db.
  match goal with
  | |- context [history ?seed message_data s] =>
      destruct (history seed message_data s) as [[thread|e] s0] eqn:H;
      [|discriminate];
      apply (history_table _ _ _ _ _ Ha) in H as (Ha0 & rows & Hr & Hl & Hsys)
  end.
  intros R. apply (receive_table _ _ _ _ _ _ Ha0) in R as (row & Ht & Hu & Hi).
  exists rows, row. rewrite Ht, Hr, <- app_assoc. auto.
Qed.

(** *** Attachments *)



Lemma user_message_validated (text : string) (urls : list string) :
  ContentMessage_validate
    (user_message_json (text_item text :: map image_item urls))
  = Ok (mkContentMessage user (TextContent text :: map ImageUrlContent urls)).
Proof.
  replace (user_message_json (text_item text :: map image_item urls))
    with (ContentMessage_dump
            (mkContentMessage user
               (TextContent text :: map ImageUrlContent urls))).
  - apply ContentMessage_validate_dump.
  - unfold user_message_json, ContentMessage_dump, dump_list.
    cbn [Guidance.role Guidance.content map Role_value]. rewrite map_map.
    reflexivity.
Qed.




End ServicesFacts.

(** * Properties of the services *)

Module ServiceProperties.
Import Guidance Services Prefix ResultFacts ServicesFacts.

(** C8, as amended: when the orchestration of a Build or Fill turn
    raises, the service raises the same exception and nothing that the
    model generated is persisted; the message table keeps what was
    committed before the model was called, which is the user message
    of the turn and, on a new thread, the system message that seeds
    it. *)
Theorem failed_turn_store :
  (forall b64decode decode lm message_data form_pages s messages s1 e,
     added s = [] ->
     build_receive b64decode decode message_data form_pages s
     = (Return messages, s1) ->
     Ai.fastformbuild_chat lm messages = Raise e ->
     FastformBuildMessageService_chat b64decode decode lm message_data
       form_pages s = (Raise e, s1)
     /\ received message_data s s1)
  /\ (forall lm message_data s messages s1 e,
        added s = [] ->
        fill_receive message_data s = (Return messages, s1) ->
        Ai.fastformfill_chat lm messages = Raise e ->
        FastfillMessageService_chat lm message_data s = (Raise e, s1)
        /\ received message_data s s1).
Proof.
  split.
  - intros b64decode decode lm message_data form_pages s messages s1 e Ha R F.
    split; [|now apply (build_receive_received _ _ _ _ _ _ _ Ha R)].
    rewrite build_chat_split. unfold bind_db. rewrite R, F. reflexivity.
  - intros lm message_data s messages s1 e Ha R F.
    split; [|now apply (fill_receive_received _ _ _ _ Ha R)].
    rewrite fill_chat_split. unfold bind_db. rewrite R, F. reflexivity.
Qed.

Lemma failed_turn_store_witness :
  exists s1,
    FastformBuildMessageService_chat Samples.sample_b64decode
      Samples.sample_decode Samples.failing Samples.request None
      Samples.empty_session
    = (Raise (ModelError "generation failed"), s1)
    /\ received Samples.request Samples.empty_session s1.
Proof.
  eexists.
  eapply (proj1 failed_turn_store Samples.sample_b64decode Samples.sample_decode
            Samples.failing Samples.request None Samples.empty_session).
  - reflexivity.
  - vm_compute. reflexivity.
  - vm_compute. reflexivity.
Defined.

(** C8, as stated, fails: after a turn whose structured generation
    raises, the message table holds two rows that it did not hold
    before, the system message of the new thread and the user message
    of the turn. *)
Lemma failed_turn_changes_store :
  exists s1,
    FastformBuildMessageService_chat Samples.sample_b64decode
      Samples.sample_decode Samples.failing Samples.request None
      Samples.empty_session
    = (Raise (ModelError "generation failed"), s1)
    /\ message_table Samples.empty_session = []
    /\ map row_role (message_table s1) = [Some system; Some user]
    /\ message_table s1 <> message_table Samples.empty_session.
Proof.
  eexists. split; [vm_compute; reflexivity|].
  split; [reflexivity|]. split; [vm_compute; reflexivity|]. discriminate.
Qed.



End ServiceProperties.


(** * Properties of the two flows *)

Module FlowProperties.
Import Guidance Services Prefix Turn ResultFacts AiFacts ServicesFacts.

Lemma scripted_follows_schema decision form comment :
  isOk (Fastform.Form_validate form) = true ->
  follows_schema (Samples.scripted decision form comment).
Proof.
  intros H. split; intros ctx g; cbn; intros [= <-]; [|exact H].
  destruct decision; reflexivity.
Qed.

Lemma system_message_validated (text : string) :
  ContentMessage_validate (system_message_json text)
  = Ok (mkContentMessage system [TextContent text]).
Proof.
  change (system_message_json text)
    with (ContentMessage_dump (mkContentMessage system [TextContent text])).
  apply ContentMessage_validate_dump.
Qed.





(** C7, as stated, fails: a model that follows the schema of [Form]
    answers a Build turn with a valid form one of whose coordinates
    carries integers, and the turn returns it as the structure
    message. *)
Lemma assistant_may_set_coordinates :
  follows_schema
    (Samples.scripted Ai.yes (Fastform.Form_dump Samples.placed_form) "Done.")
  /\ Ai.fastformbuild_chat
       (Samples.scripted Ai.yes (Fastform.Form_dump Samples.placed_form) "Done.")
       [mkContentMessage system [TextContent Ai.SYSTEM_PROMPT];
        mkContentMessage user [TextContent "create a contact form"]]
     = Return
         [Some (assistant_message
                  (Samples.dumps (Fastform.Form_dump Samples.placed_form)));
          Some (assistant_message "Done.")]
  /\ Fastform.Form_validate (Fastform.Form_dump Samples.placed_form)
     = Ok Samples.placed_form
  /\ Schema.coordinates_null Samples.placed_form = false.
Proof.
  split; [apply scripted_follows_schema; vm_compute; reflexivity|].
  split; [vm_compute; reflexivity|].
  split; vm_compute; reflexivity.
Qed.


End FlowProperties.

(** * Further properties of the schema *)

Module SchemaExtras.
Import Fastform Schema Shadowing ResultFacts FastformFacts.

Lemma Coordinate_requires : requires Coordinate_fields Coordinate_declared.
Proof. unfold Coordinate_fields. requires_tac. Qed.

Lemma SelectOption_requires : requires SelectOption_fields SelectOption_declared.
Proof. unfold SelectOption_fields. requires_tac. Qed.

Lemma AnnotationGroup_requires :
  requires AnnotationGroup_fields AnnotationGroup_declared.
Proof. unfold AnnotationGroup_fields. requires_tac. Qed.

Lemma Form_requires : requires Form_fields Form_declared.
Proof. unfold Form_fields. requires_tac. Qed.

(** X1: every attribute that a model of the schema tree declares is
    required, the nullable ones included: a document without it is not
    accepted by that model. *)
Theorem declared_attribute_required (m : ModelName) (o : Obj) (k : string) :
  In k (declared m) -> get k o = None -> accepts m (JObj o) = false.
Proof.
  intros Hk Hg.
  destruct m; unfold accepts, declared in *;
    try apply SelectField_never_accepts;
    unfold Coordinate_validate, SelectOption_validate, Annotation_validate,
      TextField_validate, TextAreaField_validate, NumberField_validate,
      DateField_validate, CheckboxField_validate, RadioField_validate,
      FileField_validate, ImageField_validate,
      SignatureField_validate, EmailField_validate, UrlField_validate,
      PhoneField_validate, ListField_validate, AnnotationGroup_validate,
      SectionGroup_validate, RepeatGroup_validate, WizardStep_validate,
      TableGroup_validate, Form_validate;
    rewrite isOk_model;
    first
      [ rewrite (Coordinate_requires o k Hk Hg)
      | rewrite (SelectOption_requires o k Hk Hg)
      | rewrite (Annotation_requires o k Hk Hg)
      | rewrite (TextField_requires o k Hk Hg)
      | rewrite (TextAreaField_requires o k Hk Hg)
      | rewrite (NumberField_requires o k Hk Hg)
      | rewrite (DateField_requires o k Hk Hg)
      | rewrite (CheckboxField_requires o k Hk Hg)
      | rewrite (RadioField_requires o k Hk Hg)
      | rewrite (FileField_requires o k Hk Hg)
      | rewrite (ImageField_requires o k Hk Hg)
      | rewrite (SignatureField_requires o k Hk Hg)
      | rewrite (EmailField_requires o k Hk Hg)
      | rewrite (UrlField_requires o k Hk Hg)
      | rewrite (PhoneField_requires o k Hk Hg)
      | rewrite (ListField_requires o k Hk Hg)
      | rewrite (AnnotationGroup_requires o k Hk Hg)
      | rewrite (SectionGroup_requires o k Hk Hg)
      | rewrite (RepeatGroup_requires o k Hk Hg)
      | rewrite (WizardStep_requires o k Hk Hg)
      | rewrite (TableGroup_requires o k Hk Hg)
      | rewrite (Form_requires o k Hk Hg) ];
    reflexivity.
Qed.

Lemma declared_attribute_required_witness :
  accepts M_TextField
    (JObj [("title", JStr "Name"); ("description", JStr "Full name");
           ("bbox", dump_list Coordinate_dump Samples.null_box);
           ("element_name", JStr "TextField")]) = false
  /\ accepts M_TextField
       (JObj [("title", JStr "Name"); ("description", JStr "Full name");
              ("bbox", dump_list Coordinate_dump Samples.null_box);
              ("element_name", JStr "TextField"); ("value", JNull)]) = true.
Proof.
  split.
  - apply (declared_attribute_required M_TextField _ "value").
    + cbn. tauto.
    + reflexivity.
  - reflexivity.
Defined.

Ltac accepted_to_isOk H :=
  apply (f_equal isOk) in H; rewrite isOk_fmap in H; cbn [isOk] in H.

Tactic Notation "leaf_case" constr(needs) constr(back) :=
  let H := fresh "H" in
  let R := fresh "R" in
  split;
  [ intros H; accepted_to_isOk H; revert H;
    unfold TextField_dump, TextAreaField_dump, NumberField_dump,
      DateField_dump, CheckboxField_dump, RadioField_dump, ImageField_dump,
      FileField_dump, SignatureField_dump, EmailField_dump, UrlField_dump,
      PhoneField_dump;
    apply needs
  | intros H; pose proof back as R; cbv zeta in R; rewrite R by exact H;
    reflexivity ].

(** X2: for the thirteen leaf classes other than [SelectField],
    validating the serialisation of an instance against its own class
    gives the instance back exactly when its bounding box has two
    coordinates (and, for a [ListField], those of its items have):
    nothing else of the instance is checked, neither a number against
    [min_value] and [max_value], a text against [max_length], nor a
    radio value against the options. *)
Theorem leaf_round_trip (k : AnnotationEnum) (c : Cell) :
  variant_of c = Some k -> k <> select_field ->
  (variant_validate k (Cell_dump c) = Ok c <-> Cell_ok c = true).
Proof.
  intros Hk Hs.
  destruct c as [f|f|f|f|f|f|f|f|f|f|f|f|f|f|g|g|g]; cbn in Hk;
    try discriminate Hk; injection Hk as <-; try congruence;
    unfold variant_validate, Cell_dump; cbn [Cell_ok].
  - destruct f as [[t d b e] v].
    leaf_case TextField_needs_bbox (TextField_validate_dump t d b e v).
  - destruct f as [[t d b e] v m].
    leaf_case TextAreaField_needs_bbox (TextAreaField_validate_dump t d b e v m).
  - destruct f as [[t d b e] v mn mx].
    leaf_case NumberField_needs_bbox
      (NumberField_validate_dump t d b e v mn mx).
  - destruct f as [[t d b e] v].
    leaf_case DateField_needs_bbox (DateField_validate_dump t d b e v).
  - destruct f as [[t d b e] v].
    leaf_case CheckboxField_needs_bbox (CheckboxField_validate_dump t d b e v).
  - destruct f as [[t d b e] o v].
    leaf_case RadioField_needs_bbox (RadioField_validate_dump t d b e o v).
  - destruct f as [[t d b e] a m v].
    leaf_case FileField_needs_bbox (FileField_validate_dump t d b e a m v).
  - destruct f as [[[t d b e] a m v]].
    leaf_case ImageField_needs_bbox (ImageField_validate_dump t d b e a m v).
  - destruct f as [[t d b e] v].
    leaf_case SignatureField_needs_bbox
      (SignatureField_validate_dump t d b e v).
  - destruct f as [[t d b e] v].
    leaf_case EmailField_needs_bbox (EmailField_validate_dump t d b e v).
  - destruct f as [[t d b e] v].
    leaf_case UrlField_needs_bbox (UrlField_validate_dump t d b e v).
  - destruct f as [[t d b e] v].
    leaf_case PhoneField_needs_bbox (PhoneField_validate_dump t d b e v).
  - split.
    + intros H. accepted_to_isOk H. now rewrite isOk_ListField in H.
    + intros H. destruct f as [[t d b e] items]. cbn in H.
      apply andb_true_iff in H as [Hb Hi].
      pose proof (ListField_validate_dump t d b e items) as R. cbv zeta in R.
      rewrite R by assumption. reflexivity.
Qed.

Lemma leaf_round_trip_witness :
  variant_validate number_field
    (Cell_dump
       (Cell_NumberField
          (mkNumberField
             (mkAnnotation "Age" "Age in years" Samples.null_box number_field)
             (Some (NInt 200)) (Some (NInt 0)) (Some (NInt 120)))))
  = Ok (Cell_NumberField
          (mkNumberField
             (mkAnnotation "Age" "Age in years" Samples.null_box number_field)
             (Some (NInt 200)) (Some (NInt 0)) (Some (NInt 120)))).
Proof.
  apply (proj2 (leaf_round_trip number_field
                  (Cell_NumberField
                     (mkNumberField
                        (mkAnnotation "Age" "Age in years" Samples.null_box
                           number_field)
                        (Some (NInt 200)) (Some (NInt 0)) (Some (NInt 120))))
                  eq_refl ltac:(discriminate))).
  reflexivity.
Defined.

(** ** What the unions return *)

Lemma union_cons_Ok {A} (tag : string) (V : JValue -> Result A)
  (rest : list (Member A)) (v : JValue) (a : A) :
  union ((tag, V) :: rest) v = Ok a ->
  V v = Ok a \/ ((exists es, V v = Invalid es) /\ union rest v = Ok a).
Proof.
  cbn [union]. destruct (V v) as [a'|es|e]; [now left| |discriminate].
  intros H. right. split; [now exists es|].
  destruct (union rest v); [exact H|discriminate..].
Qed.

Lemma fmap_Invalid {A B} (f : A -> B) (r : Result A) (es : list ErrorDetails) :
  fmap f r = Invalid es -> r = Invalid es.
Proof. destruct r; cbn; congruence. Qed.

Lemma union_lifted_Ok {A B} (f : A -> B) (ms : list (Member A))
  (rest : list (Member B)) (v : JValue) (b : B) :
  union (map (fun m : Member A => (fst m, fun v => fmap f (snd m v))) ms
         ++ rest) v = Ok b ->
  (exists a, b = f a /\ union ms v = Ok a) \/ union rest v = Ok b.
Proof.
  induction ms as [|[tag V] ms IH]; intros H; [now right|].
  cbn [map app fst snd] in H. apply union_cons_Ok in H as [H|[[es Hn] H]].
  - apply fmap_Ok in H as (a & Ha & ->). left. exists a. split; [reflexivity|].
    cbn [union]. now rewrite Ha.
  - apply fmap_Invalid in Hn.
    apply IH in H as [(a & -> & Ha)|H]; [|now right].
    left. exists a. split; [reflexivity|]. cbn [union]. now rewrite Hn, Ha.
Qed.

Ltac same_attributes :=
  intros v;
  unfold TextField_validate, DateField_validate, SignatureField_validate,
    EmailField_validate, UrlField_validate, PhoneField_validate,
    FileField_validate, ImageField_validate;
  destruct v; try reflexivity; rewrite !isOk_model;
  unfold TextField_fields, DateField_fields, SignatureField_fields,
    EmailField_fields, UrlField_fields, PhoneField_fields, ImageField_fields;
  rewrite !isOk_ap; reflexivity.

Lemma TextField_shadows_DateField :
  forall v, isOk (DateField_validate v) = isOk (TextField_validate v).
Proof. same_attributes. Qed.

Lemma TextField_shadows_SignatureField :
  forall v, isOk (SignatureField_validate v) = isOk (TextField_validate v).
Proof. same_attributes. Qed.

Lemma TextField_shadows_EmailField :
  forall v, isOk (EmailField_validate v) = isOk (TextField_validate v).
Proof. same_attributes. Qed.

Lemma TextField_shadows_UrlField :
  forall v, isOk (UrlField_validate v) = isOk (TextField_validate v).
Proof. same_attributes. Qed.

Lemma TextField_shadows_PhoneField :
  forall v, isOk (PhoneField_validate v) = isOk (TextField_validate v).
Proof. same_attributes. Qed.

Lemma FileField_shadows_ImageField :
  forall v, isOk (ImageField_validate v) = isOk (FileField_validate v).
Proof. same_attributes. Qed.

Ltac shadow_contra :=
  let N := fresh "N" in
  match goal with
  | Ha : SelectField_validate ?v = Ok _ |- _ =>
      pose proof (SelectField_never_accepts v) as N; rewrite Ha in N
  | Ha : DateField_validate ?v = Ok _,
    Hn : TextField_validate ?v = Invalid _ |- _ =>
      pose proof (TextField_shadows_DateField v) as N; rewrite Ha, Hn in N
  | Ha : SignatureField_validate ?v = Ok _,
    Hn : TextField_validate ?v = Invalid _ |- _ =>
      pose proof (TextField_shadows_SignatureField v) as N; rewrite Ha, Hn in N
  | Ha : EmailField_validate ?v = Ok _,
    Hn : TextField_validate ?v = Invalid _ |- _ =>
      pose proof (TextField_shadows_EmailField v) as N; rewrite Ha, Hn in N
  | Ha : UrlField_validate ?v = Ok _,
    Hn : TextField_validate ?v = Invalid _ |- _ =>
      pose proof (TextField_shadows_UrlField v) as N; rewrite Ha, Hn in N
  | Ha : PhoneField_validate ?v = Ok _,
    Hn : TextField_validate ?v = Invalid _ |- _ =>
      pose proof (TextField_shadows_PhoneField v) as N; rewrite Ha, Hn in N
  | Ha : ImageField_validate ?v = Ok _,
    Hn : FileField_validate ?v = Invalid _ |- _ =>
      pose proof (FileField_shadows_ImageField v) as N; rewrite Ha, Hn in N
  end;
  discriminate N.

Ltac next_member H :=
  let a := fresh "a" in
  let Ha := fresh "Ha" in
  let es := fresh "es" in
  let Hn := fresh "Hn" in
  apply union_cons_Ok in H as [H|[[es Hn] H]];
  [ apply fmap_Ok in H as (a & Ha & ->); first [reflexivity | shadow_contra]
  | apply fmap_Invalid in Hn ].

Lemma Cell_never_returned (v : JValue) (c : Cell) :
  Cell_validate v = Ok c -> never_returned c = false.
Proof.
  unfold Cell_validate, Cell_members, member. intros H.
  do 17 next_member H. discriminate H.
Qed.

Lemma at_loc_Ok {A} (l : LocItem) (r : Result A) (a : A) :
  at_loc l r = Ok a -> r = Ok a.
Proof. destruct r; cbn; congruence. Qed.

Lemma field_Ok {A} (name : string) (V : JValue -> Result A) (o : Obj) (a : A) :
  field name V o = Ok a -> exists v, get name o = Some v /\ V v = Ok a.
Proof.
  unfold field. destruct (get name o) as [v|]; [|discriminate].
  intros H. exists v. split; [reflexivity|]. now apply at_loc_Ok in H.
Qed.

Lemma and_then_Ok {A B} (r : Result A) (k : A -> Result B) (b : B) :
  and_then r k = Ok b -> exists a, r = Ok a /\ k a = Ok b.
Proof. destruct r as [a| |]; cbn; [|discriminate..]. intros H. now exists a. Qed.

Lemma list_items_Ok {A} (V : JValue -> Result A) (l : list JValue) :
  forall i l', list_items V i l = Ok l' ->
               Forall2 (fun v a => V v = Ok a) l l'.
Proof.
  induction l as [|v l IH]; intros i l' H; cbn [list_items] in H.
  - injection H as <-. constructor.
  - apply ap_Ok in H as (g & tl & Hf & Hr & ->).
    apply ap_Ok in Hf as (g0 & a & Hg & Ha & ->). injection Hg as <-.
    apply at_loc_Ok in Ha. constructor; [exact Ha|]. now apply IH in Hr.
Qed.

Lemma list_of_Ok {A} (V : JValue -> Result A) (v : JValue) (l' : list A) :
  list_of V v = Ok l' ->
  exists l, v = JList l /\ Forall2 (fun v a => V v = Ok a) l l'.
Proof.
  unfold list_of. destruct v; try discriminate. intros H.
  eexists. split; [reflexivity|]. now apply list_items_Ok in H.
Qed.

Lemma Forall2_In_r {A B} (R : A -> B -> Prop) (l : list A) (l' : list B)
  (b : B) : Forall2 R l l' -> In b l' -> exists a, In a l /\ R a b.
Proof.
  induction 1 as [|x y l l' Hxy _ IH]; intros Hin; [contradiction|].
  destruct Hin as [<-|Hin].
  - exists x. split; [now left|exact Hxy].
  - destruct (IH Hin) as (a & Ha & Hr). exists a. split; [now right|exact Hr].
Qed.

Lemma Element_validate_Ok (v : JValue) (e : Element) :
  Element_validate v = Ok e ->
  (exists c, e = Element_Cell c /\ Cell_validate v = Ok c)
  \/ (exists g, e = Element_TableGroup g /\ TableGroup_validate v = Ok g).
Proof.
  unfold Element_validate, Element_members. intros H.
  apply union_lifted_Ok in H as [(c & -> & Hc)|H].
  - left. now exists c.
  - right. unfold member in H. apply union_cons_Ok in H as [H|[_ H]].
    + apply fmap_Ok in H as (g & Hg & ->). now exists g.
    + discriminate H.
Qed.

Lemma match_columns_Ok {A} (rows rows' : list (list A))
  (data : option (list string)) :
  match_columns rows data = Ok rows' -> rows' = rows.
Proof.
  unfold match_columns. destruct (match_columns_loop _ rows); [discriminate|].
  congruence.
Qed.

Lemma TableGroup_cells_validated (v : JValue) (g : TableGroup) :
  TableGroup_validate v = Ok g ->
  forall c, In c (concat (TableGroup_rows g)) ->
            exists v', Cell_validate v' = Ok c.
Proof.
  unfold TableGroup_validate. destruct v; try discriminate. intros H.
  apply model_Ok in H as [H _]. unfold TableGroup_fields in H.
  invert_ap H. cbn [TableGroup_rows].
  match goal with
  | Hr : field "rows" _ _ = Ok ?rows |- _ =>
      apply field_Ok in Hr as (vr & _ & Hr);
      apply and_then_Ok in Hr as (rows0 & Hl & Hm);
      apply match_columns_Ok in Hm; subst rows
  end.
  apply list_of_Ok in Hl as (l & _ & Hl).
  intros c Hc. apply in_concat in Hc as (row & Hrow & Hc).
  destruct (Forall2_In_r _ _ _ _ Hl Hrow) as (vrow & _ & Hvrow).
  apply list_of_Ok in Hvrow as (lrow & _ & Hcells).
  destruct (Forall2_In_r _ _ _ _ Hcells Hc) as (vc & _ & Hvc).
  now exists vc.
Qed.

(** X3: a form that validation returns holds no instance of
    [SelectField], [DateField], [ImageField], [SignatureField],
    [EmailField], [UrlField] or [PhoneField], whatever the document
    was: [SelectField] accepts nothing, and each of the others has the
    attributes of [TextField] or [FileField], which stands before it
    in the unions of [Form.elements] and [TableGroup.rows]. *)
Theorem shadowed_classes_never_returned (v : JValue) (f : Form) :
  Form_validate v = Ok f ->
  forall c, In c (Form_cells f) -> never_returned c = false.
Proof.
  unfold Form_validate. destruct v; try discriminate. intros H.
  apply model_Ok in H as [H _]. unfold Form_fields in H.
  invert_ap H. unfold Form_cells. cbn [Form_elements].
  match goal with
  | He : field "elements" _ _ = Ok _ |- _ =>
      apply field_Ok in He as (ve & _ & Hel);
      apply list_of_Ok in Hel as (l & _ & Hl)
  end.
  intros c Hc.
  apply in_flat_map in Hc as (e & Hin & Hc).
  destruct (Forall2_In_r _ _ _ _ Hl Hin) as (v' & _ & Hv').
  apply Element_validate_Ok in Hv' as [(c' & -> & Hc')|(g & -> & Hg)].
  - cbn in Hc. destruct Hc as [<-|[]]. now apply Cell_never_returned in Hc'.
  - cbn [Element_cells] in Hc.
    destruct (TableGroup_cells_validated _ _ Hg _ Hc) as (vc & Hvc).
    now apply Cell_never_returned in Hvc.
Qed.

Lemma shadowed_classes_never_returned_witness :
  Form_validate (Form_dump Examples.person_form)
  = Ok (Form_first_match Examples.person_form)
  /\ forall c, In c (Form_cells (Form_first_match Examples.person_form)) ->
               never_returned c = false.
Proof.
  split; [vm_compute; reflexivity|].
  apply (shadowed_classes_never_returned (Form_dump Examples.person_form)).
  vm_compute. reflexivity.
Defined.

(** ** The instance returned for a serialised one *)

Lemma union_here {A} (tag : string) (V : JValue -> Result A)
  (rest : list (Member A)) (v : JValue) (a : A) :
  V v = Ok a -> union ((tag, V) :: rest) v = Ok a.
Proof. intros H. cbn [union]. now rewrite H. Qed.

Lemma union_skip {A} (tag : string) (V : JValue -> Result A)
  (rest : list (Member A)) (v : JValue) (a : A) :
  isOk (V v) = false -> raised (V v) = false ->
  union rest v = Ok a -> union ((tag, V) :: rest) v = Ok a.
Proof.
  intros Hn Hq H. cbn [union]. destruct (V v); [discriminate Hn| |discriminate Hq].
  now rewrite H.
Qed.

Lemma union_lifted {A B} (f : A -> B) (ms : list (Member A))
  (rest : list (Member B)) (v : JValue) (a : A) :
  union ms v = Ok a ->
  union (map (fun m : Member A => (fst m, fun v => fmap f (snd m v))) ms
         ++ rest) v = Ok (f a).
Proof.
  induction ms as [|[tag V] ms IH]; [discriminate|].
  intros H. cbn [map app fst snd]. apply union_cons_Ok in H as [H|[[es Hn] H]].
  - apply union_here. now rewrite H.
  - apply union_skip; [now rewrite Hn|now rewrite Hn|]. now apply IH.
Qed.

Lemma union_lifted_rejects {A B} (f : A -> B) (ms : list (Member A))
  (rest : list (Member B)) (v : JValue) (b : B) :
  (forall m, In m ms -> isOk (snd m v) = false) ->
  (forall m, In m ms -> raised (snd m v) = false) ->
  union rest v = Ok b ->
  union (map (fun m : Member A => (fst m, fun v => fmap f (snd m v))) ms
         ++ rest) v = Ok b.
Proof.
  induction ms as [|[tag V] ms IH]; intros Hn Hq H; [exact H|].
  cbn [map app fst snd]. apply union_skip.
  - rewrite isOk_fmap. apply (Hn (tag, V)). now left.
  - rewrite raised_fmap. apply (Hq (tag, V)). now left.
  - apply IH; [| |exact H]; intros m Hm; [apply Hn|apply Hq]; now right.
Qed.

Lemma list_items_map_dump {A B} (V : JValue -> Result B) (d : A -> JValue)
  (f : A -> B) (l : list A) :
  (forall a, In a l -> V (d a) = Ok (f a)) ->
  forall i, list_items V i (map d l) = Ok (map f l).
Proof.
  induction l as [|a l IH]; intros H i; [reflexivity|].
  cbn [map list_items]. rewrite (H a) by now left.
  rewrite IH by (intros; apply H; now right). reflexivity.
Qed.

Lemma list_of_map_dump {A B} (V : JValue -> Result B) (d : A -> JValue)
  (f : A -> B) (l : list A) :
  (forall a, In a l -> V (d a) = Ok (f a)) ->
  list_of V (dump_list d l) = Ok (map f l).
Proof. intros H. unfold list_of, dump_list. now apply list_items_map_dump. Qed.

Ltac group_round_trip :=
  unfold SectionGroup_validate, RepeatGroup_validate, WizardStep_validate,
    SectionGroup_dump, RepeatGroup_dump, WizardStep_dump,
    SectionGroup_fields, RepeatGroup_fields, WizardStep_fields, model;
  cbn [SectionGroup_base RepeatGroup_base WizardStep_base];
  rewrite AnnotationGroup_fields_dump by assumption;
  unfold field; cbn; rewrite ?nullable_int_dump; reflexivity.

Lemma SectionGroup_validate_dump (g : SectionGroup) :
  group_ok (SectionGroup_base g) = true ->
  SectionGroup_validate (SectionGroup_dump g) = Ok g.
Proof. destruct g as [b c1 c2]. cbn [SectionGroup_base]. intros H. group_round_trip. Qed.

Lemma RepeatGroup_validate_dump (g : RepeatGroup) :
  group_ok (RepeatGroup_base g) = true ->
  RepeatGroup_validate (RepeatGroup_dump g) = Ok g.
Proof. destruct g as [b mn mx]. cbn [RepeatGroup_base]. intros H. group_round_trip. Qed.

Lemma WizardStep_validate_dump (g : WizardStep) :
  group_ok (WizardStep_base g) = true ->
  WizardStep_validate (WizardStep_dump g) = Ok g.
Proof. destruct g as [b o p]. cbn [WizardStep_base]. intros H. group_round_trip. Qed.

Lemma TextField_rejects_boolean (a : Annotation) (b : bool) :
  isOk (TextField_validate
          (JObj (Annotation_members a ++ [("value", JBool b)]))) = false.
Proof.
  unfold TextField_validate. rewrite isOk_model.
  unfold TextField_fields. rewrite !isOk_ap, isOk_field.
  destruct a as [t d bb e]. cbn. now rewrite !andb_false_r.
Qed.

Lemma DateField_rejects_boolean (a : Annotation) (b : bool) :
  isOk (DateField_validate
          (JObj (Annotation_members a ++ [("value", JBool b)]))) = false.
Proof. rewrite TextField_shadows_DateField. apply TextField_rejects_boolean. Qed.

Ltac reject_member :=
  apply union_skip;
  [ rewrite isOk_fmap;
    first
      [ apply TextField_rejects_boolean
      | apply DateField_rejects_boolean
      | apply TextField_shape; reflexivity
      | apply TextAreaField_shape; reflexivity
      | apply NumberField_shape; reflexivity
      | apply DateField_shape; reflexivity
      | apply CheckboxField_shape; reflexivity
      | apply RadioField_shape; reflexivity
      | apply SelectField_shape; reflexivity
      | apply FileField_shape; reflexivity
      | apply ImageField_shape; reflexivity
      | apply SignatureField_shape; reflexivity
      | apply EmailField_shape; reflexivity
      | apply UrlField_shape; reflexivity
      | apply PhoneField_shape; reflexivity
      | apply ListField_shape; reflexivity
      | apply SectionGroup_shape; reflexivity
      | apply RepeatGroup_shape; reflexivity ]
  | rewrite raised_fmap;
    first
      [ apply TextField_quiet | apply TextAreaField_quiet
      | apply NumberField_quiet | apply DateField_quiet
      | apply CheckboxField_quiet | apply RadioField_quiet
      | apply FileField_quiet | apply ImageField_quiet
      | apply SignatureField_quiet | apply EmailField_quiet
      | apply UrlField_quiet | apply PhoneField_quiet | apply ListField_quiet
      | apply SectionGroup_quiet | apply RepeatGroup_quiet
      | apply SelectField_shape_quiet; reflexivity ]
  | ].

Tactic Notation "accept_member" constr(back) :=
  let R := fresh "R" in
  apply union_here; pose proof back as R; cbv zeta in R;
  lazymatch type of R with
  | _ -> _ -> ?V ?doc = Ok _ =>
      lazymatch goal with
      | |- fmap _ (V ?doc') = _ => change doc' with doc
      end
  | _ -> ?V ?doc = Ok _ =>
      lazymatch goal with
      | |- fmap _ (V ?doc') = _ => change doc' with doc
      end
  end;
  rewrite R by assumption; reflexivity.

(** The union of [TableGroup.rows] on the serialisation of a valid
    cell that is not a [SelectField]. *)
Lemma Cell_validate_dump (c : Cell) :
  Cell_passes c = true -> Cell_validate (Cell_dump c) = Ok (first_match c).
Proof.
  unfold Cell_passes. intros H. apply andb_true_iff in H as [H Hs].
  unfold Cell_validate, Cell_members, member.
  destruct c as [[[t d b e] v]|[[t d b e] v m]|[[t d b e] v mn mx]
                |[[t d b e] v]|[[t d b e] [v|]]|[[t d b e] o v]|f
                |[[t d b e] a m v]|[[[t d b e] a m v]]|[[t d b e] v]
                |[[t d b e] v]|[[t d b e] v]|[[t d b e] v]
                |[[t d b e] items]|g|g|g];
    cbn [Cell_ok] in H; unfold Cell_dump;
    cbn [first_match DateField_base DateField_value CheckboxField_base
         CheckboxField_value ImageField_super SignatureField_base
         SignatureField_value EmailField_base EmailField_value UrlField_base
         UrlField_value PhoneField_base PhoneField_value].
  - accept_member (TextField_validate_dump t d b e v).
  - do 1 reject_member.
    accept_member (TextAreaField_validate_dump t d b e v m).
  - do 2 reject_member.
    accept_member (NumberField_validate_dump t d b e v mn mx).
  - accept_member (TextField_validate_dump t d b e v).
  - do 4 reject_member.
    accept_member (CheckboxField_validate_dump t d b e (Some v)).
  - accept_member (TextField_validate_dump t d b e None).
  - do 5 reject_member.
    accept_member (RadioField_validate_dump t d b e o v).
  - discriminate Hs.
  - do 7 reject_member.
    accept_member (FileField_validate_dump t d b e a m v).
  - do 7 reject_member.
    accept_member (FileField_validate_dump t d b e a m v).
  - accept_member (TextField_validate_dump t d b e v).
  - accept_member (TextField_validate_dump t d b e v).
  - accept_member (TextField_validate_dump t d b e v).
  - accept_member (TextField_validate_dump t d b e v).
  - do 13 reject_member. cbn in H. apply andb_true_iff in H as [Hb Hi].
    accept_member (ListField_validate_dump t d b e items).
  - do 14 reject_member. apply union_here.
    now rewrite SectionGroup_validate_dump.
  - do 15 reject_member. apply union_here.
    now rewrite RepeatGroup_validate_dump.
  - do 16 reject_member. apply union_here.
    now rewrite WizardStep_validate_dump.
Qed.

Lemma rows_validate_dump (rows : list (list Cell)) :
  forallb (forallb Cell_passes) rows = true ->
  list_of (list_of Cell_validate) (dump_list (dump_list Cell_dump) rows)
  = Ok (map (map first_match) rows).
Proof.
  intros H. apply list_of_map_dump. intros row Hrow.
  apply list_of_map_dump. intros c Hc. apply Cell_validate_dump.
  rewrite forallb_forall in H. specialize (H row Hrow).
  rewrite forallb_forall in H. now apply H.
Qed.

Lemma rows_ok_first_match (columns : list string) (rows : list (list Cell)) :
  rows_ok columns (map (map first_match) rows) = rows_ok columns rows.
Proof.
  unfold rows_ok. induction rows as [|row rows IH]; [reflexivity|].
  cbn [map forallb]. now rewrite IH, length_map.
Qed.

Lemma TableGroup_validate_dump (g : TableGroup) :
  TableGroup_passes g = true ->
  TableGroup_validate (TableGroup_dump g)
  = Ok (mkTableGroup (TableGroup_base g) (TableGroup_columns g)
          (map (map first_match) (TableGroup_rows g))).
Proof.
  destruct g as [b columns rows]. unfold TableGroup_passes.
  cbn [TableGroup_base TableGroup_columns TableGroup_rows]. intros H.
  apply andb_true_iff in H as [H Hr]. apply andb_true_iff in H as [Hg Hc].
  unfold TableGroup_validate, TableGroup_dump, TableGroup_fields, model.
  cbn [TableGroup_base TableGroup_columns TableGroup_rows].
  rewrite AnnotationGroup_fields_dump by assumption.
  unfold field. cbn. rewrite list_of_str_dump. cbn.
  rewrite rows_validate_dump by assumption. cbn [and_then].
  unfold match_columns. rewrite match_columns_loop_rows_ok.
  rewrite rows_ok_first_match, Hr. reflexivity.
Qed.

Lemma Element_validate_dump (e : Element) :
  Element_passes e = true ->
  Element_validate (Element_dump e) = Ok (Element_first_match e).
Proof.
  destruct e as [c|g]; cbn [Element_passes Element_first_match]; intros H;
    unfold Element_validate, Element_members, Element_dump.
  - apply union_lifted. now apply Cell_validate_dump.
  - apply union_lifted_rejects.
    + intros m Hm. now apply Cell_member_rejects_table.
    + intros m Hm. now apply Cell_member_quiet_on_table.
    + apply union_here. unfold member. cbn [snd].
      now rewrite TableGroup_validate_dump.
Qed.

Lemma Cell_dump_first_match (c : Cell) : Cell_dump (first_match c) = Cell_dump c.
Proof.
  destruct c as [f|f|f|f|[a [v|]]|f|f|f|f|f|f|f|f|f|g|g|g]; reflexivity.
Qed.

Lemma Element_dump_first_match (e : Element) :
  Element_dump (Element_first_match e) = Element_dump e.
Proof.
  destruct e as [c|g]; unfold Element_first_match, Element_dump.
  - apply Cell_dump_first_match.
  - unfold TableGroup_dump.
    cbn [TableGroup_base TableGroup_columns TableGroup_rows].
    replace (dump_list (dump_list Cell_dump)
               (map (map first_match) (TableGroup_rows g)))
      with (dump_list (dump_list Cell_dump) (TableGroup_rows g));
      [reflexivity|].
    unfold dump_list. f_equal. rewrite map_map. apply map_ext. intros row.
    f_equal. rewrite map_map. apply map_ext. intros c.
    symmetry. apply Cell_dump_first_match.
Qed.

(** X4: validating the serialisation of a valid form without a
    [SelectField] gives back the form with each element and each table
    cell under the first class of the union that has its attributes: a
    [DateField], [SignatureField], [EmailField], [UrlField] or
    [PhoneField] as a [TextField], a [CheckboxField] without value as
    a [TextField], an [ImageField] as a [FileField]; the result
    serialises to the same document. *)
Theorem Form_round_trip (f : Form) :
  Form_passes f = true ->
  Form_validate (Form_dump f) = Ok (Form_first_match f)
  /\ Form_dump (Form_first_match f) = Form_dump f.
Proof.
  destruct f as [t d elements]. unfold Form_passes. cbn [Form_elements].
  intros H. split.
  - unfold Form_validate, Form_dump, Form_fields, model, field.
    cbn [Form_title Form_description Form_elements]. cbn.
    rewrite (list_of_map_dump Element_validate Element_dump
               Element_first_match).
    + reflexivity.
    + intros e He. apply Element_validate_dump.
      rewrite forallb_forall in H. now apply H.
  - unfold Form_dump, Form_first_match.
    cbn [Form_title Form_description Form_elements].
    replace (dump_list Element_dump (map Element_first_match elements))
      with (dump_list Element_dump elements); [reflexivity|].
    unfold dump_list. f_equal. rewrite map_map. apply map_ext. intros e.
    symmetry. apply Element_dump_first_match.
Qed.

Lemma Form_round_trip_witness :
  Form_validate (Form_dump Examples.person_form)
  = Ok (Form_first_match Examples.person_form)
  /\ Form_dump (Form_first_match Examples.person_form)
     = Form_dump Examples.person_form.
Proof. apply (Form_round_trip Examples.person_form). reflexivity. Defined.

(** X5: for the three group classes of the cell union, validating the
    serialisation of an instance gives the instance back exactly when
    the group has at least one annotation and every bounding box in it
    has two coordinates. *)
Theorem group_round_trip :
  (forall g, SectionGroup_validate (SectionGroup_dump g) = Ok g
             <-> group_ok (SectionGroup_base g) = true)
  /\ (forall g, RepeatGroup_validate (RepeatGroup_dump g) = Ok g
                <-> group_ok (RepeatGroup_base g) = true)
  /\ (forall g, WizardStep_validate (WizardStep_dump g) = Ok g
                <-> group_ok (WizardStep_base g) = true).
Proof.
  split; [|split]; intros g; split.
  - intros H. apply (f_equal isOk) in H. now rewrite isOk_SectionGroup in H.
  - apply SectionGroup_validate_dump.
  - intros H. apply (f_equal isOk) in H. now rewrite isOk_RepeatGroup in H.
  - apply RepeatGroup_validate_dump.
  - intros H. apply (f_equal isOk) in H. now rewrite isOk_WizardStep in H.
  - apply WizardStep_validate_dump.
Qed.

Lemma group_round_trip_witness :
  SectionGroup_validate
    (SectionGroup_dump
       (mkSectionGroup
          (mkAnnotationGroup "Address" "Postal address"
             [mkAnnotation "Street" "Street name" Samples.null_box text_field]
             table_group)
          true false))
  = Ok (mkSectionGroup
          (mkAnnotationGroup "Address" "Postal address"
             [mkAnnotation "Street" "Street name" Samples.null_box text_field]
             table_group)
          true false).
Proof. apply (proj2 (proj1 group_round_trip _)). reflexivity. Defined.

Lemma bbox_too_short (b : list Coordinate) :
  List.length b < 2 ->
  bbox_validate (dump_list Coordinate_dump b) = Invalid [mkError too_short []].
Proof.
  intros H. unfold bbox_validate.
  rewrite list_of_dump by (intros; apply Coordinate_validate_dump).
  destruct b as [|c1 [|c2 b]]; cbn in *; [reflexivity..|lia].
Qed.

Lemma bbox_too_long (b : list Coordinate) :
  2 < List.length b ->
  bbox_validate (dump_list Coordinate_dump b) = Invalid [mkError too_long []].
Proof.
  intros H. unfold bbox_validate.
  rewrite list_of_dump by (intros; apply Coordinate_validate_dump).
  destruct b as [|c1 [|c2 [|c3 b]]]; cbn in *; try lia. reflexivity.
Qed.

(** X6: the bounds on lists are reported as such.  An annotation whose
    bounding box has fewer than two coordinates fails with the one
    error [too_short] at [bbox], one with more than two with
    [too_long] at [bbox]; a group without annotations fails with
    [too_short] at [annotations]. *)
Theorem length_errors :
  (forall a, List.length (Annotation_bbox a) < 2 ->
             Annotation_validate (Annotation_dump a)
             = Invalid [mkError too_short [Key "bbox"]])
  /\ (forall a, 2 < List.length (Annotation_bbox a) ->
                Annotation_validate (Annotation_dump a)
                = Invalid [mkError too_long [Key "bbox"]])
  /\ (forall g, AnnotationGroup_annotations g = [] ->
                AnnotationGroup_validate (AnnotationGroup_dump g)
                = Invalid [mkError too_short [Key "annotations"]]).
Proof.
  split; [|split].
  - intros [t d b e]. cbn [Annotation_bbox]. intros H.
    unfold Annotation_validate, Annotation_dump, model, Annotation_fields, field.
    cbn. rewrite bbox_too_short by exact H. cbn.
    now rewrite AnnotationEnum_validate_value.
  - intros [t d b e]. cbn [Annotation_bbox]. intros H.
    unfold Annotation_validate, Annotation_dump, model, Annotation_fields, field.
    cbn. rewrite bbox_too_long by exact H. cbn.
    now rewrite AnnotationEnum_validate_value.
  - intros [t d l e]. cbn [AnnotationGroup_annotations]. intros ->.
    unfold AnnotationGroup_validate, AnnotationGroup_dump, model,
      AnnotationGroup_fields, field.
    cbn. now rewrite AnnotationGroupEnum_validate_value.
Qed.

Lemma length_errors_witness :
  Annotation_validate
    (Annotation_dump
       (mkAnnotation "Street" "Street name" [mkCoordinate None None] text_field))
  = Invalid [mkError too_short [Key "bbox"]].
Proof. apply (proj1 length_errors). cbn. apply le_n. Defined.

(** X7: [match_columns] reads the columns with
    [info.data.get("columns", [])].  When the attribute [columns] is
    missing, the rows of an otherwise valid table are compared with
    the empty list: the table fails with the error for the missing
    attribute, followed by the row-length error at [rows] unless every
    row is empty. *)
Theorem rows_checked_without_columns (b : AnnotationGroup)
  (rows : list (list Cell)) :
  group_ok b = true ->
  forallb (forallb Cell_passes) rows = true ->
  TableGroup_validate
    (JObj (AnnotationGroup_members b
           ++ [("rows", dump_list (dump_list Cell_dump) rows)]))
  = Invalid (mkError missing [Key "columns"]
             :: if rows_ok [] rows then []
                else [mkError row_error [Key "rows"]]).
Proof.
  intros Hg Hc. unfold TableGroup_validate, TableGroup_fields, model.
  rewrite AnnotationGroup_fields_dump by assumption.
  destruct b as [t d l e]. unfold field. cbn.
  rewrite rows_validate_dump by assumption. cbn [and_then].
  unfold match_columns. rewrite match_columns_loop_rows_ok.
  rewrite rows_ok_first_match. destruct (rows_ok [] rows); reflexivity.
Qed.

Lemma rows_checked_without_columns_witness :
  TableGroup_validate
    (JObj (AnnotationGroup_members (TableGroup_base (Samples.table []))
           ++ [("rows", dump_list (dump_list Cell_dump) [[Samples.cell]])]))
  = Invalid [mkError missing [Key "columns"]; mkError row_error [Key "rows"]].
Proof.
  apply (rows_checked_without_columns (TableGroup_base (Samples.table []))
           [[Samples.cell]]); reflexivity.
Defined.

Lemma Annotation_rejects_cell (c : Cell) :
  isOk (Annotation_validate (Cell_dump c)) = false.
Proof.
  unfold Annotation_validate. apply model_shape; [apply Annotation_requires|].
  destruct c as [f|f|f|f|f|f|f|f|[f]|f|f|f|f|f|g|g|g]; reflexivity.
Qed.

Lemma list_items_rejects {A} (V : JValue -> Result A) (before after : list JValue)
  (v : JValue) :
  isOk (V v) = false ->
  forall i, isOk (list_items V i (before ++ v :: after)) = false.
Proof.
  intros H i. rewrite isOk_list_items, forallb_app. cbn [forallb].
  now rewrite H, andb_false_r.
Qed.

(** X8: the annotations of a group and the items of a [ListField] are
    validated as [Annotation], the base class, which admits the four
    common attributes and no other: a document that lists the
    serialisation of any field or group among the [annotations] is
    accepted by no group class, and one that lists it among the
    [items] is not accepted as a [ListField]. *)
Theorem groups_hold_bare_annotations (c : Cell) (before after : list JValue)
  (o : Obj) :
  (get "annotations" o = Some (JList (before ++ Cell_dump c :: after)) ->
   forall m, In m [M_AnnotationGroup; M_SectionGroup; M_RepeatGroup;
                   M_WizardStep; M_TableGroup] ->
             accepts m (JObj o) = false)
  /\ (get "items" o = Some (JList (before ++ Cell_dump c :: after)) ->
      accepts M_ListField (JObj o) = false).
Proof.
  assert (Hl : isOk (list_of Annotation_validate
                       (JList (before ++ Cell_dump c :: after))) = false).
  { unfold list_of. apply list_items_rejects, Annotation_rejects_cell. }
  split.
  - intros Hget.
    assert (Hg : isOk (AnnotationGroup_fields o) = false).
    { unfold AnnotationGroup_fields. rewrite !isOk_ap, (isOk_field "annotations").
      rewrite Hget. unfold annotations_validate.
      destruct (list_of Annotation_validate _); [discriminate Hl|..];
        cbn; now rewrite !andb_false_r. }
    intros m Hm. cbn [In] in Hm.
    repeat (destruct Hm as [<-|Hm]; [|]); try contradiction;
      unfold accepts, AnnotationGroup_validate, SectionGroup_validate,
        RepeatGroup_validate, WizardStep_validate, TableGroup_validate;
      rewrite isOk_model;
      unfold SectionGroup_fields, RepeatGroup_fields, WizardStep_fields,
        TableGroup_fields;
      rewrite ?isOk_ap, Hg; reflexivity.
  - intros Hget. unfold accepts, ListField_validate. rewrite isOk_model.
    unfold ListField_fields. rewrite !isOk_ap, (isOk_field "items"), Hget.
    unfold nullable. rewrite isOk_fmap, Hl. now rewrite !andb_false_r.
Qed.

Lemma groups_hold_bare_annotations_witness :
  accepts M_SectionGroup
    (JObj [("title", JStr "Address"); ("description", JStr "Postal address");
           ("annotations", JList [Cell_dump Samples.cell]);
           ("element_name", JStr "SectionGroup");
           ("collapsible", JBool true); ("collapsed", JBool false)]) = false.
Proof.
  apply (proj1 (groups_hold_bare_annotations Samples.cell [] [] _)).
  - reflexivity.
  - cbn. tauto.
Defined.

(** X9: no document is accepted as a [SelectField].  One whose
    attributes are invalid gets the validation errors of the
    attributes; one whose attributes are valid ends in the
    [AttributeError] of [check_select]. *)
Theorem SelectField_outcome (v : JValue) :
  (exists es,
     model SelectField_declared SelectField_fields v = Invalid es
     /\ SelectField_validate v = Invalid es)
  \/ (isOk (model SelectField_declared SelectField_fields v) = true
      /\ SelectField_validate v = Raised AttributeError).
Proof.
  unfold SelectField_validate.
  pose proof (raised_model SelectField_declared SelectField_fields v
                SelectField_fields_quiet) as Hq.
  destruct (model SelectField_declared SelectField_fields v) as [f|es|e].
  - right. split; reflexivity.
  - left. exists es. split; reflexivity.
  - discriminate Hq.
Qed.

(** X22: the two models without a bounding box come back from their
    serialisation as they were.  A coordinate keeps each component,
    null or integer; an option keeps its value as the string, the
    integer or the float that it was. *)
Theorem scalar_models_round_trip :
  (forall c, Coordinate_validate (Coordinate_dump c) = Ok c)
  /\ (forall o, SelectOption_validate (SelectOption_dump o) = Ok o).
Proof.
  split.
  - intros [[x|] [y|]]; reflexivity.
  - intros [label [s|n|lit]]; reflexivity.
Qed.

End SchemaExtras.

(** * Further properties of the orchestration *)

Module AiExtras.
Import Guidance Ai Turn Failure ResultFacts AiFacts.

Ltac json_or_raise H g E :=
  match type of H with
  | context [json ?lm ?schema ?ctx] =>
      destruct (json lm schema ctx) as [g|] eqn:E;
      [|injection H as <-; left; eauto]
  end.

Ltac gen_or_raise H t E :=
  match type of H with
  | context [gen ?lm ?ctx] =>
      destruct (gen lm ctx) as [t|] eqn:E;
      [|injection H as <-; right; eauto]
  end.

Ltac failure_tac :=
  let Hlm := fresh "Hlm" in
  let H := fresh "H" in
  let g0 := fresh "g0" in
  let g1 := fresh "g1" in
  let t := fresh "t" in
  let r := fresh "r" in
  let H0 := fresh "H0" in
  let Hr := fresh "Hr" in
  let H1 := fresh "H1" in
  let Ht := fresh "Ht" in
  intros Hlm H; unfold model_raised; run_script; flatten;
  json_or_raise H g0 H0;
  destruct (YesNo_selection_read (value g0) (Hlm _ _ H0)) as [r Hr];
  cbn in H; rewrite Hr in H; destruct r; cbn in H; flatten;
  [ json_or_raise H g1 H1; cbn in H; flatten;
    gen_or_raise H t Ht; cbn in H; flatten;
    revert H; end_of_yes_branch; cbn; discriminate
  | gen_or_raise H t Ht; cbn in H; discriminate H ].

Lemma build_failure lm messages e :
  classifier_follows_schema lm ->
  fastformbuild_chat lm messages = Raise e -> model_raised lm e.
Proof. failure_tac. Qed.

Lemma fill_failure lm messages e :
  classifier_follows_schema lm ->
  fastformfill_chat lm messages = Raise e -> model_raised lm e.
Proof. failure_tac. Qed.

(** X10: with a classifier that returns an instance of its schema, a
    call of [fastformbuild_chat] or [fastformfill_chat] fails only
    when a call of the model fails, and with the exception of that
    call: reading the classifier's answer, [messages[-2]] and the
    active message never fail. *)
Theorem chat_failure (lm : Model) (messages : list ContentMessage)
  (e : Exception) :
  classifier_follows_schema lm ->
  fastformbuild_chat lm messages = Raise e
  \/ fastformfill_chat lm messages = Raise e ->
  model_raised lm e.
Proof.
  intros Hlm [H|H]; [now apply (build_failure lm messages)
                    |now apply (fill_failure lm messages)].
Qed.

Lemma chat_failure_witness :
  model_raised Samples.failing (ModelError "generation failed").
Proof.
  apply (chat_failure Samples.failing [] (ModelError "generation failed")).
  - intros ctx g. cbn. intros [= <-]. reflexivity.
  - left. reflexivity.
Defined.

(** X11: [YesNo] accepts exactly the objects whose only key is
    [selection] with the value [yes] or [no]. *)
Theorem YesNo_accepts (v : JValue) (y : YesNo) :
  YesNo_validate v = Ok y
  <-> exists o, v = JObj o
                /\ get "selection" o
                   = Some (JStr (Response_value (YesNo_selection y)))
                /\ forall k, In k (keys o) -> k = "selection".
Proof.
  split.
  - unfold YesNo_validate. destruct v as [| | | | | |o]; try discriminate.
    intros H. apply FastformFacts.model_Ok in H as [H Hx]. exists o.
    split; [reflexivity|]. split.
    + unfold YesNo_fields in H.
      apply FastformFacts.ap_Ok in H as (g & r & Hg & Hr & ->).
      injection Hg as <-. cbn [YesNo_selection]. unfold field in Hr.
      destruct (get "selection" o) as [x|]; [|discriminate].
      apply SchemaExtras.at_loc_Ok in Hr. unfold Fastform.enum in Hr.
      destruct x as [| | | |s| |]; try discriminate.
      destruct (Fastform.by_value Response_value [yes; no] s) as [r'|] eqn:E;
        [|discriminate].
      injection Hr as <-. apply FastformFacts.by_value_sound in E.
      now rewrite E.
    + apply forbid_extra_nil in Hx. unfold no_extra in Hx.
      rewrite forallb_forall in Hx. intros k Hk. unfold keys in Hk.
      apply in_map_iff in Hk as (kv & <- & Hkv). specialize (Hx kv Hkv).
      cbn in Hx. rewrite orb_false_r in Hx. now apply String.eqb_eq in Hx.
  - intros (o & -> & Hg & Hk). unfold YesNo_validate.
    rewrite model_no_extra.
    + unfold YesNo_fields, field. rewrite Hg. destruct y as [[|]]; reflexivity.
    + unfold no_extra. apply forallb_forall. intros kv Hkv. cbn.
      rewrite orb_false_r. apply String.eqb_eq, Hk. unfold keys.
      now apply in_map.
Qed.

Lemma YesNo_accepts_witness :
  YesNo_validate (JObj [("selection", JStr "no")]) = Ok (mkYesNo no).
Proof.
  apply (proj2 (YesNo_accepts (JObj [("selection", JStr "no")]) (mkYesNo no))).
  exists [("selection", JStr "no")]. split; [reflexivity|].
  split; [reflexivity|]. intros k [<-|[]]. reflexivity.
Defined.

Ltac fall_through :=
  let H0 := fresh "H0" in
  let Hs := fresh "Hs" in
  let Hy := fresh "Hy" in
  let Hn := fresh "Hn" in
  intros H0 Hs Hy Hn; run_script; flatten; rewrite H0; cbn; rewrite Hs; cbn;
  unfold Response_value in Hy, Hn; now rewrite Hy, Hn.

(** X12: neither chat function has a branch for a classifier answer
    whose [selection] is neither [yes] nor [no]: the call makes no
    further call of the model and returns the empty list. *)
Theorem other_selection_returns_nothing (lm : Model)
  (messages : list ContentMessage) (g0 : Generated) (selection : JValue) :
  (json lm YesNo_schema (classifier_context BUILD_ANALYZE messages)
   = Return g0 ->
   subscript (value g0) "selection" = Return selection ->
   equals selection (Response_value yes) = false ->
   equals selection (Response_value no) = false ->
   fastformbuild_chat lm messages = Return [])
  /\ (json lm YesNo_schema (classifier_context FILL_ANALYZE messages)
      = Return g0 ->
      subscript (value g0) "selection" = Return selection ->
      equals selection (Response_value yes) = false ->
      equals selection (Response_value no) = false ->
      fastformfill_chat lm messages = Return []).
Proof. split; fall_through. Qed.

Lemma other_selection_returns_nothing_witness :
  fastformbuild_chat Examples.undecided [] = Return []
  /\ fastformfill_chat Examples.undecided [] = Return [].
Proof.
  split.
  - apply (proj1 (other_selection_returns_nothing Examples.undecided []
                    (Samples.generated (JObj [("selection", JStr "maybe")]))
                    (JStr "maybe"))); reflexivity.
  - apply (proj2 (other_selection_returns_nothing Examples.undecided []
                    (Samples.generated (JObj [("selection", JStr "maybe")]))
                    (JStr "maybe"))); reflexivity.
Defined.

End AiExtras.

(** * Further properties of the services *)

Module ServiceExtras.
Import Guidance Services Prefix Frame ResultFacts ServicesFacts.

Section Preserved.

Variable message_data : MessageCreate.

Lemma extended_same_tables (s s' : Session) :
  message_table s' = message_table s ->
  annotation_table s' = annotation_table s ->
  extended message_data s s'.
Proof.
  intros Hm Hn. split; [|exact Hn]. exists [].
  split; [now rewrite app_nil_r|constructor].
Qed.

Lemma extended_refl (s : Session) : extended message_data s s.
Proof. now apply extended_same_tables. Qed.

Lemma step_trans (s1 s2 s3 : Session) :
  step message_data s1 s2 -> step message_data s2 s3 ->
  step message_data s1 s3.
Proof.
  intros H12 H23 Ha. destruct (H12 Ha) as [[(r1 & E1 & F1) A1] Ha2].
  destruct (H23 Ha2) as [[(r2 & E2 & F2) A2] Ha3].
  split; [|exact Ha3]. split; [|congruence].
  exists (r1 ++ r2). split; [now rewrite E2, E1, app_assoc|].
  now apply Forall_app.
Qed.

Lemma preserves_unchanged {A} (c : Db A) :
  (forall s r s', c s = (r, s') -> s' = s) -> preserves message_data c.
Proof.
  intros H s r s' E Ha. rewrite (H s r s' E).
  split; [apply extended_refl|exact Ha].
Qed.

Lemma preserves_ret {A} (a : A) : preserves message_data (ret a).
Proof. apply preserves_unchanged. unfold ret. congruence. Qed.

Lemma preserves_raise {A} (e : Exception) :
  preserves message_data (@raise A e).
Proof. apply preserves_unchanged. unfold raise. congruence. Qed.

Lemma preserves_lift {A} (c : Raises A) : preserves message_data (lift c).
Proof. apply preserves_unchanged. unfold lift. congruence. Qed.

Lemma preserves_get_annotation_by_id (id : Z) :
  preserves message_data (get_annotation_by_id id).
Proof.
  apply preserves_unchanged. unfold get_annotation_by_id. intros s r s'.
  destruct (find _ _); congruence.
Qed.

Lemma preserves_get_thread_history (thread_id : string) :
  preserves message_data (_get_thread_history thread_id).
Proof.
  apply preserves_unchanged. unfold _get_thread_history. intros s r s'.
  destruct (filter _ _); congruence.
Qed.

Lemma preserves_bind {A B} (c : Db A) (k : A -> Db B) :
  preserves message_data c -> (forall a, preserves message_data (k a)) ->
  preserves message_data (bind_db c k).
Proof.
  intros Hc Hk s r s'. unfold bind_db.
  destruct (c s) as [[a|e] s1] eqn:E.
  - intros E2. eapply step_trans; [eapply Hc, E|eapply Hk, E2].
  - intros [= <- <-]. eapply Hc, E.
Qed.

Lemma preserves_try {A} (c : Db A) (h : nat -> string -> Db A) :
  preserves message_data c ->
  (forall status_code detail, preserves message_data (h status_code detail)) ->
  preserves message_data (try_except_HTTPException c h).
Proof.
  intros Hc Hh s r s'. unfold try_except_HTTPException.
  destruct (c s) as [[a|e] s1] eqn:E.
  - intros [= <- <-]. eapply Hc, E.
  - destruct e; try (intros [= <- <-]; eapply Hc, E).
    intros E2. eapply step_trans; [eapply Hc, E|eapply Hh, E2].
Qed.

Lemma preserves_session_commit : preserves message_data session_commit.
Proof.
  intros s r s'. unfold session_commit. intros [= <- <-] Ha.
  cbn [message_table annotation_table added].
  split; [|constructor]. split; [|reflexivity]. now exists (added s).
Qed.

Lemma preserves_session_add (m : Message) :
  own_row message_data m -> preserves message_data (session_add m).
Proof.
  intros Hm s r s'. unfold session_add. intros [= <- <-] Ha.
  cbn [message_table annotation_table added].
  split; [now apply extended_same_tables|]. apply Forall_app.
  split; [exact Ha|]. now constructor.
Qed.

(** A row is created for the thread and the user of the request. *)
Lemma preserves_new_Message {B} (content : JValue) (k : Message -> Db B) :
  (forall m, own_row message_data m -> preserves message_data (k m)) ->
  preserves message_data
    (bind_db (new_Message content (thread_id message_data)
                (user_id message_data)) k).
Proof.
  intros Hk s r s'. unfold bind_db, new_Message. intros E Ha.
  assert (Hm : own_row message_data
                 (mkMessage content (thread_id message_data)
                    (user_id message_data) (clock s)))
    by (split; reflexivity).
  destruct (Hk _ Hm _ _ _ E Ha) as [[(rows & Er & Fr) An] Ha'].
  split; [|exact Ha']. split; [|exact An]. now exists rows.
Qed.

Lemma preserves_add_response (_response : list (option ContentMessage)) :
  preserves message_data
    (add_response (thread_id message_data) (user_id message_data) _response).
Proof.
  induction _response as [|msg rest IH]; cbn [add_response].
  - apply preserves_ret.
  - apply preserves_bind; [apply preserves_lift|]. intros content.
    apply preserves_new_Message. intros m Hm.
    apply preserves_bind; [now apply preserves_session_add|]. intros _.
    apply preserves_bind; [exact IH|]. intros created. apply preserves_ret.
Qed.

Ltac frame :=
  repeat first
    [ apply preserves_ret
    | apply preserves_raise
    | apply preserves_lift
    | apply preserves_session_commit
    | apply preserves_get_thread_history
    | apply preserves_get_annotation_by_id
    | apply preserves_add_response
    | apply preserves_session_add; assumption
    | apply preserves_new_Message; intros
    | apply preserves_try; [|intros]
    | apply preserves_bind; [|intros]
    | match goal with
      | |- preserves _ (if ?b then _ else _) => destruct b
      | |- preserves _ (match ?x with _ => _ end) => destruct x
      end ].

Lemma preserves_build_chat b64decode decode lm form_pages :
  preserves message_data
    (FastformBuildMessageService_chat b64decode decode lm message_data
       form_pages).
Proof. unfold FastformBuildMessageService_chat. cbv zeta. frame. Qed.

Lemma preserves_fill_chat lm :
  preserves message_data (FastfillMessageService_chat lm message_data).
Proof. unfold FastfillMessageService_chat. cbv zeta. frame. Qed.

End Preserved.

(** X13: whatever its outcome, a Build or Fill turn only appends to
    the message table, and only rows of the thread and the user of the
    request: no stored message is changed or removed, no other thread
    is written to, and the annotations are untouched. *)
Theorem turn_frame b64decode decode lm message_data form_pages s r s' :
  added s = [] ->
  FastformBuildMessageService_chat b64decode decode lm message_data
    form_pages s = (r, s')
  \/ FastfillMessageService_chat lm message_data s = (r, s') ->
  extended message_data s s'.
Proof.
  intros Ha [H|H].
  - apply (preserves_build_chat message_data b64decode decode lm form_pages
             s r s' H). rewrite Ha. constructor.
  - apply (preserves_fill_chat message_data lm s r s' H). rewrite Ha.
    constructor.
Qed.

Lemma turn_frame_witness :
  extended Samples.request Samples.empty_session
    (snd (FastformBuildMessageService_chat Samples.sample_b64decode
            Samples.sample_decode
            (Samples.scripted Ai.yes (Fastform.Form_dump Samples.stored_form)
               "Done.")
            Samples.request None Samples.empty_session)).
Proof.
  eapply (turn_frame Samples.sample_b64decode Samples.sample_decode
            (Samples.scripted Ai.yes (Fastform.Form_dump Samples.stored_form)
               "Done.")
            Samples.request None Samples.empty_session).
  - reflexivity.
  - left. apply surjective_pairing.
Defined.

(** X14: the Fill service looks the annotation up only when
    [load_annotation_id] is truthy.  With the identifier 0 the turn is
    the turn of the request without identifier; with an identifier
    other than 0 that no annotation has, the turn fails with status
    404 before anything is stored. *)
Theorem fill_annotation_lookup lm message_data s :
  (load_annotation_id message_data = Some 0%Z ->
   FastfillMessageService_chat lm message_data s
   = FastfillMessageService_chat lm (without_annotation message_data) s)
  /\ (forall id,
        load_annotation_id message_data = Some id -> id <> 0%Z ->
        find (fun a => Z.eqb (Annotation_id a) id) (annotation_table s) = None ->
        FastfillMessageService_chat lm message_data s
        = (Raise (HTTPException 404
                    (String.append "Annotation "
                       (String.append (quoted (str_of_int id)) " not found"))),
           s)).
Proof.
  split.
  - intros H. unfold FastfillMessageService_chat, without_annotation.
    cbn [load_annotation_id thread_id user_id content]. now rewrite H.
  - intros id H Hz Hf. unfold FastfillMessageService_chat. rewrite H.
    apply Z.eqb_neq in Hz. rewrite Hz. unfold bind_db at 1. unfold bind_db at 1.
    unfold get_annotation_by_id. now rewrite Hf.
Qed.

Lemma fill_annotation_lookup_witness :
  FastfillMessageService_chat (Samples.scripted Ai.no JNull "Hello")
    (mkMessageCreate "my name is Ada" "t1" "u1" (Some 7%Z))
    Samples.stored_session
  = (Raise (HTTPException 404 "Annotation '7' not found"),
     Samples.stored_session).
Proof.
  apply (proj2 (fill_annotation_lookup (Samples.scripted Ai.no JNull "Hello")
                  (mkMessageCreate "my name is Ada" "t1" "u1" (Some 7%Z))
                  Samples.stored_session) 7%Z);
    [reflexivity|discriminate|reflexivity].
Defined.

Lemma history_existing seed message_data s :
  filter (fun m => String.eqb (Message_thread_id m) (thread_id message_data))
         (message_table s) <> [] ->
  history seed message_data s
  = (Return (filter (fun m => String.eqb (Message_thread_id m)
                                         (thread_id message_data))
                    (message_table s)), s).
Proof.
  intros H. unfold history, try_except_HTTPException, _get_thread_history.
  destruct (filter _ _); [contradiction|reflexivity].
Qed.

(** X15: on a thread that already has messages, the annotation named
    by [load_annotation_id] is looked up and then not used: the turn is
    the turn of the request without identifier, and the stored
    structure does not reach the model. *)
Theorem fill_existing_thread lm message_data s id a :
  load_annotation_id message_data = Some id ->
  find (fun a => Z.eqb (Annotation_id a) id) (annotation_table s) = Some a ->
  filter (fun m => String.eqb (Message_thread_id m) (thread_id message_data))
         (message_table s) <> [] ->
  FastfillMessageService_chat lm message_data s
  = FastfillMessageService_chat lm (without_annotation message_data) s.
Proof.
  intros Hid Hf Ht. rewrite !fill_chat_split. unfold bind_db at 1.
  unfold bind_db at 1.
  replace (fill_receive (without_annotation message_data) s)
    with (fill_receive message_data s); [reflexivity|].
  unfold fill_receive, without_annotation.
  cbn [load_annotation_id thread_id user_id content]. rewrite Hid.
  destruct (Z.eqb id 0); [reflexivity|].
  unfold bind_db, get_annotation_by_id. rewrite Hf. cbn [ret].
  rewrite !history_existing by exact Ht. reflexivity.
Qed.

Lemma fill_existing_thread_witness :
  FastfillMessageService_chat (Samples.scripted Ai.no JNull "Hello")
    Samples.fill_request Examples.running_session
  = FastfillMessageService_chat (Samples.scripted Ai.no JNull "Hello")
      (without_annotation Samples.fill_request) Examples.running_session.
Proof.
  apply (fill_existing_thread (Samples.scripted Ai.no JNull "Hello")
           Samples.fill_request Examples.running_session 1%Z
           (Services.mkAnnotation 1%Z
              (Samples.dumps (Fastform.Form_dump Samples.stored_form)) "u1"));
    [reflexivity|reflexivity|discriminate].
Defined.









Lemma seeded_conversation seed message_data s :
  filter (fun m => String.eqb (Message_thread_id m) (thread_id message_data))
         (message_table s) = [] ->
  exists s1,
    bind_db (history seed message_data)
      (fun thread =>
         receive thread message_data
           (Return [text_item (content message_data)])) s
    = (Return [mkContentMessage system [TextContent seed];
               mkContentMessage user [TextContent (content message_data)]],
       s1).
Proof.
  intros Ht. unfold bind_db at 1.
  unfold history, try_except_HTTPException, _get_thread_history. rewrite Ht.
  cbn [Nat.eqb HTTP_404_NOT_FOUND].
  unfold bind_db, new_Message, session_add, session_commit, ret.
  cbn [message_table annotation_table added clock].
  unfold receive, bind_db, lift, ret.
  cbn [sort_by_timestamp fold_right insert_by_timestamp validate_thread
       Message_content bind].
  rewrite FlowProperties.system_message_validated. cbn [validated bind].
  pose proof (user_message_validated (content message_data) []) as U.
  cbn [map] in U. rewrite U. cbn [validated app].
  unfold new_Message, session_add, session_commit.
  cbn [message_table annotation_table added clock].
  eexists. reflexivity.
Qed.

(** X21: the conversation of the first turn of a thread.  The Build
    service hands the orchestration the system message with
    [SYSTEM_PROMPT] followed by the user message; the Fill service,
    given no annotation identifier, the system message with
    [SYSTEM_PROMPT_FILL] on the placeholder [No structure provided]
    followed by the user message. *)
Theorem first_turn_conversation b64decode decode message_data s :
  filter (fun m => String.eqb (Message_thread_id m) (thread_id message_data))
         (message_table s) = [] ->
  (exists s1,
     build_receive b64decode decode message_data None s
     = (Return [mkContentMessage system [TextContent Ai.SYSTEM_PROMPT];
                mkContentMessage user [TextContent (content message_data)]],
        s1))
  /\ (load_annotation_id message_data = None ->
      exists s1,
        fill_receive message_data s
        = (Return [mkContentMessage system
                     [TextContent (Ai.SYSTEM_PROMPT_FILL "No structure provided")];
                   mkContentMessage user [TextContent (content message_data)]],
           s1)).
Proof.
  intros Ht. split.
  - unfold build_receive. now apply seeded_conversation.
  - intros Hid. unfold fill_receive. rewrite Hid. unfold bind_db at 1.
    cbn [ret]. now apply seeded_conversation.
Qed.

Lemma first_turn_conversation_witness :
  exists s1,
    build_receive Samples.sample_b64decode Samples.sample_decode
      Samples.request None Samples.empty_session
    = (Return [mkContentMessage system [TextContent Ai.SYSTEM_PROMPT];
               mkContentMessage user [TextContent "my name is Ada"]],
       s1).
Proof.
  apply (proj1 (first_turn_conversation Samples.sample_b64decode
                  Samples.sample_decode Samples.request Samples.empty_session
                  eq_refl)).
Defined.

End ServiceExtras.

(** * Properties of the endpoints *)

Module ApiExtras.
Import Guidance Services Prefix Frame ResultFacts ServicesFacts.

Lemma add_response_rows thread_id user_id
  (_response : list (option ContentMessage)) :
  forall s created s',
    add_response thread_id user_id _response s = (Return created, s') ->
    message_table s' = message_table s
    /\ added s' = added s ++ created
    /\ Forall2 (fun msg m => exists c, msg = Some c
                                       /\ Message_content m = ContentMessage_dump c)
               _response created.
Proof.
  induction _response as [|msg rest IH]; intros s created s' H;
    cbn [add_response] in H.
  - injection H as <- <-. rewrite app_nil_r. repeat split. constructor.
  - unfold bind_db at 1 in H. unfold lift in H.
    destruct msg as [c|]; cbn [model_dump_json] in H; [|discriminate H].
    unfold bind_db at 1, new_Message in H.
    unfold bind_db at 1, session_add in H.
    cbn [message_table annotation_table added clock] in H.
    unfold bind_db at 1 in H.
    destruct (add_response thread_id user_id rest _) as [[tl|e] s2] eqn:E;
      [|discriminate H].
    unfold ret in H. injection H as <- <-.
    apply IH in E as (Et & Ea & Ef).
    cbn [message_table added] in Et, Ea.
    split; [exact Et|]. split; [now rewrite Ea, <- app_assoc|].
    constructor; [|exact Ef]. exists c. split; reflexivity.
Qed.

(** The rows that [chat] returns for the messages of the
    orchestration. *)
Lemma respond_rows (out : list (option ContentMessage)) message_data s rows s' :
  respond (Return out) message_data s = (Return rows, s') ->
  message_table s' = message_table s ++ added s ++ rows
  /\ Forall2 (fun msg m => exists c, msg = Some c
                                     /\ Message_content m = ContentMessage_dump c)
             out rows.
Proof.
  unfold respond. unfold bind_db at 1. unfold lift. unfold bind_db at 1.
  destruct (add_response _ _ out s) as [[created|e] s2] eqn:E; [|discriminate].
  unfold bind_db, session_commit, ret. intros [= <- <-].
  apply add_response_rows in E as (Et & Ea & Ef).
  cbn [message_table]. now rewrite Et, Ea.
Qed.

Lemma respond_returns (out : list ContentMessage) message_data s :
  exists rows s',
    respond (Return (map Some out)) message_data s = (Return rows, s')
    /\ map Message_content rows = map ContentMessage_dump out.
Proof.
  unfold respond. unfold bind_db at 1. unfold lift. unfold bind_db at 1.
  assert (H : forall s, exists created s2,
             add_response (thread_id message_data) (user_id message_data)
               (map Some out) s = (Return created, s2)
             /\ map Message_content created = map ContentMessage_dump out).
  { clear s. induction out as [|c out IH]; intros s; cbn [map add_response].
    - exists [], s. split; reflexivity.
    - unfold bind_db at 1. unfold lift. cbn [model_dump_json].
      unfold bind_db at 1, new_Message. unfold bind_db at 1, session_add.
      cbn [message_table annotation_table added clock]. unfold bind_db at 1.
      destruct (IH (mkSession (message_table s) (annotation_table s)
                      (added s ++ [mkMessage (ContentMessage_dump c)
                                     (thread_id message_data)
                                     (user_id message_data) (clock s)])
                      (S (clock s)))) as (tl & s2 & E & Em).
      rewrite E. unfold ret. eexists. eexists. split; [reflexivity|].
      cbn [map Message_content]. now rewrite Em. }
  destruct (H s) as (created & s2 & E & Em). rewrite E.
  unfold bind_db, session_commit, ret. eexists. eexists.
  split; [reflexivity|exact Em].
Qed.

Lemma form_data_of_text (m1 m2 : Message) (c : ContentMessage)
  (t : string) (rest : list Content) :
  Message_content m1 = ContentMessage_dump c ->
  Guidance.content c = TextContent t :: rest ->
  Api.extract_form_data [m1; m2] = Some (JStr t).
Proof.
  intros Hm Hc. unfold Api.extract_form_data. cbn [List.length Nat.eqb].
  rewrite Hm. unfold ContentMessage_dump. rewrite Hc. reflexivity.
Qed.

(** What either endpoint answers, by the result of the orchestration:
    [chat] is the service method, [received] the part of it up to the
    call of the orchestration. *)
Lemma endpoint_answer (chat : Db (list Message))
  (orchestrate : list ContentMessage -> Raises (list (option ContentMessage)))
  (receive : Db (list ContentMessage)) message_data s messages s1 :
  (forall s, chat s
             = bind_db receive
                 (fun messages => respond (orchestrate messages) message_data) s) ->
  receive s = (Return messages, s1) ->
  (forall m1 m2 t rest,
     orchestrate messages = Return [Some m1; Some m2] ->
     Guidance.content m1 = TextContent t :: rest ->
     exists row s',
       bind_db chat Api.to_response s
       = (Return (Api.mkMessageResponse row (Some t)), s')
       /\ Message_content row = ContentMessage_dump m2)
  /\ (forall m,
        orchestrate messages = Return [Some m] ->
        exists row s',
          bind_db chat Api.to_response s
          = (Return (Api.mkMessageResponse row None), s')
          /\ Message_content row = ContentMessage_dump m)
  /\ (orchestrate messages = Return [] ->
      exists s',
        bind_db chat Api.to_response s
        = (Raise (HTTPException 500 "No response"), s')
        /\ message_table s' = message_table s1 ++ added s1)
  /\ (forall e,
        orchestrate messages = Raise e ->
        bind_db chat Api.to_response s = (Raise e, s1)).
Proof.
  intros Hchat Hr.
  assert (Hs : forall (k : list Message -> Db Api.MessageResponse),
             bind_db chat k s
             = bind_db (respond (orchestrate messages) message_data) k s1).
  { intros k. unfold bind_db. rewrite Hchat. unfold bind_db.
    now rewrite Hr. }
  repeat split.
  - intros m1 m2 t rest Ho Hc. rewrite Hs, Ho.
    destruct (respond_returns [m1; m2] message_data s1)
      as (rows & s' & E & Em).
    cbn [map] in E. unfold bind_db. rewrite E.
    destruct rows as [|r1 [|r2 [|r3 rows]]]; try discriminate Em.
    cbn [map] in Em. injection Em as E1 E2.
    exists r2, s'. split; [|exact E2].
    unfold Api.to_response, Api.last_message. cbn [map List.last].
    rewrite (form_data_of_text r1 r2 m1 t rest E1 Hc). reflexivity.
  - intros m Ho. rewrite Hs, Ho.
    destruct (respond_returns [m] message_data s1) as (rows & s' & E & Em).
    cbn [map] in E. unfold bind_db. rewrite E.
    destruct rows as [|r1 [|r2 rows]]; try discriminate Em.
    cbn [map] in Em. injection Em as E1.
    exists r1, s'. split; [reflexivity|exact E1].
  - intros Ho. rewrite Hs, Ho. eexists. split; [reflexivity|].
    cbn [message_table]. reflexivity.
  - intros e Ho. rewrite Hs, Ho. unfold bind_db. now rewrite respond_raise.
Qed.

(** X17: what [POST /fastformbuild/chat] answers, by the result of the
    orchestration on the conversation received.  Two messages: the row
    of the second, with the first text part of the first as
    [form_data]; one message: its row, without [form_data]; no
    message: status 500 with detail [No response], the user message
    staying stored; an exception: that exception, the user message
    staying stored. *)
Theorem build_endpoint_answer b64decode decode models lm message_data
  form_pages s messages s1 :
  Api.getitem models "gpt-4o-mini" = Return lm ->
  build_receive b64decode decode message_data form_pages s
  = (Return messages, s1) ->
  (forall m1 m2 t rest,
     Ai.fastformbuild_chat lm messages = Return [Some m1; Some m2] ->
     Guidance.content m1 = TextContent t :: rest ->
     exists row s',
       Api.fastformbuild_chat b64decode decode models message_data form_pages s
       = (Return (Api.mkMessageResponse row (Some t)), s')
       /\ Message_content row = ContentMessage_dump m2)
  /\ (forall m,
        Ai.fastformbuild_chat lm messages = Return [Some m] ->
        exists row s',
          Api.fastformbuild_chat b64decode decode models message_data
            form_pages s
          = (Return (Api.mkMessageResponse row None), s')
          /\ Message_content row = ContentMessage_dump m)
  /\ (Ai.fastformbuild_chat lm messages = Return [] ->
      exists s',
        Api.fastformbuild_chat b64decode decode models message_data
          form_pages s
        = (Raise (HTTPException 500 "No response"), s')
        /\ message_table s' = message_table s1 ++ added s1)
  /\ (forall e,
        Ai.fastformbuild_chat lm messages = Raise e ->
        Api.fastformbuild_chat b64decode decode models message_data
          form_pages s = (Raise e, s1)).
Proof.
  intros Hlm Hr.
  assert (E : Api.fastformbuild_chat b64decode decode models message_data
                form_pages s
              = bind_db (FastformBuildMessageService_chat b64decode decode lm
                           message_data form_pages) Api.to_response s).
  { unfold Api.fastformbuild_chat. unfold bind_db at 1. unfold lift.
    now rewrite Hlm. }
  rewrite E.
  apply (endpoint_answer _ (Ai.fastformbuild_chat lm)
           (build_receive b64decode decode message_data form_pages)
           message_data).
  - intros s0. apply build_chat_split.
  - exact Hr.
Qed.

Lemma build_endpoint_answer_witness :
  exists row s',
    Api.fastformbuild_chat Samples.sample_b64decode Samples.sample_decode
      [("gpt-4o-mini",
        Samples.scripted Ai.yes (Fastform.Form_dump Samples.stored_form) "Done.")]
      Samples.request None Samples.empty_session
    = (Return (Api.mkMessageResponse row
                 (Some (Samples.dumps (Fastform.Form_dump Samples.stored_form)))),
       s')
    /\ Message_content row
       = ContentMessage_dump (Turn.assistant_message "Done.").
Proof.
  pose proof (build_endpoint_answer Samples.sample_b64decode
                Samples.sample_decode
                [("gpt-4o-mini",
                  Samples.scripted Ai.yes
                    (Fastform.Form_dump Samples.stored_form) "Done.")]
                (Samples.scripted Ai.yes
                   (Fastform.Form_dump Samples.stored_form) "Done.")
                Samples.request None Samples.empty_session) as H.
  edestruct H as [Hyes _]; [reflexivity|vm_compute; reflexivity|].
  eapply Hyes; reflexivity.
Defined.

(** X18: [POST /fastfill/chat] answers in the same way. *)
Theorem fill_endpoint_answer models lm message_data s messages s1 :
  Api.getitem models "gpt-4o-mini" = Return lm ->
  fill_receive message_data s = (Return messages, s1) ->
  (forall m1 m2 t rest,
     Ai.fastformfill_chat lm messages = Return [Some m1; Some m2] ->
     Guidance.content m1 = TextContent t :: rest ->
     exists row s',
       Api.fastfill_chat models message_data s
       = (Return (Api.mkMessageResponse row (Some t)), s')
       /\ Message_content row = ContentMessage_dump m2)
  /\ (forall m,
        Ai.fastformfill_chat lm messages = Return [Some m] ->
        exists row s',
          Api.fastfill_chat models message_data s
          = (Return (Api.mkMessageResponse row None), s')
          /\ Message_content row = ContentMessage_dump m)
  /\ (Ai.fastformfill_chat lm messages = Return [] ->
      exists s',
        Api.fastfill_chat models message_data s
        = (Raise (HTTPException 500 "No response"), s')
        /\ message_table s' = message_table s1 ++ added s1)
  /\ (forall e,
        Ai.fastformfill_chat lm messages = Raise e ->
        Api.fastfill_chat models message_data s = (Raise e, s1)).
Proof.
  intros Hlm Hr.
  assert (E : Api.fastfill_chat models message_data s
              = bind_db (FastfillMessageService_chat lm message_data)
                  Api.to_response s).
  { unfold Api.fastfill_chat. unfold bind_db at 1. unfold lift.
    now rewrite Hlm. }
  rewrite E.
  apply (endpoint_answer _ (Ai.fastformfill_chat lm)
           (fill_receive message_data) message_data).
  - intros s0. apply fill_chat_split.
  - exact Hr.
Qed.

Lemma fill_endpoint_answer_witness :
  exists s',
    Api.fastfill_chat [("gpt-4o-mini", Examples.undecided)]
      Samples.fill_request Samples.stored_session
    = (Raise (HTTPException 500 "No response"), s')
    /\ map row_role (message_table s') = [Some system; Some user].
Proof.
  pose proof (fill_endpoint_answer [("gpt-4o-mini", Examples.undecided)]
                Examples.undecided Samples.fill_request
                Samples.stored_session) as H.
  edestruct H as (_ & _ & Hnone & _); [reflexivity|vm_compute; reflexivity|].
  destruct (Hnone eq_refl) as (s' & E & Et).
  exists s'. split; [exact E|]. rewrite Et. reflexivity.
Defined.

(** X19: the models are registered by [init_models] under the key
    [gpt-4o-mini] only when an OpenAI key is configured.  Without one,
    either chat endpoint fails with [KeyError] before the service is
    called, and the session is as it was. *)
Theorem chat_without_model (OpenAI : string -> string -> Model)
  (openai : option string) b64decode decode message_data form_pages s :
  openai = None \/ openai = Some EmptyString ->
  Api.fastformbuild_chat b64decode decode (Main.init_models OpenAI openai)
    message_data form_pages s = (Raise (KeyError "gpt-4o-mini"), s)
  /\ Api.fastfill_chat (Main.init_models OpenAI openai) message_data s
     = (Raise (KeyError "gpt-4o-mini"), s).
Proof. intros [->| ->]; split; reflexivity. Qed.

Lemma chat_without_model_witness :
  Api.fastfill_chat
    (Main.init_models (fun _ _ => Samples.failing) None)
    Samples.fill_request Samples.stored_session
  = (Raise (KeyError "gpt-4o-mini"), Samples.stored_session).
Proof.
  apply (chat_without_model (fun _ _ => Samples.failing) None
           Samples.sample_b64decode Samples.sample_decode Samples.fill_request
           None Samples.stored_session).
  now left.
Defined.

Lemma receive_commits thread message_data items s messages s1 :
  receive thread message_data items s = (Return messages, s1) ->
  added s1 = [].
Proof.
  unfold receive, bind_db, lift, new_Message, session_add, session_commit, ret.
  destruct (validate_thread _); [|discriminate].
  destruct items; [|discriminate].
  destruct (validated _); [|discriminate].
  now intros [= _ <-].
Qed.

Lemma build_receive_commits b64decode decode message_data form_pages s
  messages s1 :
  build_receive b64decode decode message_data form_pages s
  = (Return messages, s1) ->
  added s1 = [].
Proof.
  unfold build_receive. unfold bind_db at 1.
  destruct (history _ _ s) as [[thread|e] s0]; [|discriminate].
  apply receive_commits.
Qed.

Lemma fill_receive_commits message_data s messages s1 :
  fill_receive message_data s = (Return messages, s1) -> added s1 = [].
Proof.
  unfold fill_receive. unfold bind_db at 1.
  match goal with
  | |- match ?c s with _ => _ end = _ -> _ =>
      destruct (c s) as [[a|e] s0]; [|discriminate]
  end.
  unfold bind_db at 1.
  destruct (history _ _ s0) as [[thread|e] s2]; [|discriminate].
  apply receive_commits.
Qed.

(** The message table after a turn that returns. *)
Lemma turn_rows (receive : Db (list ContentMessage))
  (orchestrate : list ContentMessage -> Raises (list (option ContentMessage)))
  message_data s rows s' :
  (forall messages s1, receive s = (Return messages, s1) ->
                       received message_data s s1 /\ added s1 = []) ->
  bind_db receive
    (fun messages => respond (orchestrate messages) message_data) s
  = (Return rows, s') ->
  exists seed row,
    message_table s' = message_table s ++ seed ++ [row] ++ rows
    /\ List.length seed <= 1
    /\ (forall m, In m seed -> row_role m = Some system)
    /\ row_role row = Some user.
Proof.
  intros Hrec. unfold bind_db at 1.
  destruct (receive s) as [[messages|e] s1] eqn:E; [|discriminate].
  destruct (Hrec messages s1 eq_refl) as [(seed & row & Et & Hl & Hs & Hu & _) Ha].
  destruct (orchestrate messages) as [out|e] eqn:Eo;
    [|rewrite respond_raise; discriminate].
  intros H. apply respond_rows in H as [H _]. rewrite Ha in H. cbn [app] in H.
  exists seed, row. rewrite H, Et, <- !app_assoc. repeat split; assumption.
Qed.

Lemma filter_own_rows message_data (rows : list Message) :
  Forall (own_row message_data) rows ->
  filter (fun m => String.eqb (Message_thread_id m) (thread_id message_data))
         rows = rows.
Proof.
  induction 1 as [|m rows [Hm _] _ IH]; [reflexivity|].
  cbn [filter]. rewrite Hm, String.eqb_refl. now rewrite IH.
Qed.

(** X20: the history endpoint after a turn that returns.  It lists
    the rows that the thread had, the system message if the turn began
    the thread, the user message, and the rows that the turn returned,
    in this order and each without [form_data]. *)
Theorem history_after_turn b64decode decode lm message_data form_pages
  s rows s' :
  added s = [] ->
  FastformBuildMessageService_chat b64decode decode lm message_data
    form_pages s = (Return rows, s')
  \/ FastfillMessageService_chat lm message_data s = (Return rows, s') ->
  exists seed row,
    Api.get_thread_history (thread_id message_data) s'
    = (Return
         (map (fun m => Api.mkMessageResponse m None)
            (filter (fun m => String.eqb (Message_thread_id m)
                                         (thread_id message_data))
                    (message_table s)
             ++ seed ++ [row] ++ rows)),
       s')
    /\ List.length seed <= 1
    /\ (forall m, In m seed -> row_role m = Some system)
    /\ row_role row = Some user.
Proof.
  intros Ha H.
  assert (Hext : extended message_data s s').
  { assert (Hp : Forall (own_row message_data) (added s))
      by (rewrite Ha; constructor).
    destruct H as [H|H].
    - apply (ServiceExtras.preserves_build_chat message_data b64decode decode
               lm form_pages s (Return rows) s' H Hp).
    - apply (ServiceExtras.preserves_fill_chat message_data lm s (Return rows)
               s' H Hp). }
  destruct Hext as [(R & ER & FR) _].
  assert (Hrows : exists seed row,
             message_table s' = message_table s ++ seed ++ [row] ++ rows
             /\ List.length seed <= 1
             /\ (forall m, In m seed -> row_role m = Some system)
             /\ row_role row = Some user).
  { destruct H as [H|H].
    - rewrite build_chat_split in H.
      apply (turn_rows _ _ message_data s rows s') in H; [exact H|].
      intros messages s1 E. split.
      + now apply (build_receive_received b64decode decode message_data
                     form_pages s messages).
      + now apply (build_receive_commits b64decode decode message_data
                     form_pages s messages).
    - rewrite fill_chat_split in H.
      apply (turn_rows _ _ message_data s rows s') in H; [exact H|].
      intros messages s1 E. split.
      + now apply (fill_receive_received message_data s messages).
      + now apply (fill_receive_commits message_data s messages). }
  destruct Hrows as (seed & row & Et & Hl & Hs & Hu).
  exists seed, row. split; [|repeat split; assumption].
  assert (HR : R = seed ++ [row] ++ rows).
  { rewrite ER in Et. now apply app_inv_head in Et. }
  unfold Api.get_thread_history, bind_db, _get_thread_history.
  rewrite ER, filter_app, (filter_own_rows message_data R FR), HR.
  destruct (filter _ (message_table s) ++ seed ++ [row] ++ rows) eqn:E.
  - apply app_eq_nil in E as [_ E]. apply app_eq_nil in E as [_ E].
    discriminate E.
  - reflexivity.
Qed.

Lemma history_after_turn_witness :
  exists seed row rows s',
    FastformBuildMessageService_chat Samples.sample_b64decode
      Samples.sample_decode (Samples.scripted Ai.no JNull "Hello")
      Samples.request None Samples.empty_session = (Return rows, s')
    /\ Api.get_thread_history "t1" s'
       = (Return (map (fun m => Api.mkMessageResponse m None)
                    (seed ++ [row] ++ rows)), s').
Proof.
  destruct (FastformBuildMessageService_chat Samples.sample_b64decode
              Samples.sample_decode (Samples.scripted Ai.no JNull "Hello")
              Samples.request None Samples.empty_session)
    as [[rows|e] s'] eqn:E; [|vm_compute in E; discriminate E].
  destruct (history_after_turn Samples.sample_b64decode Samples.sample_decode
              (Samples.scripted Ai.no JNull "Hello") Samples.request None
              Samples.empty_session rows s' eq_refl (or_introl E))
    as (seed & row & Hh & _).
  exists seed, row, rows, s'. split; [reflexivity|exact Hh].
Defined.

Lemma row_role_content (m : Message) (c : ContentMessage) :
  Message_content m = ContentMessage_dump c -> row_role m = Some (role c).
Proof.
  intros H. unfold row_role. now rewrite H, ContentMessage_validate_dump.
Qed.

Lemma Forall2_one {A B} (R : A -> B -> Prop) (a : A) (l : list B) :
  Forall2 R [a] l -> exists b, l = [b] /\ R a b.
Proof.
  intros H. inversion H as [|? b ? l' Hab Hn]; subst. inversion Hn; subst.
  now exists b.
Qed.

Lemma Forall2_two {A B} (R : A -> B -> Prop) (a1 a2 : A) (l : list B) :
  Forall2 R [a1; a2] l -> exists b1 b2, l = [b1; b2] /\ R a1 b1 /\ R a2 b2.
Proof.
  intros H. inversion H as [|? b1 ? l' Hab Hn]; subst.
  apply Forall2_one in Hn as (b2 & -> & Hb). now exists b1, b2.
Qed.

Lemma returned_by (receive : Db (list ContentMessage))
  (orchestrate : list ContentMessage -> Raises (list (option ContentMessage)))
  message_data s rows s' :
  (forall messages out,
     orchestrate messages = Return out ->
     exists t, out = [Some (Turn.assistant_message t)]
               \/ exists t', out = [Some (Turn.assistant_message t');
                                     Some (Turn.assistant_message t)]) ->
  bind_db receive
    (fun messages => respond (orchestrate messages) message_data) s
  = (Return rows, s') ->
  (List.length rows = 1 \/ List.length rows = 2)
  /\ Forall (fun m => row_role m = Some assistant) rows.
Proof.
  intros Hshape. unfold bind_db at 1.
  destruct (receive s) as [[messages|e] s1]; [|discriminate].
  destruct (orchestrate messages) as [out|e] eqn:Eo;
    [|rewrite respond_raise; discriminate].
  intros H. apply respond_rows in H as [_ H].
  destruct (Hshape messages out Eo) as [t [->|[t' ->]]].
  - apply Forall2_one in H as (r & -> & c & Hs & Hc). injection Hs as <-.
    split; [now left|]. constructor; [|constructor].
    now apply row_role_content in Hc.
  - apply Forall2_two in H
      as (r1 & r2 & -> & (c1 & Hs1 & Hc1) & (c2 & Hs2 & Hc2)).
    injection Hs1 as <-. injection Hs2 as <-. split; [now right|].
    constructor; [now apply row_role_content in Hc1|].
    constructor; [now apply row_role_content in Hc2|constructor].
Qed.

(** X23: with a classifier that returns an instance of its schema, a
    Build or Fill turn that returns has stored, and returns, one or
    two rows, each of them a message of the assistant. *)
Theorem returned_rows b64decode decode lm message_data form_pages s rows s' :
  Turn.classifier_follows_schema lm ->
  FastformBuildMessageService_chat b64decode decode lm message_data
    form_pages s = (Return rows, s')
  \/ FastfillMessageService_chat lm message_data s = (Return rows, s') ->
  (List.length rows = 1 \/ List.length rows = 2)
  /\ Forall (fun m => row_role m = Some assistant) rows.
Proof.
  intros Hlm [H|H].
  - rewrite build_chat_split in H.
    apply (returned_by
             (build_receive b64decode decode message_data form_pages)
             (Ai.fastformbuild_chat lm) message_data s rows s'); [|exact H].
    intros messages out Ho.
    destruct (AiFacts.build_shapes lm messages out Hlm Ho)
      as [(g0 & g1 & t & _ & _ & _ & _ & ->)|(g0 & t & _ & _ & _ & ->)];
      exists t; [right; now exists (text g1)|now left].
  - rewrite fill_chat_split in H.
    apply (returned_by (fill_receive message_data)
             (Ai.fastformfill_chat lm) message_data s rows s'); [|exact H].
    intros messages out Ho.
    destruct (AiFacts.fill_shapes lm messages out Hlm Ho)
      as [(g0 & g1 & t & _ & _ & _ & _ & ->)|(g0 & t & _ & _ & _ & ->)];
      exists t; [right; now exists (text g1)|now left].
Qed.

Lemma returned_rows_witness :
  Forall (fun m => row_role m = Some assistant)
    match fst (FastformBuildMessageService_chat Samples.sample_b64decode
                 Samples.sample_decode (Samples.scripted Ai.no JNull "Hello")
                 Samples.request None Samples.empty_session) with
    | Return rows => rows
    | Raise _ => []
    end.
Proof.
  destruct (FastformBuildMessageService_chat Samples.sample_b64decode
              Samples.sample_decode (Samples.scripted Ai.no JNull "Hello")
              Samples.request None Samples.empty_session)
    as [[rows|e] s'] eqn:E; [|constructor].
  apply (returned_rows Samples.sample_b64decode Samples.sample_decode
           (Samples.scripted Ai.no JNull "Hello") Samples.request None
           Samples.empty_session rows s').
  - intros ctx g. cbn. intros [= <-]. reflexivity.
  - left. exact E.
Defined.

End ApiExtras.
